(** * RLTrader: the Bitcoin trading environment

    A shallow embedding of [env/BitcoinTradingEnv.py] (class
    [BitcoinTradingEnv]) and of the parts of [optimize.py] that split the
    price table and evaluate a model on the environment, with theorems about
    the ledger, the reward, the termination test, the observation vector,
    episodes, rendering and the evaluation callback.

    Layout:
    - [PyNumber]: the arithmetic the environment uses, and its instance
      [binary64] (IEEE 754 double precision, what Python's [float] and
      numpy's [float64] compute);
    - Python exceptions and the mutable attributes of [self] as a state and
      exception monad;
    - data frames, the ledger, and the methods of the class, one definition
      per method, under the method's name;
    - episodes, row slices of a table, [render] and [close], and the split,
      the callback and the cost of a trial of [optimize.py];
    - stand-ins for the collaborators (scaler, forecaster, ...) on which the
      environment is run in examples;
    - the theorems. *)

From Stdlib Require Import Floats ZArith Zpower String List Bool Lia.
From Stdlib Require Import Sorting.Mergesort Sorting.Permutation Structures.Orders.
From Stdlib Require Import Sorting.Sorted.
Import ListNotations.

Set Implicit Arguments.
Set Warnings "-inexact-float".

(** ** Numbers *)

(** The operations the environment applies to its numbers.  Python resolves
    them by the run-time type of the operands; the class lists exactly the
    ones [BitcoinTradingEnv] uses. *)
Class PyNumber (F : Type) : Type := {
  of_int : Z -> F;            (* an [int] operand used where a float is *)
  num_add : F -> F -> F;      (* [x + y] *)
  num_sub : F -> F -> F;      (* [x - y] *)
  num_mul : F -> F -> F;      (* [x * y] *)
  num_div : F -> F -> F;      (* [x / y], true division *)
  num_lt : F -> F -> bool;    (* [x < y] *)
  num_eq : F -> F -> bool;    (* [x == y] *)
  num_abs : F -> F;           (* [abs(x)] *)
  inf : F                     (* [numpy.inf] *)
}.

Declare Scope num_scope.
Delimit Scope num_scope with num.
Notation "x + y" := (num_add x y) : num_scope.
Notation "x - y" := (num_sub x y) : num_scope.
Notation "x * y" := (num_mul x y) : num_scope.
Notation "x / y" := (num_div x y) : num_scope.
Notation "x <? y" := (num_lt x y) : num_scope.
Notation "x >? y" := (num_lt y x) : num_scope.
Notation "x =? y" := (num_eq x y) : num_scope.

(** [-inf], as [0 - inf]. *)
Definition neg_inf {F} `{PyNumber F} : F := (of_int 0 - inf)%num.

(** The literal [0.01]: the double nearest to 1/100, which is what the
    correctly rounded quotient [1 / 100] is. *)
Definition cent {F} `{PyNumber F} : F := (of_int 1 / of_int 100)%num.

(** Python's builtin [min(a, b)]: [b] when [b < a], else [a]. *)
Definition py_min {F} `{PyNumber F} (a b : F) : F :=
  if (b <? a)%num then b else a.

(** The three facts about the arithmetic that the structural theorems use. *)
Class PyNumberLaws (F : Type) `{PyNumber F} : Prop := {
  zero_not_positive : (of_int 0 >? of_int 0)%num = false;
  zero_is_finite : (num_abs (of_int 0) =? inf)%num = false;
  abs_is_inf : forall x : F,
    (num_abs x =? inf)%num = true <-> x = inf \/ x = neg_inf
}.
Arguments PyNumberLaws F {_}.

(** *** IEEE 754 binary64 *)

(** [int] to [float]: the nearest double, ties to even. *)
Definition float_of_Z (z : Z) : float :=
  SF2Prim (binary_normalize prec emax z 0 false).

#[export] Instance binary64 : PyNumber float := {
  of_int := float_of_Z;
  num_add := PrimFloat.add;
  num_sub := PrimFloat.sub;
  num_mul := PrimFloat.mul;
  num_div := PrimFloat.div;
  num_lt := PrimFloat.ltb;
  num_eq := PrimFloat.eqb;
  num_abs := PrimFloat.abs;
  inf := PrimFloat.infinity
}.

(** [int(x)] for a float [x]: the integer part, toward zero; nothing for
    the infinities and not-a-number, where Python raises. *)
Definition int_of_float (x : float) : option Z :=
  match Prim2SF x with
  | S754_zero _ => Some 0%Z
  | S754_finite negative m e =>
      let magnitude :=
        if (0 <=? e)%Z then (Zpos m * 2 ^ e)%Z
        else Z.quot (Zpos m) (2 ^ (- e)) in
      Some (if negative then (- magnitude)%Z else magnitude)
  | _ => None
  end.

(** ** Exceptions and state *)

Inductive exn : Type :=
| IndexError          (* a sequence indexed out of range *)
| KeyError            (* a data frame asked for a column it has not *)
| ValueError          (* arrays of shapes that do not fit; [int(nan)] *)
| OverflowError       (* a quotient of integers too large for a float *)
| CollaboratorError.  (* raised inside the scaler or the forecaster *)

Inductive result (A : Type) : Type :=
| Ok (a : A)
| Raise (e : exn).
Arguments Ok {A} a.
Arguments Raise {A} e.

(** A method of an object whose attributes are a store [S]: it returns or
    raises, and either way leaves the store as its assignments made it. *)
Definition M (S A : Type) : Type := S -> result A * S.

Definition ret {S A} (a : A) : M S A := fun s => (Ok a, s).

Definition bind {S A B} (c : M S A) (k : A -> M S B) : M S B :=
  fun s =>
    match c s with
    | (Ok a, s') => k a s'
    | (Raise e, s') => (Raise e, s')
    end.

Definition get {S} : M S S := fun s => (Ok s, s).
Definition modify {S} (f : S -> S) : M S unit := fun s => (Ok tt, f s).

(** A computation that reads no attribute: its result or its exception. *)
Definition lift {S A} (r : result A) : M S A := fun s => (r, s).

(** A computation that assigns no attribute. *)
Definition reads_only {S A} (c : M S A) : Prop := forall s, snd (c s) = s.

Declare Scope py_scope.
Delimit Scope py_scope with py.
Notation "x <- c ;; k" := (bind c (fun x => k))
  (at level 61, c at next level, right associativity) : py_scope.
Notation "c ;; k" := (bind c (fun _ => k))
  (at level 61, right associativity) : py_scope.

Definition of_option {A} (e : exn) (o : option A) : result A :=
  match o with
  | Some a => Ok a
  | None => Raise e
  end.

Definition rbind {A B} (r : result A) (k : A -> result B) : result B :=
  match r with
  | Ok a => k a
  | Raise e => Raise e
  end.

Fixpoint traverse {A B} (f : A -> result B) (xs : list A) : result (list B) :=
  match xs with
  | [] => Ok []
  | x :: xs' =>
      rbind (f x) (fun y => rbind (traverse f xs') (fun ys => Ok (y :: ys)))
  end.

(** ** Integers divided and truncated *)

(** [action / 4] for an [int] [action].  The true division of two integers
    returns the double nearest to the quotient, ties to even, and raises
    [OverflowError] ("integer division result too large for a float") when
    that is beyond the largest double.  A quarter of [action] is
    [action * 2^-2], and [binary_normalize] rounds it. *)
Definition quarter (action : Z) : result spec_float :=
  match binary_normalize prec emax action (-2) false with
  | S754_infinity _ => Raise OverflowError
  | quotient => Ok quotient
  end.

(** [int(x)] for a float [x]: the integer part, toward zero;
    [OverflowError] for an infinity and [ValueError] for not-a-number. *)
Definition py_int (x : spec_float) : result Z :=
  match x with
  | S754_zero _ => Ok 0%Z
  | S754_finite negative m e =>
      let magnitude :=
        if (0 <=? e)%Z then (Zpos m * 2 ^ e)%Z
        else Z.quot (Zpos m) (2 ^ (- e)) in
      Ok (if negative then (- magnitude)%Z else magnitude)
  | S754_infinity _ => Raise OverflowError
  | S754_nan => Raise ValueError
  end.

(** [int(action / 4)]. *)
Definition int_quarter (action : Z) : result Z :=
  rbind (quarter action) py_int.

(** The least magnitude whose quarter is beyond the doubles: [2^1024] less
    half a unit in the last place of the largest double, times 4. *)
Definition overflow_bound : Z := (2 ^ 1026 - 2 ^ 972)%Z.

(** ** Python and numpy sequences *)

(** [xs[-k]] for [k >= 1]; [IndexError] when [xs] has fewer than [k] items. *)
Definition item_from_end {A} (k : nat) (xs : list A) : result A :=
  of_option IndexError (nth_error (rev xs) (k - 1)).

(** [xs[a:b]] for [0 <= a <= b]. *)
Definition py_slice {A} (a b : nat) (xs : list A) : list A :=
  firstn (b - a) (skipn a xs).

(** [numpy.diff]: the differences of consecutive items. *)
Fixpoint np_diff {F} `{PyNumber F} (xs : list F) : list F :=
  match xs with
  | x :: (y :: _) as rest => (y - x)%num :: np_diff rest
  | _ => []
  end.

(** [numpy.append(a, b, axis=1)] on matrices held row by row: row [i] of [b]
    is put after row [i] of [a]; the row counts must agree. *)
Fixpoint zip_rows {A} (a b : list (list A)) : list (list A) :=
  match a, b with
  | ra :: a', rb :: b' => (ra ++ rb) :: zip_rows a' b'
  | _, _ => []
  end.

Definition np_append_axis1 {A} (a b : list (list A)) : result (list (list A)) :=
  if (length a =? length b)%nat then Ok (zip_rows a b) else Raise ValueError.

(** [numpy.reshape(v, (1, n))]: the [n] entries of [v] as the single row of a
    matrix, held here as that row; [ValueError] when [v] has not [n] entries. *)
Definition np_reshape {A} (v : list A) (n : nat) : result (list A) :=
  if (length v =? n)%nat then Ok v else Raise ValueError.

(** ** Data frames *)

(** A pandas frame: the column labels and the values row by row.
    [len(df)] is the number of rows. *)
Record DataFrame (F : Type) : Type := {
  columns : list string;
  values : list (list F)
}.

Definition len {F} (d : DataFrame F) : nat := length (values d).

Fixpoint index_of (name : string) (cols : list string) : option nat :=
  match cols with
  | [] => None
  | c :: cs =>
      if String.eqb c name then Some 0%nat else option_map S (index_of name cs)
  end.

Definition cell {F} (row : list F) (j : nat) : result F :=
  of_option ValueError (nth_error row j).

(** [df[name].values]. *)
Definition column {F} (d : DataFrame F) (name : string) : result (list F) :=
  rbind (of_option KeyError (index_of name (columns d)))
        (fun j => traverse (fun row => cell row j) (values d)).

(** [df[names]]: the frame of the listed columns, in the order listed. *)
Definition select {F} (d : DataFrame F) (names : list string)
  : result (DataFrame F) :=
  rbind (traverse (fun n => of_option KeyError (index_of n (columns d))) names)
        (fun js =>
           rbind (traverse (fun row => traverse (cell row) js) (values d))
                 (fun rows => Ok {| columns := names; values := rows |})).

(** [pandas.DataFrame(rows, columns=names)]. *)
Definition data_frame {F} (rows : list (list F)) (names : list string)
  : result (DataFrame F) :=
  if forallb (fun row => (length row =? length names)%nat) rows
  then Ok {| columns := names; values := rows |}
  else Raise ValueError.

Module StringOrder <: TotalLeBool.
Definition t := string.
Definition leb := String.leb.
Theorem leb_total : forall a b, leb a b = true \/ leb b a = true.
Proof. exact String.leb_total. Qed.
End StringOrder.

Module StringSort := Sort StringOrder.

Definition mentioned (names : list string) (c : string) : bool :=
  existsb (String.eqb c) names.

(** [Index.difference(other)]: the labels not in [other], each once, sorted. *)
Definition difference (cols other : list string) : list string :=
  StringSort.sort
    (nodup string_dec (filter (fun c => negb (mentioned other c)) cols)).

(** ** Collaborators *)

(** What [SARIMAX(...).fit(...).get_forecast(...)] hands back:
    [predicted_mean] and the rows [[lower, upper]] of [conf_int()]. *)
Record Forecast (F : Type) : Type := {
  predicted_mean : list F;
  conf_int : list (list F)
}.

(** The code the environment calls and does not define: pandas, sklearn,
    statsmodels, numpy's cast, and the [util] modules. *)
Record Collaborators (F : Type) : Type := {
  (* [df.fillna(method='bfill')] *)
  fillna_bfill : DataFrame F -> DataFrame F;
  (* [df.reset_index()] *)
  reset_index : DataFrame F -> DataFrame F;
  (* [util.indicators.add_indicators] *)
  add_indicators : DataFrame F -> DataFrame F;
  (* [util.stationarization.log_and_difference] *)
  log_and_difference : DataFrame F -> list string -> DataFrame F;
  (* [preprocessing.MinMaxScaler().fit_transform] *)
  fit_transform : list (list F) -> result (list (list F));
  (* [SARIMAX(endog).fit(method='bfgs', disp=False)
        .get_forecast(steps=steps, alpha=alpha)] *)
  sarimax_forecast : list F -> nat -> F -> result (Forecast F);
  (* [ndarray.astype('float16')], entry by entry *)
  astype_float16 : F -> F;
  (* [util.risk_adjusted_returns] *)
  sortino_ratio : list F -> list F -> F;
  sterling_ratio : list F -> list F -> F;
  omega_ratio : list F -> F
}.

(** ** The environment *)

(** The attributes [__init__] assigns; no method assigns them again. *)
Record Config (F : Type) : Type := {
  initial_balance : F;
  commission : F;
  reward_func : string;
  df : DataFrame F;
  stationary_df : DataFrame F;
  n_forecasts : nat;
  confidence_interval : F;
  obs_shape : nat        (* the [n] of the shape [(1, n)] *)
}.

(** An entry of [self.trades]. *)
Record Trade (F : Type) : Type := {
  trade_step : nat;
  trade_amount : F;
  trade_total : F;
  trade_type : string
}.

(** The attributes [reset] assigns and [step] updates.  [account_history] is
    the matrix row by row: balance, bought, cost, sold, sales. *)
Record Ledger (F : Type) : Type := {
  balance : F;
  net_worths : list F;
  btc_held : F;
  current_step : nat;
  account_history : list (list F);
  trades : list (Trade F)
}.

Section Attributes.
Context {F : Type}.

Definition set_balance (v : F) (self : Ledger F) : Ledger F :=
  {| balance := v; net_worths := net_worths self; btc_held := btc_held self;
     current_step := current_step self;
     account_history := account_history self; trades := trades self |}.

Definition set_net_worths (v : list F) (self : Ledger F) : Ledger F :=
  {| balance := balance self; net_worths := v; btc_held := btc_held self;
     current_step := current_step self;
     account_history := account_history self; trades := trades self |}.

Definition set_btc_held (v : F) (self : Ledger F) : Ledger F :=
  {| balance := balance self; net_worths := net_worths self; btc_held := v;
     current_step := current_step self;
     account_history := account_history self; trades := trades self |}.

Definition set_current_step (v : nat) (self : Ledger F) : Ledger F :=
  {| balance := balance self; net_worths := net_worths self;
     btc_held := btc_held self; current_step := v;
     account_history := account_history self; trades := trades self |}.

Definition set_account_history (v : list (list F)) (self : Ledger F)
  : Ledger F :=
  {| balance := balance self; net_worths := net_worths self;
     btc_held := btc_held self; current_step := current_step self;
     account_history := v; trades := trades self |}.

Definition set_trades (v : list (Trade F)) (self : Ledger F) : Ledger F :=
  {| balance := balance self; net_worths := net_worths self;
     btc_held := btc_held self; current_step := current_step self;
     account_history := account_history self; trades := v |}.
End Attributes.

(** The environment constructed with another [reward_func]. *)
Definition set_reward_func {F} (v : string) (cfg : Config F) : Config F :=
  {| initial_balance := initial_balance cfg; commission := commission cfg;
     reward_func := v; df := df cfg; stationary_df := stationary_df cfg;
     n_forecasts := n_forecasts cfg;
     confidence_interval := confidence_interval cfg;
     obs_shape := obs_shape cfg |}.

(** The [info] of [step]'s result: always the empty dict. *)
Definition Info : Type := list (string * string).

Section BitcoinTradingEnv.
Context {F : Type} `{PyNumber F}.
Variable lib : Collaborators F.

Local Open Scope py_scope.

(** [__init__(self, df, initial_balance, commission, reward_func, **kwargs)],
    the two [kwargs] it reads given as arguments.  The defaults are
    [10000], [0.0003], ['sortino'], [10] and [0.95]. *)
Definition __init__ (df0 : DataFrame F) (initial_balance commission : F)
    (reward_func : string) (n_forecasts : nat) (confidence_interval : F)
  : Config F :=
  let df1 := fillna_bfill lib df0 in
  let df1 := add_indicators lib (reset_index lib df1) in
  let stationary :=
    log_and_difference lib df1
      ["Open"; "High"; "Low"; "Close"; "Volume BTC"; "Volume USD"]%string in
  {| initial_balance := initial_balance;
     commission := commission;
     reward_func := reward_func;
     df := df1;
     stationary_df := stationary;
     n_forecasts := n_forecasts;
     confidence_interval := confidence_interval;
     obs_shape := 5 + length (columns df1) - 2 + n_forecasts * 3 |}.

Variable cfg : Config F.

(** [scaled[abs(scaled) == inf] = 0], entry by entry. *)
Definition zero_if_inf (x : F) : F :=
  if (num_abs x =? inf)%num then of_int 0 else x.

Definition _next_observation : M (Ledger F) (list F) :=
  self <- get ;;
  features <- lift (select (stationary_df cfg)
                      (difference (columns (stationary_df cfg))
                                  ["index"; "Date"]%string)) ;;
  let scaled :=
    firstn (current_step self + n_forecasts cfg + 1) (values features) in
  let scaled := map (map zero_if_inf) scaled in
  scaled <- lift (fit_transform lib scaled) ;;
  scaled <- lift (data_frame scaled (columns features)) ;;
  obs <- lift (item_from_end 1 (values scaled)) ;;
  close <- lift (column (stationary_df cfg) "Close") ;;
  let past_df := firstn (current_step self + n_forecasts cfg + 1) close in
  forecast <- lift (sarimax_forecast lib past_df (n_forecasts cfg)
                      (of_int 1 - confidence_interval cfg)%num) ;;
  let obs := obs ++ predicted_mean forecast in
  let obs := obs ++ concat (conf_int forecast) in
  scaled_history <- lift (fit_transform lib (account_history self)) ;;
  last_column <- lift (traverse (item_from_end 1) scaled_history) ;;
  let obs := obs ++ last_column in
  lift (np_reshape (map (astype_float16 lib) obs) (obs_shape cfg)).

Definition _current_price : M (Ledger F) F :=
  self <- get ;;
  close <- lift (column (df cfg) "Close") ;;
  price <- lift (of_option IndexError
                   (nth_error close (current_step self + n_forecasts cfg))) ;;
  ret (price + cent)%num.

(** [_take_action(self, action)] for an [int] [action].  The price is read
    first, then the type of the action is computed, and either may raise
    before anything is assigned. *)
Definition _take_action (action : Z) : M (Ledger F) unit :=
  current_price <- _current_price ;;
  action_type <- lift (int_quarter action) ;;
  let amount := (of_int 1 / of_int (action mod 4 + 1))%num in
  let btc_bought := of_int 0 in
  let btc_sold := of_int 0 in
  let cost := of_int 0 in
  let sales := of_int 0 in
  moved <-
    (if (action_type =? 0)%Z then
       self <- get ;;
       let price := (current_price * (of_int 1 + commission cfg))%num in
       let btc_bought :=
         py_min (balance self * amount / price)%num
                (balance self / price)%num in
       let cost := (btc_bought * price)%num in
       modify (fun self => set_btc_held (btc_held self + btc_bought)%num self) ;;
       modify (fun self => set_balance (balance self - cost)%num self) ;;
       ret (btc_bought, cost, btc_sold, sales)
     else if (action_type =? 1)%Z then
       self <- get ;;
       let price := (current_price * (of_int 1 - commission cfg))%num in
       let btc_sold := (btc_held self * amount)%num in
       let sales := (btc_sold * price)%num in
       modify (fun self => set_btc_held (btc_held self - btc_sold)%num self) ;;
       modify (fun self => set_balance (balance self + sales)%num self) ;;
       ret (btc_bought, cost, btc_sold, sales)
     else
       ret (btc_bought, cost, btc_sold, sales)) ;;
  let '(btc_bought, cost, btc_sold, sales) := moved in
  (if (btc_sold >? of_int 0)%num || (btc_bought >? of_int 0)%num then
     modify (fun self =>
       set_trades
         (trades self ++
            [{| trade_step := current_step self;
                trade_amount :=
                  if (btc_sold >? of_int 0)%num then btc_sold else btc_bought;
                trade_total :=
                  if (btc_sold >? of_int 0)%num then sales else cost;
                trade_type :=
                  if (btc_sold >? of_int 0)%num then "sell" else "buy" |}])
         self)
   else ret tt) ;;
  modify (fun self =>
    set_net_worths
      (net_worths self ++ [(balance self + btc_held self * current_price)%num])
      self) ;;
  self <- get ;;
  history <- lift (np_append_axis1 (account_history self)
                     [[balance self]; [btc_bought]; [cost];
                      [btc_sold]; [sales]]) ;;
  modify (set_account_history history).

Definition _reward : M (Ledger F) F :=
  self <- get ;;
  let returns := np_diff (net_worths self) in
  close <- lift (column (df cfg) "Close") ;;
  let benchmark :=
    np_diff (py_slice (n_forecasts cfg)
                      (n_forecasts cfg + current_step self + 1) close) in
  let reward :=
    if String.eqb (reward_func cfg) "sortino" then
      Some (sortino_ratio lib returns benchmark)
    else if String.eqb (reward_func cfg) "sterling" then
      Some (sterling_ratio lib returns benchmark)
    else if String.eqb (reward_func cfg) "omega" then
      Some (omega_ratio lib returns)
    else None in
  last <- lift (item_from_end 1 (net_worths self)) ;;
  previous <- lift (item_from_end 2 (net_worths self)) ;;
  let reward := (last - previous)%num in
  ret (if negb (num_abs reward =? inf)%num then reward else of_int 0).

Definition _done : M (Ledger F) bool :=
  self <- get ;;
  last <- lift (item_from_end 1 (net_worths self)) ;;
  ret ((last <? initial_balance cfg / of_int 10)%num
       || (Z.of_nat (current_step self)
           =? Z.of_nat (len (df cfg)) - Z.of_nat (n_forecasts cfg) - 1)%Z).

Definition reset : M (Ledger F) (list F) :=
  modify (set_balance (initial_balance cfg)) ;;
  modify (set_net_worths [initial_balance cfg]) ;;
  modify (set_btc_held (of_int 0)) ;;
  modify (set_current_step 0) ;;
  self <- get ;;
  modify (set_account_history
            [[balance self]; [of_int 0]; [of_int 0]; [of_int 0]; [of_int 0]]) ;;
  modify (set_trades []) ;;
  _next_observation.

Definition step (action : Z) : M (Ledger F) (list F * F * bool * Info) :=
  _take_action action ;;
  modify (fun self => set_current_step (current_step self + 1) self) ;;
  obs <- _next_observation ;;
  reward <- _reward ;;
  done <- _done ;;
  ret (obs, reward, done, []).

End BitcoinTradingEnv.

(** An environment as [__init__] leaves it. *)
Definition constructed {F} `{PyNumber F}
    (lib : Collaborators F) (cfg : Config F) : Prop :=
  exists df0 funds fee strategy horizon level,
    cfg = __init__ lib df0 funds fee strategy horizon level.

(** What [reset] establishes and every call keeps: a first net worth, and
    the five rows of the account history. *)
Definition seeded {F} (self : Ledger F) : Prop :=
  net_worths self <> [] /\ length (account_history self) = 5.

(** The ledger after a hold at [price]: the net worth and a column
    [balance, 0, 0, 0, 0] appended, nothing else touched. *)
Definition held {F} `{PyNumber F} (price : F) (self : Ledger F) : Ledger F :=
  set_account_history
    (zip_rows (account_history self)
       [[balance self]; [of_int 0]; [of_int 0]; [of_int 0]; [of_int 0]])
    (set_net_worths
       (net_worths self ++ [(balance self + btc_held self * price)%num])
       self).

(** The shapes the scaler and the forecaster promise: as many rows out as
    in; [steps] means and [steps] rows [[lower, upper]]. *)
Definition shapes_kept {F} (lib : Collaborators F) : Prop :=
  (forall X Y, fit_transform lib X = Ok Y -> length Y = length X) /\
  (forall endog steps alpha forecast,
     sarimax_forecast lib endog steps alpha = Ok forecast ->
     length (predicted_mean forecast) = steps /\
     length (conf_int forecast) = steps /\
     Forall (fun row => length row = 2) (conf_int forecast)).

(** Column labels without repeats, ['index'] and ['Date'] among them. *)
Definition indexed_and_dated (cols : list string) : Prop :=
  NoDup cols /\ In "index"%string cols /\ In "Date"%string cols.

(** A frame whose rows all have one entry per column. *)
Definition rectangular {F} (d : DataFrame F) : Prop :=
  Forall (fun row => length row = length (columns d)) (values d).

(** A scaler that returns on every matrix with a row, and a forecaster that
    returns on every series with an entry, both keeping the shapes. *)
Definition collaborators_return {F} (lib : Collaborators F) : Prop :=
  (forall X width, X <> [] ->
     Forall (fun row => length row = width) X ->
     exists Y, fit_transform lib X = Ok Y /\
               length Y = length X /\
               Forall (fun row => length row = width) Y) /\
  (forall endog steps alpha, endog <> [] ->
     exists forecast,
       sarimax_forecast lib endog steps alpha = Ok forecast /\
       length (predicted_mean forecast) = steps /\
       length (conf_int forecast) = steps /\
       Forall (fun row => length row = 2) (conf_int forecast)).

(** An account history of five rows of one width, at least 1. *)
Definition booked {F} (self : Ledger F) : Prop :=
  length (account_history self) = 5 /\
  exists width, 0 < width /\
    Forall (fun row => length row = width) (account_history self).

(** ** Episodes *)

(** The histories in step with the counter: a net worth and an
    account-history column for [reset] and for every step counted since. *)
Definition tracked {F} (self : Ledger F) : Prop :=
  length (net_worths self) = current_step self + 1 /\
  length (account_history self) = 5 /\
  Forall (fun row => length row = current_step self + 1)
         (account_history self).

(** A trade log in the order of the steps, with at most one trade a step:
    every trade of a step before the counter, of an amount above 0, and a
    buy or a sale. *)
Definition logged {F} `{PyNumber F} (self : Ledger F) : Prop :=
  length (trades self) <= current_step self /\
  StronglySorted lt (map (@trade_step F) (trades self)) /\
  Forall (fun t => trade_step t < current_step self /\
                   (trade_amount t >? of_int 0)%num = true /\
                   (trade_type t = "buy"%string \/
                    trade_type t = "sell"%string))
         (trades self).

(** The entry [_take_action] makes in the trade log, when it makes one. *)
Definition entry {F} `{PyNumber F}
    (self : Ledger F) (bought cost sold sales : F) : Trade F :=
  {| trade_step := current_step self;
     trade_amount := if (sold >? of_int 0)%num then sold else bought;
     trade_total := if (sold >? of_int 0)%num then sales else cost;
     trade_type := if (sold >? of_int 0)%num then "sell" else "buy" |}.

(** The reward and the [done] of step number [n], from the net worth
    before it and the net worth it recorded. *)
Definition outcome {F} `{PyNumber F}
    (cfg : Config F) (previous worth : F) (n : nat) : F * bool :=
  (let reward := (worth - previous)%num in
   if negb (num_abs reward =? inf)%num then reward else of_int 0,
   (worth <? initial_balance cfg / of_int 10)%num
   || (Z.of_nat n =? Z.of_nat (len (df cfg)) - Z.of_nat (n_forecasts cfg) - 1)%Z).

(** A call on the environment: [reset()] or [step(action)]. *)
Inductive Call : Type :=
| ResetCall
| StepCall (action : Z).

Section Episodes.
Context {F : Type} `{PyNumber F}.
Variable lib : Collaborators F.
Variable cfg : Config F.

Local Open Scope py_scope.

(** [step] called with one code of [actions] after the other, up to the
    first call that raises; what the calls returned, in order. *)
Fixpoint episode (actions : list Z)
  : M (Ledger F) (list (list F * F * bool * Info)) :=
  match actions with
  | [] => ret []
  | action :: rest =>
      returned <- step lib cfg action ;;
      later <- episode rest ;;
      ret (returned :: later)
  end.

(** [reset], then the steps. *)
Definition play (actions : list Z)
  : M (Ledger F) (list (list F * F * bool * Info)) :=
  reset lib cfg ;; episode actions.

(** The attributes as a call leaves them, whether it returns or raises. *)
Definition call (c : Call) (self : Ledger F) : Ledger F :=
  match c with
  | ResetCall => snd (reset lib cfg self)
  | StepCall action => snd (step lib cfg action self)
  end.

(** The attributes after the calls of a list, made one after the other,
    each on what the one before left, raised or not. *)
Definition calls (cs : list Call) (self : Ledger F) : Ledger F :=
  fold_left (fun self c => call c self) cs self.
End Episodes.

(** ** Tables cut by rows *)

(** The position a slice bound [k] stands for in a sequence of [n] items:
    counted from the end when [k] is negative, and kept within [0 .. n]. *)
Definition slice_bound (k : Z) (n : nat) : nat :=
  Z.to_nat (Z.min (Z.of_nat n)
                  (if (k <? 0)%Z then Z.max 0 (Z.of_nat n + k) else k)).

(** [df[:k]] and [df[k:]]: the rows before position [k], and from it on. *)
Definition rows_to {F} (k : Z) (d : DataFrame F) : DataFrame F :=
  {| columns := columns d;
     values := firstn (slice_bound k (len d)) (values d) |}.

Definition rows_from {F} (k : Z) (d : DataFrame F) : DataFrame F :=
  {| columns := columns d;
     values := skipn (slice_bound k (len d)) (values d) |}.

(** The environment with another stationarized table. *)
Definition set_stationary_df {F} (v : DataFrame F) (cfg : Config F)
  : Config F :=
  {| initial_balance := initial_balance cfg; commission := commission cfg;
     reward_func := reward_func cfg; df := df cfg; stationary_df := v;
     n_forecasts := n_forecasts cfg;
     confidence_interval := confidence_interval cfg;
     obs_shape := obs_shape cfg |}.

(** ** Rendering *)

(** What [render] and [close] do outside the object: a line printed, and
    the calls on the graph window of [render.BitcoinTradingGraph]. *)
Inductive Event (F : Type) : Type :=
| Printed (line : string)
| GraphOpened (table : DataFrame F)   (* [BitcoinTradingGraph(df)] *)
| GraphRendered (current_step : nat) (net_worths : list F)
                (trades : list (Trade F))
| GraphClosed.
Arguments Printed {F} line.
Arguments GraphOpened {F} table.
Arguments GraphRendered {F} current_step net_worths trades.
Arguments GraphClosed {F}.

(** The object as [render] and [close] see it: the ledger, the attribute
    [viewer] ([None], or the graph, known by the table it was opened on),
    and what has been printed and drawn so far. *)
Record Display (F : Type) : Type := {
  ledger : Ledger F;
  viewer : option (DataFrame F);
  shown : list (Event F)
}.

Section Rendering.
Context {F : Type} `{PyNumber F}.
Variable str : F -> string.     (* [str(x)] for a number [x] *)
Variable cfg : Config F.

Local Open Scope py_scope.

Definition set_viewer (v : option (DataFrame F)) (self : Display F)
  : Display F :=
  {| ledger := ledger self; viewer := v; shown := shown self |}.

Definition emit (event : Event F) (self : Display F) : Display F :=
  {| ledger := ledger self; viewer := viewer self;
     shown := shown self ++ [event] |}.

(** A method of the environment, run on the ledger of the display. *)
Definition on_ledger {A} (c : M (Ledger F) A) : M (Display F) A :=
  fun self =>
    let (r, l) := c (ledger self) in
    (r, {| ledger := l; viewer := viewer self; shown := shown self |}).

Definition print (line : string) : M (Display F) unit :=
  modify (emit (Printed line)).

(** [xs[i]] for [i >= 0]. *)
Definition item {A} (i : nat) (xs : list A) : result A :=
  of_option IndexError (nth_error xs i).

(** [render(self, mode)]; the default of [mode] is ['human']. *)
Definition render (mode : string) : M (Display F) unit :=
  if String.eqb mode "system" then
    price <- on_ledger (_current_price cfg) ;;
    print ("Price: " ++ str price) ;;
    self <- get ;;
    row <- lift (item 2 (account_history (ledger self))) ;;
    bought <- lift (item (current_step (ledger self)) row) ;;
    print ("Bought: " ++ str bought) ;;
    self <- get ;;
    row <- lift (item 4 (account_history (ledger self))) ;;
    sold <- lift (item (current_step (ledger self)) row) ;;
    print ("Sold: " ++ str sold) ;;
    self <- get ;;
    worth <- lift (item_from_end 1 (net_worths (ledger self))) ;;
    print ("Net worth: " ++ str worth)
  else if String.eqb mode "human" then
    self <- get ;;
    (match viewer self with
     | None =>
         modify (emit (GraphOpened (df cfg))) ;;
         modify (set_viewer (Some (df cfg)))
     | Some _ => ret tt
     end) ;;
    self <- get ;;
    modify (emit (GraphRendered (current_step (ledger self))
                                (net_worths (ledger self))
                                (trades (ledger self))))
  else ret tt.

Definition close : M (Display F) unit :=
  self <- get ;;
  match viewer self with
  | Some _ =>
      modify (emit GraphClosed) ;;
      modify (set_viewer None)
  | None => ret tt
  end.
End Rendering.

(** The graph windows opened and not closed. *)
Fixpoint windows {F} (events : list (Event F)) : Z :=
  match events with
  | [] => 0
  | GraphOpened _ :: rest => windows rest + 1
  | GraphClosed :: rest => windows rest - 1
  | _ :: rest => windows rest
  end.

(** One window when [viewer] is set, none when it is [None]. *)
Definition one_window {F} (self : Display F) : Prop :=
  windows (shown self) = match viewer self with
                         | Some _ => 1%Z
                         | None => 0%Z
                         end.

(** ** Training: [optimize.py] *)

Definition n_timesteps : Z := 5000.
Definition n_test_episodes : Z := 5.

(** [evaluation_interval = int(n_timesteps / 20)]: the quotient is the
    float 250.0, and [int] of it 250. *)
Definition evaluation_interval : Z :=
  match int_of_float (float_of_Z n_timesteps / 20)%float with
  | Some interval => interval
  | None => 0%Z
  end.

(** [test_len = int(len(df) * 0.2)] and
    [train_len = int(len(df)) - test_len]; nothing where [int] raises. *)
Definition test_len {F} (d : DataFrame F) : option Z :=
  int_of_float (float_of_Z (Z.of_nat (len d)) * 0.2)%float.

Definition train_len {F} (d : DataFrame F) : option Z :=
  option_map (fun test_len => (Z.of_nat (len d) - test_len)%Z) (test_len d).

(** [train_df = df[:train_len]] and [test_df = df[train_len:]]. *)
Definition train_df {F} (d : DataFrame F) : option (DataFrame F) :=
  option_map (fun train_len => rows_to train_len d) (train_len d).

Definition test_df {F} (d : DataFrame F) : option (DataFrame F) :=
  option_map (fun train_len => rows_from train_len d) (train_len d).

(** What [optimize_agent] hands back to the study: a cost, or the
    exception [optuna.structs.TrialPruned]. *)
Inductive Verdict (F : Type) : Type :=
| Cost (cost : F)
| TrialPruned.
Arguments Cost {F} cost.
Arguments TrialPruned {F}.

(** What [learn_callback] calls and does not define, acting on [W]: the
    test environment, the policy and the trial. *)
Record Tester (F W Obs Act : Type) : Type := {
  (* [model.test_env.reset()] *)
  test_env_reset : M W Obs;
  (* [model.test_env.step(action)], without the info *)
  test_env_step : Act -> M W (Obs * F * bool);
  (* [model.predict(obs)], without the state *)
  model_predict : Obs -> M W Act;
  (* [model.trial.report(value, step)] *)
  trial_report : F -> Z -> M W unit;
  (* [model.trial.should_prune(step)] *)
  trial_should_prune : Z -> M W bool;
  (* [numpy.mean] *)
  np_mean : list F -> F
}.

(** The four attributes [learn_callback] sets on the model at its first
    call, and keeps from then on. *)
Record Evaluations (F : Type) : Type := {
  is_pruned : bool;
  last_mean_test_reward : F;
  last_time_evaluated : Z;
  eval_idx : Z
}.

(** The model as the callback sees it; [evaluations] is [None] as long as
    [hasattr(model, 'is_pruned')] is false. *)
Record Model (F W : Type) : Type := {
  num_timesteps : Z;
  evaluations : option (Evaluations F);
  outside : W
}.

Section Callback.
Context {F : Type} `{PyNumber F}.
Variables W Obs Act : Type.

Local Open Scope py_scope.

Definition set_evaluations (v : Evaluations F) (model : Model F W)
  : Model F W :=
  {| num_timesteps := num_timesteps model; evaluations := Some v;
     outside := outside model |}.

Definition on_outside {A} (c : M W A) : M (Model F W) A :=
  fun model =>
    let (r, w) := c (outside model) in
    (r, {| num_timesteps := num_timesteps model;
           evaluations := evaluations model; outside := w |}).

(** The attributes as the first call of the callback sets them. *)
Definition unevaluated : Evaluations F :=
  {| is_pruned := false; last_mean_test_reward := neg_inf;
     last_time_evaluated := 0; eval_idx := 0 |}.

Variable tester : Tester F W Obs Act.

(** The [while] loop of the callback, for at most [fuel] steps of the test
    environment: the reward sums of [n_test_episodes] episodes, or nothing
    when the steps did not suffice. *)
Fixpoint test_episodes (fuel : nat) (n_episodes : Z) (reward_sum : F)
    (rewards : list F) (obs : Obs) : M W (option (list F)) :=
  if (n_episodes <? n_test_episodes)%Z then
    match fuel with
    | 0 => ret None
    | S fuel' =>
        action <- model_predict tester obs ;;
        stepped <- test_env_step tester action ;;
        let '(obs, reward, done) := stepped in
        let reward_sum := (reward_sum + reward)%num in
        if done : bool then
          obs <- test_env_reset tester ;;
          test_episodes fuel' (n_episodes + 1) (of_int 0)
                        (rewards ++ [reward_sum]) obs
        else
          test_episodes fuel' n_episodes reward_sum rewards obs
    end
  else ret (Some rewards).

(** What the loop reads off the test environment, step by step: from the
    observation [obs] the policy picks an action, the environment steps, and
    after a step that reports [done] it is reset; [returned] lists the
    reward and the [done] of every step, in order. *)
Inductive steps_made : Obs -> W -> list (F * bool) -> W -> Prop :=
| steps_none (obs : Obs) (w : W) : steps_made obs w [] w
| steps_on (obs obs1 : Obs) (w w1 w2 w' : W) (action : Act) (reward : F)
    (later : list (F * bool)) :
    model_predict tester obs w = (Ok action, w1) ->
    test_env_step tester action w1 = (Ok (obs1, reward, false), w2) ->
    steps_made obs1 w2 later w' ->
    steps_made obs w ((reward, false) :: later) w'
| steps_done (obs obs1 obs2 : Obs) (w w1 w2 w3 w' : W) (action : Act)
    (reward : F) (later : list (F * bool)) :
    model_predict tester obs w = (Ok action, w1) ->
    test_env_step tester action w1 = (Ok (obs1, reward, true), w2) ->
    test_env_reset tester w2 = (Ok obs2, w3) ->
    steps_made obs2 w3 later w' ->
    steps_made obs w ((reward, true) :: later) w'.

(** The reward sums of the episodes among the steps: the rewards are added
    to [reward_sum], and at a step that reports [done] the sum is recorded
    and the adding starts again at [0.0]. *)
Fixpoint episode_sums (reward_sum : F) (returned : list (F * bool))
  : list F :=
  match returned with
  | [] => []
  | (reward, done) :: later =>
      let reward_sum := (reward_sum + reward)%num in
      if done : bool then reward_sum :: episode_sums (of_int 0) later
      else episode_sums reward_sum later
  end.

Definition learn_callback (fuel : nat) : M (Model F W) (option bool) :=
  model <- get ;;
  let attributes :=
    match evaluations model with
    | Some attributes => attributes
    | None => unevaluated
    end in
  modify (set_evaluations attributes) ;;
  if (num_timesteps model - last_time_evaluated attributes
      <? evaluation_interval)%Z then
    ret (Some true)
  else
    modify (set_evaluations
              {| is_pruned := is_pruned attributes;
                 last_mean_test_reward := last_mean_test_reward attributes;
                 last_time_evaluated := num_timesteps model;
                 eval_idx := eval_idx attributes |}) ;;
    obs <- on_outside (test_env_reset tester) ;;
    rewards <- on_outside (test_episodes fuel 0 (of_int 0) [] obs) ;;
    match rewards with
    | None => ret None
    | Some rewards =>
        let mean_reward := np_mean tester rewards in
        modify (set_evaluations
                  {| is_pruned := is_pruned attributes;
                     last_mean_test_reward := mean_reward;
                     last_time_evaluated := num_timesteps model;
                     eval_idx := eval_idx attributes + 1 |}) ;;
        on_outside (trial_report tester (of_int (-1) * mean_reward)%num
                                 (eval_idx attributes + 1)) ;;
        prune <- on_outside (trial_should_prune tester
                               (eval_idx attributes + 1)) ;;
        if prune : bool then
          modify (set_evaluations
                    {| is_pruned := true;
                       last_mean_test_reward := mean_reward;
                       last_time_evaluated := num_timesteps model;
                       eval_idx := eval_idx attributes + 1 |}) ;;
          ret (Some false)
        else ret (Some true)
    end.

(** The end of [optimize_agent], once [model.learn] has returned: the
    cost of the trial, or [TrialPruned]. *)
Definition trial_verdict (model : Model F W) : Verdict F :=
  let is_pruned0 := false in
  let cost := inf in
  let '(is_pruned0, cost) :=
    match evaluations model with
    | Some attributes =>
        (is_pruned attributes,
         (of_int (-1) * last_mean_test_reward attributes)%num)
    | None => (is_pruned0, cost)
    end in
  if is_pruned0 then TrialPruned else Cost cost.

(** The models that training reaches: a model without the attributes,
    then any number of calls of the callback, between which the learner
    counts its time steps and acts on the environments as it likes. *)
Inductive trained : Model F W -> Prop :=
| trained_new (steps : Z) (w : W) :
    trained {| num_timesteps := steps; evaluations := None; outside := w |}
| trained_on (model : Model F W) (steps : Z) (w : W) :
    trained model ->
    trained {| num_timesteps := steps; evaluations := evaluations model;
               outside := w |}
| trained_called (model model' : Model F W) (fuel : nat) r :
    trained model ->
    learn_callback fuel model = (r, model') ->
    trained model'.
End Callback.

(** [f] holds of the [count] integers from [z] on. *)
Fixpoint holds_from (f : Z -> bool) (z : Z) (count : nat) : bool :=
  match count with
  | 0 => true
  | S count' => f z && holds_from f (z + 1) count'
  end.

(** ** Stand-ins for the collaborators

    Simple, total implementations on which the environment runs in the
    examples below.  They fix the shapes the real collaborators produce and
    nothing more: the theorems hold for every [Collaborators]. *)
Module Standin.
Section Standin.
Context {F : Type} `{PyNumber F}.

Fixpoint zip_with {A B C} (f : A -> B -> C) (xs : list A) (ys : list B)
  : list C :=
  match xs, ys with
  | x :: xs', y :: ys' => f x y :: zip_with f xs' ys'
  | _, _ => []
  end.

Definition py_max (a b : F) : F := if (b >? a)%num then b else a.

Definition rescale (lo hi x : F) : F :=
  let range := (hi - lo)%num in
  let range := if (range =? of_int 0)%num then of_int 1 else range in
  ((x - lo) / range)%num.

(** Min-max scaling of every column to [[0, 1]]; a column that does not
    vary is scaled by 1. *)
Definition minmax (rows : list (list F)) : result (list (list F)) :=
  match rows with
  | [] => Raise ValueError
  | r :: rs =>
      let lo := fold_left (zip_with py_min) rs r in
      let hi := fold_left (zip_with py_max) rs r in
      Ok (map (fun row =>
                 zip_with (fun f x => f x) (zip_with rescale lo hi) row)
              rows)
  end.

(** The last value, repeated, with an interval of half-width 1. *)
Definition persistence (endog : list F) (steps : nat) (alpha : F)
  : result (Forecast F) :=
  rbind (item_from_end 1 endog)
        (fun x =>
           Ok {| predicted_mean := repeat x steps;
                 conf_int :=
                   repeat [(x - of_int 1)%num; (x + of_int 1)%num] steps |}).

(** The row numbers as a new first column. *)
Definition number_rows (d : DataFrame F) : DataFrame F :=
  {| columns := "index"%string :: columns d;
     values :=
       map (fun ir => of_int (Z.of_nat (fst ir)) :: snd ir)
           (combine (seq 0 (len d)) (values d)) |}.

Definition total (xs : list F) : F := fold_left num_add xs (of_int 0).

Definition collaborators : Collaborators F :=
  {| fillna_bfill := fun d => d;
     reset_index := number_rows;
     add_indicators := fun d => d;
     log_and_difference := fun d _ => d;
     fit_transform := minmax;
     sarimax_forecast := persistence;
     astype_float16 := fun x => x;
     sortino_ratio := fun returns _ => total returns;
     sterling_ratio := fun returns _ => total returns;
     omega_ratio := total |}.

(** A price table of daily bars that open, peak, bottom and close at the
    listed prices. *)
Definition bars (closes : list F) : DataFrame F :=
  {| columns := ["Date"; "Open"; "High"; "Low"; "Close";
                 "Volume BTC"; "Volume USD"]%string;
     values :=
       map (fun ic =>
              [of_int (Z.of_nat (fst ic)); snd ic; snd ic; snd ic; snd ic;
               of_int 1; snd ic])
           (combine (seq 0 (length closes)) closes) |}.

(** What the attributes hold before the first [reset]: nothing a method
    reads before [reset] has assigned it. *)
Definition blank : Ledger F :=
  {| balance := of_int 0; net_worths := []; btc_held := of_int 0;
     current_step := 0; account_history := []; trades := [] |}.
End Standin.
End Standin.

(** [BitcoinTradingEnv(df)], every argument at its default, on the bars
    that close at [closes]. *)
Definition default_env (closes : list float) : Config float :=
  __init__ Standin.collaborators (Standin.bars closes)
           10000%float 0.0003%float "sortino" 10 0.95%float.

(** Fourteen bars; the first price traded at is [67 + 0.01]. *)
Definition example_env : Config float :=
  default_env [60; 61; 62; 63; 64; 65; 66; 67; 68; 69; 67; 70; 71; 72]%float.

(** The same table with the last three closes missing ([fillna] with
    ['bfill'] fills a gap from the next row, so a gap at the end stays). *)
Definition gapped_env : Config float :=
  default_env [60; 61; 62; 63; 64; 65; 66; 67; 68; 69; 67; nan; nan; nan]%float.

(** No commission, and a first price of [99.99 + 0.01], which is 100. *)
Definition free_env : Config float :=
  __init__ Standin.collaborators
    (Standin.bars
       [60; 61; 62; 63; 64; 65; 66; 67; 68; 69; 99.99; 99.99; 71; 72]%float)
    10000%float 0%float "sortino" 10 0.95%float.

(** The ledger after the first [reset]. *)
Definition opened (env : Config float) : Ledger float :=
  snd (reset Standin.collaborators env Standin.blank).

(** The ledger of the example with the counter at 4: the row to price is
    then row 14, the first beyond the table. *)
Definition ended : Ledger float := set_current_step 4 (opened example_env).

(** The stand-ins, with a forecaster whose fit fails. *)
Definition no_forecast : Collaborators float :=
  {| fillna_bfill := fun d => d;
     reset_index := Standin.number_rows;
     add_indicators := fun d => d;
     log_and_difference := fun d _ => d;
     fit_transform := Standin.minmax;
     sarimax_forecast := fun _ _ _ => Raise CollaboratorError;
     astype_float16 := fun x => x;
     sortino_ratio := fun returns _ => Standin.total returns;
     sterling_ratio := fun returns _ => Standin.total returns;
     omega_ratio := Standin.total |}.

(** A stand-in for [str]: the sign of the number. *)
Definition sign_of (x : float) : string :=
  if (x <? 0)%float then "-" else "+".

(** The example after its first [reset], no window open, nothing printed. *)
Definition unseen : Display float :=
  {| ledger := opened example_env; viewer := None; shown := [] |}.

(** A test environment that pays 1 a step and ends an episode with every
    third step, a policy with one action, and a trial that takes the
    reports and never prunes.  [W] counts the steps. *)
Definition every_third : Tester float Z unit unit :=
  {| test_env_reset := ret tt;
     test_env_step :=
       fun _ steps =>
         (Ok (tt, 1%float, ((steps + 1) mod 3 =? 0)%Z), (steps + 1)%Z);
     model_predict := fun _ => ret tt;
     trial_report := fun _ _ => ret tt;
     trial_should_prune := fun _ => ret false;
     np_mean :=
       fun xs => (Standin.total xs / of_int (Z.of_nat (length xs)))%num |}.

(** A model the callback has not yet seen, after [steps] time steps. *)
Definition new_model (steps : Z) : Model float Z :=
  {| num_timesteps := steps; evaluations := None; outside := 0%Z |}.

(** A model of two evaluations, the second of which asked to prune. *)
Definition pruned_model : Model float Z :=
  {| num_timesteps := 600;
     evaluations :=
       Some {| is_pruned := true; last_mean_test_reward := 3%float;
               last_time_evaluated := 500; eval_idx := 2 |};
     outside := 30%Z |}.

(** * Theorems *)

(** ** The arithmetic *)

Lemma SFabs_is_infinity (x : spec_float) :
  SFeqb (SFabs x) (S754_infinity false) = true ->
  x = S754_infinity false \/ x = S754_infinity true.
Proof.
  destruct x as [s | s | | s m e]; cbn; try discriminate.
  destruct s; auto.
Qed.

(** In binary64 [cent] is the literal [0.01], and [neg_inf] is [-inf]. *)
Lemma cent_is_the_literal : cent = 0.01%float /\ neg_inf = neg_infinity.
Proof. split; reflexivity. Qed.

(** ** The quarter of an integer

    What [binary_normalize] makes of [action * 2^-2]: the digits of the
    mantissa, the shift to 53 bits, the rounding and the carry. *)

Section Quarter.
Local Open Scope Z_scope.

Lemma digits2_bounds (p : positive) :
  2 ^ (Zpos (digits2_pos p) - 1) <= Zpos p < 2 ^ Zpos (digits2_pos p).
Proof.
  induction p as [p IH | p IH | ]; cbn [digits2_pos].
  - rewrite Pos2Z.inj_succ.
    replace (Z.succ (Zpos (digits2_pos p)) - 1) with (Z.succ (Zpos (digits2_pos p) - 1)) by lia.
    rewrite !Z.pow_succ_r by lia. lia.
  - rewrite Pos2Z.inj_succ.
    replace (Z.succ (Zpos (digits2_pos p)) - 1) with (Z.succ (Zpos (digits2_pos p) - 1)) by lia.
    rewrite !Z.pow_succ_r by lia. lia.
  - cbn. lia.
Qed.

Lemma digits2_unique (p : positive) (n : Z) :
  2 ^ (n - 1) <= Zpos p < 2 ^ n -> Zpos (digits2_pos p) = n.
Proof.
  intros [Hlow Hhigh]. pose proof (digits2_bounds p) as [Hl Hh].
  assert (Hn : 0 < n).
  { destruct (Z.ltb_spec 0 n) as [ | Hneg]; [assumption | ].
    destruct (Z.eq_dec n 0) as [-> | Hne].
    - cbn in Hhigh. lia.
    - rewrite Z.pow_neg_r in Hhigh by lia. lia. }
  assert (H1 : n - 1 < Zpos (digits2_pos p)).
  { apply (Z.pow_lt_mono_r_iff 2); lia. }
  assert (H2 : Zpos (digits2_pos p) - 1 < n).
  { apply (Z.pow_lt_mono_r_iff 2); lia. }
  lia.
Qed.

Lemma iter_pos_nat {A} (f : A -> A) (n : positive) (x : A) :
  SpecFloat.iter_pos f n x = Nat.iter (Pos.to_nat n) f x.
Proof.
  revert x. induction n as [n IH | n IH | ]; intros x; cbn [SpecFloat.iter_pos].
  - rewrite !IH, Pos2Nat.inj_xI. cbn [Nat.mul]. rewrite Nat.add_0_r.
    rewrite Nat.iter_succ_r, Nat.iter_add. reflexivity.
  - rewrite !IH, Pos2Nat.inj_xO. cbn [Nat.mul]. rewrite Nat.add_0_r.
    rewrite Nat.iter_add. reflexivity.
  - reflexivity.
Qed.

Lemma shr_1_step (mrs : shr_record) :
  0 <= shr_m mrs ->
  shr_m (shr_1 mrs) = shr_m mrs / 2 /\ shr_r (shr_1 mrs) = Z.odd (shr_m mrs).
Proof.
  destruct mrs as [m r s]. cbn [shr_m]. intros Hm.
  rewrite <- Z.div2_div.
  destruct m as [ | [p | p | ] | p]; cbn; auto; lia.
Qed.

Lemma shr_iter (n : nat) (mrs : shr_record) :
  0 <= shr_m mrs ->
  shr_m (Nat.iter n shr_1 mrs) = shr_m mrs / 2 ^ Z.of_nat n /\
  shr_r (Nat.iter (S n) shr_1 mrs) = Z.testbit (shr_m mrs) (Z.of_nat n).
Proof.
  intros Hm.
  assert (Hiter : shr_m (Nat.iter n shr_1 mrs) = shr_m mrs / 2 ^ Z.of_nat n).
  { induction n as [ | n IH].
    - cbn. rewrite Z.div_1_r. reflexivity.
    - rewrite Nat.iter_succ.
      assert (Hpos : 0 <= shr_m (Nat.iter n shr_1 mrs)).
      { rewrite IH. apply Z.div_pos; [exact Hm | ]. apply Z.pow_pos_nonneg; lia. }
      destruct (shr_1_step _ Hpos) as [-> _].
      rewrite IH, Nat2Z.inj_succ, Z.pow_succ_r by lia.
      rewrite Z.div_div by (try apply Z.pow_pos_nonneg; lia).
      f_equal. lia. }
  split; [exact Hiter | ].
  rewrite Nat.iter_succ.
  assert (Hpos : 0 <= shr_m (Nat.iter n shr_1 mrs)).
  { rewrite Hiter. apply Z.div_pos; [exact Hm | ]. apply Z.pow_pos_nonneg; lia. }
  destruct (shr_1_step _ Hpos) as [_ ->].
  rewrite Hiter, Z.testbit_odd, Z.shiftr_div_pow2 by lia. reflexivity.
Qed.

Lemma fexp_value (e : Z) : -1021 <= e -> fexp prec emax e = e - 53.
Proof. unfold fexp, emin, prec, emax. lia. Qed.

(** The second stage of [binary_round_aux]: a mantissa of 53 bits, or
    [2^53] after a carry. *)
Lemma rounded_mantissa (s : bool) (m : positive) (e : Z) :
  2 ^ 52 <= Zpos m <= 2 ^ 53 -> -1074 <= e ->
  (let '(mrs, e') := shr_fexp prec emax (Zpos m) e loc_Exact in
   match shr_m mrs with
   | Z0 => S754_zero s
   | Zpos m' =>
       if e' <=? emax - prec then S754_finite s m' e' else S754_infinity s
   | Zneg _ => S754_nan
   end) =
  if Zpos m =? 2 ^ 53 then
    if e + 1 <=? 971 then S754_finite s (2 ^ 52)%positive (e + 1)
    else S754_infinity s
  else
    if e <=? 971 then S754_finite s m e else S754_infinity s.
Proof.
  intros [Hlow Hhigh] He. unfold shr_fexp. cbn [Zdigits2].
  destruct (Z.eqb_spec (Zpos m) (2 ^ 53)) as [Hcarry | Hnone].
  - assert (Hm : m = (2 ^ 53)%positive) by (apply Pos2Z.inj; exact Hcarry).
    subst m. change (Zpos (digits2_pos (2 ^ 53))) with 54.
    rewrite fexp_value by lia.
    replace (54 + e - 53 - e) with 1 by lia.
    cbn [shr SpecFloat.iter_pos shr_record_of_loc]. 
    change (shr_m (shr_1 {| shr_m := Zpos (2 ^ 53); shr_r := false; shr_s := false |}))
      with (Zpos (2 ^ 52)).
    reflexivity.
  - assert (Hdigits : Zpos (digits2_pos m) = 53).
    { apply digits2_unique. change (53 - 1) with 52. lia. }
    rewrite Hdigits, fexp_value by lia.
    replace (53 + e - 53 - e) with 0 by lia.
    cbn [shr shr_record_of_loc shr_m]. reflexivity.
Qed.

Lemma round_cases (mrs : shr_record) :
  let m := round_nearest_even (shr_m mrs) (loc_of_shr_record mrs) in
  (m = shr_m mrs \/ m = shr_m mrs + 1) /\
  (shr_r mrs = false -> m = shr_m mrs) /\
  (shr_r mrs = true -> Z.odd (shr_m mrs) = true -> m = shr_m mrs + 1).
Proof.
  destruct mrs as [m [ | ] [ | ]]; cbn [shr_m shr_r loc_of_shr_record round_nearest_even].
  - repeat split; auto; discriminate.
  - rewrite <- Z.negb_odd. destruct (Z.odd m); cbn; repeat split; auto; discriminate.
  - repeat split; auto; discriminate.
  - repeat split; auto; discriminate.
Qed.

(** The quarter of an integer of 54 bits or more, rounded. *)
Lemma round_large (s : bool) (p : positive) :
  2 ^ 53 <= Zpos p ->
  exists m2 : positive,
    let d := Zpos (digits2_pos p) in
    let q := Zpos p / 2 ^ (d - 54) in
    54 <= d /\
    2 ^ 53 <= q < 2 ^ 54 /\
    2 ^ 52 <= Zpos m2 <= 2 ^ 53 /\
    (Zpos m2 = q / 2 \/ Zpos m2 = q / 2 + 1) /\
    (Z.odd q = false -> Zpos m2 = q / 2) /\
    (Z.odd q = true -> Z.odd (q / 2) = true -> Zpos m2 = q / 2 + 1) /\
    binary_round prec emax s p (-2) =
      if Zpos m2 =? 2 ^ 53 then
        if d - 54 <=? 971 then S754_finite s (2 ^ 52)%positive (d - 54)
        else S754_infinity s
      else
        if d - 55 <=? 971 then S754_finite s m2 (d - 55) else S754_infinity s.
Proof.
  intros Hp. pose proof (digits2_bounds p) as [Hlow Hhigh].
  set (d := Zpos (digits2_pos p)) in *.
  assert (Hd : 54 <= d).
  { assert (53 < d) by (apply (Z.pow_lt_mono_r_iff 2); lia). lia. }
  unfold binary_round. fold d. rewrite fexp_value by lia.
  unfold shl_align.
  replace (d + -2 - 53 - -2) with (d - 53) by lia.
  destruct (d - 53) as [ | k | k] eqn:Hk; try lia.
  unfold binary_round_aux.
  unfold shr_fexp at 1. cbn [Zdigits2]. fold d. rewrite fexp_value by lia.
  replace (d + -2 - 53 - -2) with (Zpos k) by lia.
  cbn [shr shr_record_of_loc]. rewrite iter_pos_nat.
  set (start := {| shr_m := Zpos p; shr_r := false; shr_s := false |}).
  set (n := Pos.to_nat k).
  assert (Hn : Z.of_nat n = d - 53) by (unfold n; rewrite positive_nat_Z; lia).
  destruct n as [ | n'] eqn:Hn'; [lia | ].
  assert (Hstart : 0 <= shr_m start) by (cbn; lia).
  destruct (shr_iter (S n') start Hstart) as [Hm _].
  destruct (shr_iter n' start Hstart) as [_ Hr].
  set (mrs := Nat.iter (S n') shr_1 start) in *.
  cbn [shr_m start] in Hm, Hr.
  set (q := Zpos p / 2 ^ (d - 54)).
  assert (Hpow : 0 < 2 ^ (d - 54)) by (apply Z.pow_pos_nonneg; lia).
  assert (Hm' : shr_m mrs = q / 2).
  { rewrite Hm, Hn. unfold q. rewrite Z.div_div by lia.
    f_equal. replace (d - 53) with (Z.succ (d - 54)) by lia.
    rewrite Z.pow_succ_r by lia. lia. }
  assert (Hr' : shr_r mrs = Z.odd q).
  { rewrite Hr. replace (Z.of_nat n') with (d - 54) by lia.
    rewrite Z.testbit_odd, Z.shiftr_div_pow2 by lia. reflexivity. }
  assert (Hq : 2 ^ 53 <= q < 2 ^ 54).
  { unfold q. split.
    - apply Z.div_le_lower_bound; [lia | ].
      rewrite <- Z.pow_add_r by lia.
      replace (d - 54 + 53) with (d - 1) by lia. exact Hlow.
    - apply Z.div_lt_upper_bound; [lia | ].
      rewrite <- Z.pow_add_r by lia.
      replace (d - 54 + 54) with d by lia. exact Hhigh. }
  pose proof (round_cases mrs) as (Hcases & Hdown & Hup). cbv zeta in *.
  set (m2 := round_nearest_even (shr_m mrs) (loc_of_shr_record mrs)) in *.
  rewrite Hm' in Hcases, Hdown, Hup. rewrite Hr' in Hdown, Hup.
  assert (Hhalf : 2 ^ 52 <= q / 2 < 2 ^ 53).
  { split; [apply Z.div_le_lower_bound; lia | apply Z.div_lt_upper_bound; lia]. }
  destruct m2 as [ | m | m] eqn:Hm2; try lia.
  exists m. split; [exact Hd | ]. split; [exact Hq | ]. split; [lia | ].
  split; [exact Hcases | ]. split; [exact Hdown | ]. split; [exact Hup | ].
  replace (-2 + Zpos k) with (d - 55) by lia.
  rewrite (@rounded_mantissa s m (d - 55)) by lia.
  replace (d - 55 + 1) with (d - 54) by lia. reflexivity.
Qed.

(** A mantissa of 53 bits is kept as it is. *)
Lemma round_aux_exact (s : bool) (m : positive) (e : Z) :
  2 ^ 52 <= Zpos m < 2 ^ 53 -> -1074 <= e <= 971 ->
  binary_round_aux prec emax s (Zpos m) e loc_Exact = S754_finite s m e.
Proof.
  intros Hm He. unfold binary_round_aux. unfold shr_fexp at 1.
  cbn [Zdigits2].
  assert (Hdigits : Zpos (digits2_pos m) = 53).
  { apply digits2_unique. change (53 - 1) with 52. lia. }
  rewrite Hdigits, fexp_value by lia.
  replace (53 + e - 53 - e) with 0 by lia.
  cbn [shr shr_record_of_loc shr_m loc_of_shr_record round_nearest_even].
  rewrite (@rounded_mantissa s m e) by lia.
  destruct (Z.eqb_spec (Zpos m) (2 ^ 53)) as [Heq | _]; [lia | ].
  destruct (Z.leb_spec e 971); [reflexivity | lia].
Qed.

(** The quarter of an integer below [2^53] is exact. *)
Lemma round_small (s : bool) (p : positive) :
  Zpos p < 2 ^ 53 ->
  exists m e,
    binary_round prec emax s p (-2) = S754_finite s m e /\
    -54 <= e <= -2 /\
    Zpos m = Zpos p * 2 ^ (- e - 2).
Proof.
  intros Hp. pose proof (digits2_bounds p) as [Hlow Hhigh].
  set (d := Zpos (digits2_pos p)) in *.
  assert (Hd : 1 <= d <= 53).
  { split; [unfold d; lia | ].
    assert (d - 1 < 53) by (apply (Z.pow_lt_mono_r_iff 2); lia). lia. }
  unfold binary_round. fold d. rewrite fexp_value by lia.
  unfold shl_align.
  replace (d + -2 - 53 - -2) with (d - 53) by lia.
  destruct (d - 53) as [ | k | k] eqn:Hk; try lia.
  - exists p, (-2). split; [ | split; [lia | cbn; lia]].
    apply round_aux_exact; [ | lia].
    replace d with 53 in * by lia. change (53 - 1) with 52 in Hlow. lia.
  - set (mz := Pos.iter xO p k).
    assert (Hmz : Zpos mz = Zpos p * 2 ^ Zpos k).
    { unfold mz. change (Pos.iter xO p k) with (shift_pos k p).
      rewrite shift_pos_correct. change (Z.pow_pos 2 k) with (2 ^ Zpos k). lia. }
    assert (Hpow : 0 < 2 ^ Zpos k) by (apply Z.pow_pos_nonneg; lia).
    exists mz, (d + -2 - 53). split; [ | split; [lia | ]].
    + apply round_aux_exact; [ | lia]. rewrite Hmz. split.
      * replace 52 with (d - 1 + Zpos k) by lia.
        rewrite Z.pow_add_r by lia. nia.
      * replace 53 with (d + Zpos k) by lia.
        rewrite Z.pow_add_r by lia. nia.
    + rewrite Hmz. f_equal. f_equal. lia.
Qed.

(** [int(action / 4)], for every integer.  Below [2^53] in magnitude it
    is the integer quotient toward zero; from there on an integer of the
    sign of [action] and of a magnitude of [2^51] at least; and from
    [2^1026 - 2^972] on the division raises [OverflowError]. *)
Theorem int_quarter_spec (action : Z) :
  (Z.abs action < overflow_bound ->
   exists action_type,
     int_quarter action = Ok action_type /\
     (Z.abs action < 2 ^ 53 -> action_type = Z.quot action 4) /\
     (2 ^ 53 <= action -> 2 ^ 51 <= action_type) /\
     (action <= - 2 ^ 53 -> action_type <= - 2 ^ 51)) /\
  (overflow_bound <= Z.abs action ->
   int_quarter action = Raise OverflowError).
Proof.
  unfold int_quarter, quarter, binary_normalize.
  assert (Hsigned : forall (s : bool) (p : positive),
    (Zpos p < overflow_bound ->
     exists t,
       rbind (match binary_round prec emax s p (-2) with
              | S754_infinity _ => Raise OverflowError
              | quotient => Ok quotient
              end) py_int = Ok (if s then - t else t) /\
       (Zpos p < 2 ^ 53 -> t = Zpos p / 4) /\
       (2 ^ 53 <= Zpos p -> 2 ^ 51 <= t)) /\
    (overflow_bound <= Zpos p ->
     rbind (match binary_round prec emax s p (-2) with
            | S754_infinity _ => Raise OverflowError
            | quotient => Ok quotient
            end) py_int = Raise OverflowError)).
  { intros s p. destruct (Z.lt_ge_cases (Zpos p) (2 ^ 53)) as [Hsmall | Hlarge].
    - destruct (round_small s Hsmall) as (m & e & -> & He & Hm).
      split; [ | unfold overflow_bound; lia].
      intros _. exists (Zpos p / 4). split; [ | split; [reflexivity | lia]].
      cbn [rbind py_int].
      destruct (Z.leb_spec 0 e) as [ | _]; [lia | ].
      f_equal.
      assert (Hquot : Z.quot (Zpos m) (2 ^ (- e)) = Zpos p / 4).
      { set (k := - e - 2) in *.
        assert (Hexp : - e = 2 + k) by lia.
        assert (Hpow : 0 < 2 ^ k) by (apply Z.pow_pos_nonneg; lia).
        rewrite Hexp, Z.pow_add_r by lia. change (2 ^ 2) with 4.
        rewrite Z.quot_div_nonneg by lia.
        rewrite Hm, Z.div_mul_cancel_r by lia. reflexivity. }
      rewrite Hquot. reflexivity.
    - destruct (round_large s Hlarge)
        as (m2 & Hd & Hq & Hm2 & Hcases & Hdown & Hup & ->).
      cbv zeta in *.
      pose proof (digits2_bounds p) as [Hlow Hhigh].
      set (d := Zpos (digits2_pos p)) in *. clearbody d.
      set (q := Zpos p / 2 ^ (d - 54)) in *.
      assert (Hhalf : 2 ^ 52 <= q / 2 < 2 ^ 53).
      { split; [apply Z.div_le_lower_bound; lia | apply Z.div_lt_upper_bound; lia]. }
      unfold overflow_bound. split.
      + intros Hbound.
        assert (Hdigits : d <= 1026).
        { destruct (Z.le_gt_cases d 1026) as [ | Hmore]; [assumption | ].
          assert (2 ^ 1026 <= 2 ^ (d - 1)) by (apply Z.pow_le_mono_r; lia).
          lia. }
        destruct (Z.eqb_spec (Zpos m2) (2 ^ 53)) as [Hcarry | Hnone].
        * assert (Hless : d <= 1025).
          { destruct (Z.eq_dec d 1026) as [-> | ]; [ | lia]. exfalso.
            change (1026 - 54) with 972 in *.
            assert (Hq' : q < 2 ^ 54 - 1).
            { unfold q. apply Z.div_lt_upper_bound; lia. }
            assert (Heven : q = 2 ^ 54 - 2).
            { pose proof (Z.div_mod q 2). pose proof (Z.mod_pos_bound q 2). lia. }
            assert (Hodd : Z.odd q = false) by (rewrite Heven; reflexivity).
            specialize (Hdown Hodd). lia. }
          destruct (Z.leb_spec (d - 54) 971) as [_ | ]; [ | lia].
          cbn [rbind py_int].
          destruct (Z.leb_spec 0 (d - 54)) as [_ | ]; [ | lia].
          exists (Zpos (2 ^ 52) * 2 ^ (d - 54)).
          split; [destruct s; reflexivity | ]. split; [lia | ].
          intros _.
          assert (0 < 2 ^ (d - 54)) by (apply Z.pow_pos_nonneg; lia).
          change (Zpos (2 ^ 52)) with (2 ^ 52). nia.
        * destruct (Z.leb_spec (d - 55) 971) as [_ | ]; [ | lia].
          cbn [rbind py_int].
          destruct (Z.leb_spec 0 (d - 55)) as [Hexp | Hexp].
          -- exists (Zpos m2 * 2 ^ (d - 55)).
             split; [destruct s; reflexivity | ]. split; [lia | ].
             intros _.
             assert (0 < 2 ^ (d - 55)) by (apply Z.pow_pos_nonneg; lia).
             nia.
          -- exists (Z.quot (Zpos m2) (2 ^ (- (d - 55)))).
             split; [destruct s; reflexivity | ]. split; [lia | ].
             intros _. replace (- (d - 55)) with 1 by lia.
             rewrite Z.quot_div_nonneg by lia.
             apply Z.div_le_lower_bound; lia.
      + intros Hbound.
        assert (Hdigits : 1026 <= d).
        { assert (1025 < d) by (apply (Z.pow_lt_mono_r_iff 2); lia). lia. }
        destruct (Z.eqb_spec (Zpos m2) (2 ^ 53)) as [Hcarry | Hnone].
        * destruct (Z.leb_spec (d - 54) 971); [lia | reflexivity].
        * assert (Hmore : 1027 <= d).
          { destruct (Z.eq_dec d 1026) as [-> | ]; [ | lia]. exfalso.
            change (1026 - 54) with 972 in *.
            assert (Hq' : 2 ^ 54 - 1 <= q).
            { unfold q. apply Z.div_le_lower_bound; lia. }
            assert (Hlast : q = 2 ^ 54 - 1) by lia.
            assert (Hodd : Z.odd q = true) by (rewrite Hlast; reflexivity).
            assert (Hodd' : Z.odd (q / 2) = true) by (rewrite Hlast; reflexivity).
            specialize (Hup Hodd Hodd'). rewrite Hlast in Hup.
            change ((2 ^ 54 - 1) / 2 + 1) with (2 ^ 53) in Hup. contradiction. }
          destruct (Z.leb_spec (d - 55) 971); [lia | reflexivity]. }
  destruct action as [ | p | p].
  - split; [ | unfold overflow_bound; cbn; lia].
    intros _. exists 0. cbn. repeat split; lia.
  - destruct (Hsigned false p) as [Hreturns Hraises].
    cbn [Z.abs]. split; [ | exact Hraises].
    intros Hbound. destruct (Hreturns Hbound) as (t & Hrun & Hexact & Hhold).
    exists t. split; [exact Hrun | ].
    split; [intros Hlt; rewrite Z.quot_div_nonneg by lia; auto | ].
    split; [exact Hhold | lia].
  - destruct (Hsigned true p) as [Hreturns Hraises].
    cbn [Z.abs]. split; [ | exact Hraises].
    intros Hbound. destruct (Hreturns Hbound) as (t & Hrun & Hexact & Hhold).
    exists (- t). split; [exact Hrun | ].
    split.
    + intros Hlt. change (Zneg p) with (- Zpos p).
      rewrite Z.quot_opp_l by lia. rewrite Z.quot_div_nonneg by lia.
      rewrite Hexact by exact Hlt. reflexivity.
    + split; [lia | ]. intros Hneg.
      assert (2 ^ 53 <= Zpos p) by lia. specialize (Hhold H). lia.
Qed.

(** Below [2^53] the quotient is exact. *)
Lemma int_quarter_small (action : Z) :
  Z.abs action < 2 ^ 53 -> int_quarter action = Ok (Z.quot action 4).
Proof.
  intros Hsmall. destruct (int_quarter_spec action) as [Hreturns _].
  destruct Hreturns as (t & -> & Hexact & _).
  - unfold overflow_bound. lia.
  - rewrite (Hexact Hsmall). reflexivity.
Qed.

(** From 8 up and from -4 down, the type of the action is neither 0 nor 1. *)
Lemma int_quarter_hold (action : Z) :
  8 <= action \/ action <= -4 ->
  Z.abs action < overflow_bound ->
  exists action_type,
    int_quarter action = Ok action_type /\
    (8 <= action -> 2 <= action_type) /\
    (action <= -4 -> action_type <= -1).
Proof.
  intros Hcode Hbound. destruct (int_quarter_spec action) as [Hreturns _].
  destruct (Hreturns Hbound) as (t & Hrun & Hexact & Hup & Hdown).
  exists t. split; [exact Hrun | ].
  destruct (Z.lt_ge_cases (Z.abs action) (2 ^ 53)) as [Hsmall | Hlarge].
  - rewrite (Hexact Hsmall). split; intros; Z.to_euclidean_division_equations; lia.
  - split; intros Hside.
    + assert (2 ^ 53 <= action) by lia. specialize (Hup H). lia.
    + assert (action <= - 2 ^ 53) by lia. specialize (Hdown H). lia.
Qed.

Lemma int_quarter_overflow (action : Z) :
  overflow_bound <= Z.abs action -> int_quarter action = Raise OverflowError.
Proof. apply int_quarter_spec. Qed.

(** X20. The type [int(action / 4)] of every integer code.  The codes
    -3 to 3 are buys (type 0) and 4 to 7 sales (type 1); every other code
    of a magnitude below [2^1026 - 2^972] has a type that is neither (at
    least 2 from 8 up, at most -1 from -4 down), the type being the
    integer quotient toward zero as long as the magnitude is below [2^53];
    and from [2^1026 - 2^972] on, the division raises [OverflowError]. *)
Theorem action_type_of_every_code (action : Z) :
  (-4 < action < 4 -> int_quarter action = Ok 0) /\
  (4 <= action < 8 -> int_quarter action = Ok 1) /\
  (Z.abs action < 2 ^ 53 -> int_quarter action = Ok (Z.quot action 4)) /\
  (8 <= action < overflow_bound ->
   exists action_type,
     int_quarter action = Ok action_type /\ 2 <= action_type) /\
  (- overflow_bound < action <= -4 ->
   exists action_type,
     int_quarter action = Ok action_type /\ action_type <= -1) /\
  (overflow_bound <= Z.abs action ->
   int_quarter action = Raise OverflowError).
Proof.
  assert (Hsmall : forall t,
            Z.abs action < 8 -> Z.quot action 4 = t ->
            int_quarter action = Ok t).
  { intros t Hcode <-. apply int_quarter_small.
    change (2 ^ 53) with 9007199254740992. lia. }
  split; [intros Hcode; apply Hsmall;
          [lia | Z.to_euclidean_division_equations; lia] | ].
  split; [intros Hcode; apply Hsmall;
          [lia | Z.to_euclidean_division_equations; lia] | ].
  split; [apply int_quarter_small | ].
  split; [ | split; [ | apply int_quarter_overflow]].
  - intros Hcode.
    destruct (@int_quarter_hold action) as (t & Ht & Hup & _); [lia | lia | ].
    exists t. split; [exact Ht | apply Hup; lia].
  - intros Hcode.
    destruct (@int_quarter_hold action) as (t & Ht & _ & Hdown); [lia | lia | ].
    exists t. split; [exact Ht | apply Hdown; lia].
Qed.
End Quarter.

#[export] Instance binary64_laws : PyNumberLaws float.
Proof.
  split.
  - reflexivity.
  - reflexivity.
  - intros x; split.
    + cbn. rewrite FloatAxioms.eqb_spec, abs_spec.
      change (Prim2SF infinity) with (S754_infinity false).
      intros Habs. apply SFabs_is_infinity in Habs.
      destruct Habs as [Hx | Hx]; [left | right];
        apply Prim2SF_inj; rewrite Hx; reflexivity.
    + intros [-> | ->]; reflexivity.
Qed.

(** ** The monad *)

Section Monad.
Context {S : Type}.

Lemma bind_returns {A B} (c : M S A) (k : A -> M S B) s b s' :
  bind c k s = (Ok b, s') ->
  exists a s1, c s = (Ok a, s1) /\ k a s1 = (Ok b, s').
Proof.
  unfold bind. destruct (c s) as [[a | e] s1]; [eauto | discriminate].
Qed.

Lemma reads_only_ret {A} (a : A) : reads_only (ret (S := S) a).
Proof. intros s; reflexivity. Qed.

Lemma reads_only_get : reads_only (get (S := S)).
Proof. intros s; reflexivity. Qed.

Lemma reads_only_lift {A} (r : result A) : reads_only (lift (S := S) r).
Proof. intros s; reflexivity. Qed.

Lemma reads_only_bind {A B} (c : M S A) (k : A -> M S B) :
  reads_only c -> (forall a, reads_only (k a)) -> reads_only (bind c k).
Proof.
  intros Hc Hk s. unfold bind. specialize (Hc s).
  destruct (c s) as [[a | e] s1]; cbn in Hc; subst s1; [apply Hk | reflexivity].
Qed.

Lemma reads_only_run {A} (c : M S A) s :
  reads_only c -> c s = (fst (c s), s).
Proof. intros Hc. rewrite <- (Hc s) at 3. apply surjective_pairing. Qed.

(** Running [c] first, when [c] assigns nothing. *)
Lemma bind_reads_only {A B} (c : M S A) (k : A -> M S B) s :
  reads_only c ->
  bind c k s = match fst (c s) with
               | Ok a => k a s
               | Raise e => (Raise e, s)
               end.
Proof.
  intros Hc. unfold bind. rewrite (reads_only_run s Hc).
  cbn. destruct (fst (c s)); reflexivity.
Qed.
End Monad.

Create HintDb py_reads.
#[export] Hint Resolve reads_only_ret reads_only_get reads_only_lift : py_reads.

Ltac reads_only :=
  repeat first
    [ apply reads_only_bind; [ | intros ? ]
    | solve [ auto with py_reads ]
    | progress cbv zeta ].

(** ** Methods that only read *)

Section Readers.
Context {F : Type} `{PyNumber F}.
Variable lib : Collaborators F.
Variable cfg : Config F.

Lemma current_price_reads : reads_only (_current_price cfg).
Proof. unfold _current_price. reads_only. Qed.

Lemma next_observation_reads : reads_only (_next_observation lib cfg).
Proof. unfold _next_observation. reads_only. Qed.

Lemma reward_reads : reads_only (_reward lib cfg).
Proof. unfold _reward. reads_only. Qed.

Lemma done_reads : reads_only (_done cfg).
Proof. unfold _done. reads_only. Qed.

(** [step], one call after the other. *)
Lemma step_unfold (action : Z) (self : Ledger F) :
  step lib cfg action self =
  match _take_action cfg action self with
  | (Ok _, s1) =>
      let s2 := set_current_step (current_step s1 + 1) s1 in
      match fst (_next_observation lib cfg s2) with
      | Ok obs =>
          match fst (_reward lib cfg s2) with
          | Ok reward =>
              match fst (_done cfg s2) with
              | Ok done => (Ok (obs, reward, done, []), s2)
              | Raise e => (Raise e, s2)
              end
          | Raise e => (Raise e, s2)
          end
      | Raise e => (Raise e, s2)
      end
  | (Raise e, s1) => (Raise e, s1)
  end.
Proof.
  unfold step. unfold bind at 1.
  destruct (_take_action cfg action self) as [[[] | e] s1]; [ | reflexivity].
  unfold bind at 1. cbn [modify]. cbv zeta.
  rewrite (bind_reads_only _ _ next_observation_reads).
  destruct (fst (_next_observation lib cfg _)) as [obs | e]; [ | reflexivity].
  rewrite (bind_reads_only _ _ reward_reads).
  destruct (fst (_reward lib cfg _)) as [reward | e]; [ | reflexivity].
  rewrite (bind_reads_only _ _ done_reads).
  destruct (fst (_done cfg _)) as [done | e]; reflexivity.
Qed.

(** What a returning [step] went through. *)
Lemma step_returns (action : Z) (self self' : Ledger F) obs reward done info :
  step lib cfg action self = (Ok (obs, reward, done, info), self') ->
  exists s1,
    _take_action cfg action self = (Ok tt, s1) /\
    self' = set_current_step (current_step s1 + 1) s1 /\
    fst (_next_observation lib cfg self') = Ok obs /\
    fst (_reward lib cfg self') = Ok reward /\
    fst (_done cfg self') = Ok done /\
    info = [].
Proof.
  rewrite step_unfold.
  destruct (_take_action cfg action self) as [[[] | e] s1]; [ | discriminate].
  cbv zeta.
  destruct (fst (_next_observation lib cfg _)) as [o | e] eqn:Ho; [ | discriminate].
  destruct (fst (_reward lib cfg _)) as [r | e] eqn:Hr; [ | discriminate].
  destruct (fst (_done cfg _)) as [d | e] eqn:Hd; [ | discriminate].
  intros Heq. injection Heq as <- <- <- <- <-.
  exists s1. repeat split; assumption.
Qed.
End Readers.

(** ** Sequences *)

Lemma item_from_end_1 {A} (xs : list A) (x : A) :
  item_from_end 1 (xs ++ [x]) = Ok x.
Proof. unfold item_from_end. rewrite rev_app_distr. reflexivity. Qed.

Lemma item_from_end_2 {A} (xs : list A) (y x : A) :
  item_from_end 2 (xs ++ [y; x]) = Ok y.
Proof. unfold item_from_end. rewrite rev_app_distr. reflexivity. Qed.

Lemma item_from_end_1_inv {A} (xs : list A) (x : A) :
  item_from_end 1 xs = Ok x -> exists older, xs = older ++ [x].
Proof.
  unfold item_from_end. intros Hx.
  destruct (rev xs) as [ | y ys] eqn:Hrev; [discriminate | ].
  cbn in Hx. injection Hx as ->.
  exists (rev ys). rewrite <- (rev_involutive xs), Hrev. reflexivity.
Qed.

Lemma item_from_end_2_inv {A} (xs : list A) (y : A) :
  item_from_end 2 xs = Ok y ->
  exists older x, xs = older ++ [y; x].
Proof.
  unfold item_from_end. intros Hy.
  destruct (rev xs) as [ | x [ | y' ys]] eqn:Hrev; try discriminate.
  cbn in Hy. injection Hy as ->.
  exists (rev ys), x. rewrite <- (rev_involutive xs), Hrev.
  cbn. rewrite <- app_assoc. reflexivity.
Qed.

Section Accounting.
Context {F : Type} {num : PyNumber F} {laws : PyNumberLaws F}.
Variable lib : Collaborators F.
Variable cfg : Config F.

Lemma current_price_run (self : Ledger F) :
  _current_price cfg self = (fst (_current_price cfg self), self).
Proof. apply reads_only_run, current_price_reads. Qed.

(** The net worth [_take_action] appends is the balance and the holding it
    leaves, at the price it traded at. *)
Lemma take_action_net_worth (action : Z) (self s1 : Ledger F) :
  _take_action cfg action self = (Ok tt, s1) ->
  exists price,
    _current_price cfg self = (Ok price, self) /\
    current_step s1 = current_step self /\
    net_worths s1 =
      net_worths self ++ [(balance s1 + btc_held s1 * price)%num].
Proof.
  unfold _take_action. unfold bind at 1.
  rewrite current_price_run.
  destruct (fst (_current_price cfg self)) as [price | e]; [ | discriminate].
  intros Hrun. exists price. split; [reflexivity | ].
  revert Hrun. unfold bind, get, modify, ret, lift.
  destruct (int_quarter action) as [action_type | e]; [ | discriminate].
  destruct (action_type =? 0)%Z; [ | destruct (action_type =? 1)%Z];
    cbn;
    match goal with
    | |- context [if ?b then _ else _] => destruct b
    end; cbn;
    (match goal with
     | |- context [np_append_axis1 ?a ?b] => destruct (np_append_axis1 a b)
     end; [ | discriminate]);
    intros Hrun; injection Hrun as <-; cbn; auto.
Qed.

Lemma reward_value (self : Ledger F) (reward : F) :
  fst (_reward lib cfg self) = Ok reward ->
  exists older previous last,
    net_worths self = older ++ [previous; last] /\
    reward = if negb (num_abs (last - previous) =? inf)%num
             then (last - previous)%num else of_int 0.
Proof.
  unfold _reward, bind, get, lift, ret. cbn.
  destruct (column (df cfg) "Close") as [close | e]; [ | discriminate].
  destruct (item_from_end 1 (net_worths self)) as [last | e] eqn:Hlast;
    [ | discriminate].
  destruct (item_from_end 2 (net_worths self)) as [previous | e] eqn:Hprev;
    [ | discriminate].
  cbn. intros Hr. injection Hr as <-.
  apply item_from_end_2_inv in Hprev. destruct Hprev as (older & x & Hnw).
  exists older, previous, last. split; [ | reflexivity].
  rewrite Hnw in Hlast |- *.
  change (older ++ [previous; x]) with (older ++ [previous] ++ [x]) in Hlast.
  rewrite app_assoc, item_from_end_1 in Hlast.
  injection Hlast as ->. reflexivity.
Qed.

(** The strategy named at construction has no part in the reward. *)
Lemma reward_ignores_strategy (strategy : string) (self : Ledger F) :
  _reward lib (set_reward_func strategy cfg) self = _reward lib cfg self.
Proof. reflexivity. Qed.

Lemma not_inf_test (x : F) :
  x <> inf -> x <> neg_inf -> (num_abs x =? inf)%num = false.
Proof.
  intros Hpos Hneg. destruct (num_abs x =? inf)%num eqn:Htest; [ | reflexivity].
  apply abs_is_inf in Htest. tauto.
Qed.

(** C1. The reward [step] returns is the last net worth minus the one
    before it, whatever strategy the environment was constructed with
    (['sortino'], ['sterling'], ['omega'] or any other string): [0] when
    that difference is [+inf] or [-inf], the difference itself otherwise. *)
Theorem step_reward_is_net_worth_delta
    (action : Z) (self self' : Ledger F) obs reward done info :
  step lib cfg action self = (Ok (obs, reward, done, info), self') ->
  exists older previous last,
    net_worths self' = older ++ [previous; last] /\
    let delta := (last - previous)%num in
    (delta = inf \/ delta = neg_inf -> reward = of_int 0) /\
    (delta <> inf -> delta <> neg_inf -> reward = delta) /\
    (forall strategy,
       fst (_reward lib (set_reward_func strategy cfg) self') = Ok reward).
Proof.
  intros Hstep. apply step_returns in Hstep.
  destruct Hstep as (s1 & _ & _ & _ & Hreward & _).
  destruct (reward_value _ Hreward) as (older & previous & last & Hnw & Hr).
  exists older, previous, last. split; [exact Hnw | ]. cbv zeta.
  repeat split.
  - intros Hinf. apply abs_is_inf in Hinf. rewrite Hinf in Hr. exact Hr.
  - intros Hpos Hneg. rewrite (not_inf_test Hpos Hneg) in Hr. exact Hr.
  - intros strategy. rewrite reward_ignores_strategy. exact Hreward.
Qed.



Lemma done_value (self : Ledger F) (done : bool) :
  fst (_done cfg self) = Ok done ->
  exists older last,
    net_worths self = older ++ [last] /\
    done = ((last <? initial_balance cfg / of_int 10)%num
            || (Z.of_nat (current_step self)
                =? Z.of_nat (len (df cfg)) - Z.of_nat (n_forecasts cfg) - 1)%Z).
Proof.
  unfold _done, bind, get, lift, ret. cbn.
  destruct (item_from_end 1 (net_worths self)) as [last | e] eqn:Hlast;
    [ | discriminate].
  cbn. intros Hd. injection Hd as <-.
  apply item_from_end_1_inv in Hlast. destruct Hlast as (older & Hnw).
  exists older, last. auto.
Qed.

(** C4. The [done] that [step] returns is true exactly when the last net
    worth is below [initial_balance / 10] or the step counter, which the
    call has advanced by one, equals [len(df) - n_forecasts - 1]. *)
Theorem step_done_iff
    (action : Z) (self self' : Ledger F) obs reward done info :
  step lib cfg action self = (Ok (obs, reward, done, info), self') ->
  exists older last,
    net_worths self' = older ++ [last] /\
    current_step self' = current_step self + 1 /\
    (done = true <->
       (last <? initial_balance cfg / of_int 10)%num = true \/
       Z.of_nat (current_step self') =
         (Z.of_nat (len (df cfg)) - Z.of_nat (n_forecasts cfg) - 1)%Z) /\
    (done = false <->
       (last <? initial_balance cfg / of_int 10)%num = false /\
       Z.of_nat (current_step self') <>
         (Z.of_nat (len (df cfg)) - Z.of_nat (n_forecasts cfg) - 1)%Z).
Proof.
  intros Hstep. apply step_returns in Hstep.
  destruct Hstep as (s1 & Htake & Hself' & _ & _ & Hdone & _).
  destruct (done_value _ Hdone) as (older & last & Hnw & Hd).
  destruct (take_action_net_worth _ _ Htake) as (_ & _ & Hcs & _).
  exists older, last. split; [exact Hnw | ].
  split; [rewrite Hself'; cbn; rewrite Hcs; reflexivity | ].
  rewrite Hd. rewrite orb_true_iff, orb_false_iff, Z.eqb_eq, Z.eqb_neq.
  tauto.
Qed.

Lemma five_rows {A} (m : list (list A)) :
  length m = 5 -> exists r0 r1 r2 r3 r4, m = [r0; r1; r2; r3; r4].
Proof.
  destruct m as [ | r0 [ | r1 [ | r2 [ | r3 [ | r4 [ | r5 m]]]]]];
    try discriminate.
  intros _. exists r0, r1, r2, r3, r4. reflexivity.
Qed.

(** A code whose [action_type] is neither 0 nor 1 moves nothing. *)
Lemma take_action_hold
    (action action_type : Z) (self : Ledger F) (price : F) :
  int_quarter action = Ok action_type ->
  (action_type =? 0)%Z = false ->
  (action_type =? 1)%Z = false ->
  _current_price cfg self = (Ok price, self) ->
  length (account_history self) = 5 ->
  _take_action cfg action self = (Ok tt, held price self).
Proof.
  intros Htype Hbuy Hsell Hprice Hrows.
  unfold _take_action. unfold bind at 1. rewrite Hprice.
  unfold bind at 1. unfold lift at 1. rewrite Htype, Hbuy, Hsell.
  unfold bind, get, modify, ret, lift. cbn.
  rewrite zero_not_positive. cbn.
  unfold np_append_axis1. cbn. rewrite Hrows. reflexivity.
Qed.

(** When the quotient is beyond the doubles, the price has been read and
    nothing has been assigned. *)
Lemma take_action_overflows (action : Z) (self : Ledger F) (price : F) :
  (overflow_bound <= Z.abs action)%Z ->
  _current_price cfg self = (Ok price, self) ->
  _take_action cfg action self = (Raise OverflowError, self) /\
  step lib cfg action self = (Raise OverflowError, self).
Proof.
  intros Hbound Hprice.
  assert (Htake : _take_action cfg action self = (Raise OverflowError, self)).
  { unfold _take_action. unfold bind at 1. rewrite Hprice.
    unfold bind at 1. unfold lift at 1.
    rewrite (@int_quarter_overflow action Hbound). reflexivity. }
  split; [exact Htake | ].
  rewrite step_unfold, Htake. reflexivity.
Qed.

(** C6. A code in the hold range ([action_type >= 2], so 8 to 11 among
    the declared codes) leaves balance, holding and trade log as they are,
    appends one net worth, and appends to the account history one column:
    the balance, then 0 for bought, cost, sold and sales. *)
Theorem hold_appends_history_only
    (action action_type : Z) (self : Ledger F) (current_price : F) :
  int_quarter action = Ok action_type ->
  (2 <= action_type)%Z ->
  _current_price cfg self = (Ok current_price, self) ->
  length (account_history self) = 5 ->
  exists s1 r0 r1 r2 r3 r4,
    _take_action cfg action self = (Ok tt, s1) /\
    balance s1 = balance self /\
    btc_held s1 = btc_held self /\
    trades s1 = trades self /\
    net_worths s1 =
      net_worths self ++ [(balance self + btc_held self * current_price)%num] /\
    account_history self = [r0; r1; r2; r3; r4] /\
    account_history s1 =
      [r0 ++ [balance self]; r1 ++ [of_int 0]; r2 ++ [of_int 0];
       r3 ++ [of_int 0]; r4 ++ [of_int 0]].
Proof.
  intros Hquarter Htype Hprice Hrows.
  destruct (five_rows _ Hrows) as (r0 & r1 & r2 & r3 & r4 & Hm).
  exists (held current_price self), r0, r1, r2, r3, r4.
  split.
  - apply take_action_hold with (action_type := action_type); auto;
      apply Z.eqb_neq; lia.
  - unfold held. cbn. rewrite Hm. cbn. auto 10.
Qed.

Lemma reward_runs (self : Ledger F) older previous last close :
  column (df cfg) "Close" = Ok close ->
  net_worths self = older ++ [previous; last] ->
  exists reward, fst (_reward lib cfg self) = Ok reward.
Proof.
  intros Hclose Hnw. unfold _reward, bind, get, lift, ret. cbn.
  rewrite Hclose, Hnw.
  change (older ++ [previous; last]) with (older ++ [previous] ++ [last]) at 1.
  rewrite app_assoc, item_from_end_1, item_from_end_2. cbn. eauto.
Qed.

Lemma done_runs (self : Ledger F) older last :
  net_worths self = older ++ [last] ->
  exists done, fst (_done cfg self) = Ok done.
Proof.
  intros Hnw. unfold _done, bind, get, lift, ret. cbn.
  rewrite Hnw, item_from_end_1. cbn. eauto.
Qed.

Lemma current_price_close (self : Ledger F) price :
  _current_price cfg self = (Ok price, self) ->
  exists close, column (df cfg) "Close" = Ok close.
Proof.
  unfold _current_price, bind, get, lift, ret. cbn.
  destruct (column (df cfg) "Close") as [close | e]; [eauto | discriminate].
Qed.

Lemma nonempty_snoc {A} (xs : list A) :
  xs <> [] -> exists older last, xs = older ++ [last].
Proof.
  intros Hxs. destruct (exists_last Hxs) as (older & last & ->). eauto.
Qed.

(** [step] returns as soon as the action was taken and the observation
    could be built. *)
Lemma step_runs (action : Z) (self s1 : Ledger F) price obs :
  _current_price cfg self = (Ok price, self) ->
  net_worths self <> [] ->
  _take_action cfg action self = (Ok tt, s1) ->
  fst (_next_observation lib cfg
         (set_current_step (current_step s1 + 1) s1)) = Ok obs ->
  exists reward done,
    step lib cfg action self =
      (Ok (obs, reward, done, []), set_current_step (current_step s1 + 1) s1).
Proof.
  intros Hprice Hseed Htake Hobs.
  destruct (current_price_close Hprice) as (close & Hclose).
  destruct (take_action_net_worth _ _ Htake) as (p & _ & _ & Hnw).
  destruct (nonempty_snoc Hseed) as (older & previous & Hold).
  rewrite Hold, <- app_assoc in Hnw. cbn in Hnw.
  set (s2 := set_current_step (current_step s1 + 1) s1) in *.
  assert (Hnw2 : net_worths s2 = older ++ [previous; (balance s1 + btc_held s1 * p)%num])
    by exact Hnw.
  destruct (reward_runs s2 _ _ _ Hclose Hnw2) as (reward & Hreward).
  change (older ++ [previous; (balance s1 + btc_held s1 * p)%num])
    with (older ++ [previous] ++ [(balance s1 + btc_held s1 * p)%num]) in Hnw2.
  rewrite app_assoc in Hnw2.
  destruct (done_runs s2 _ _ Hnw2) as (done & Hdone).
  exists reward, done. rewrite step_unfold, Htake. cbv zeta. fold s2.
  rewrite Hobs, Hreward, Hdone. reflexivity.
Qed.

(** C10, amended. Every integer code from 8 up and below
    [2^1026 - 2^972], those from 12 up included, is a hold:
    [int(action / 4)] is at least 2, [_take_action] returns, balance and
    holding (and the trade log) are unchanged, the net worth and one
    account-history column are appended; and [step] returns, provided the
    observation can be built.  From [2^1026 - 2^972] on, [int(action / 4)]
    raises [OverflowError], and so do [_take_action] and [step], with every
    attribute as it was. *)
Theorem codes_from_8_are_holds
    (action : Z) (self : Ledger F) (current_price : F) :
  (8 <= action)%Z ->
  _current_price cfg self = (Ok current_price, self) ->
  seeded self ->
  let s1 := held current_price self in
  let s2 := set_current_step (current_step self + 1) s1 in
  ((action < overflow_bound)%Z ->
   (exists action_type,
      int_quarter action = Ok action_type /\ (2 <= action_type)%Z) /\
   _take_action cfg action self = (Ok tt, s1) /\
   balance s1 = balance self /\
   btc_held s1 = btc_held self /\
   trades s1 = trades self /\
   length (net_worths s1) = length (net_worths self) + 1 /\
   map (@length F) (account_history s1) =
     map (fun row => length row + 1) (account_history self) /\
   (forall obs,
      fst (_next_observation lib cfg s2) = Ok obs ->
      exists reward done,
        step lib cfg action self = (Ok (obs, reward, done, []), s2))) /\
  ((overflow_bound <= action)%Z ->
   int_quarter action = Raise OverflowError /\
   _take_action cfg action self = (Raise OverflowError, self) /\
   step lib cfg action self = (Raise OverflowError, self)).
Proof.
  intros Hcode Hprice [Hnw Hrows]. cbv zeta. split.
  - intros Hbound.
    destruct (@int_quarter_hold action) as (action_type & Hquarter & Hup & _);
      [lia | lia | ].
    specialize (Hup Hcode).
    assert (Htake : _take_action cfg action self
                    = (Ok tt, held current_price self)).
    { apply take_action_hold with (action_type := action_type); auto;
        apply Z.eqb_neq; lia. }
    split; [eauto | ]. split; [exact Htake | ].
    destruct (five_rows _ Hrows) as (r0 & r1 & r2 & r3 & r4 & Hm).
    repeat split.
    + cbn. rewrite length_app. reflexivity.
    + cbn. rewrite Hm. cbn. rewrite !length_app. reflexivity.
    + intros obs Hobs.
      apply step_runs with (s1 := held current_price self)
                           (price := current_price);
        assumption.
  - intros Hbound.
    assert (Hmagnitude : (overflow_bound <= Z.abs action)%Z) by lia.
    split; [apply (@int_quarter_overflow action); exact Hmagnitude | ].
    apply take_action_overflows with (price := current_price); assumption.
Qed.

Lemma reset_unfold (self : Ledger F) :
  reset lib cfg self =
  let fresh :=
    {| balance := initial_balance cfg;
       net_worths := [initial_balance cfg];
       btc_held := of_int 0;
       current_step := 0;
       account_history :=
         [[initial_balance cfg]; [of_int 0]; [of_int 0]; [of_int 0];
          [of_int 0]];
       trades := [] |} in
  (fst (_next_observation lib cfg fresh), fresh).
Proof.
  unfold reset, bind, modify, get.
  cbv [set_balance set_net_worths set_btc_held set_current_step
       set_account_history set_trades balance net_worths btc_held
       current_step account_history trades].
  apply reads_only_run, next_observation_reads.
Qed.

(** C9. A second [reset] returns what the first returned and leaves the
    attributes as the first left them: balance [initial_balance], holding
    [0], net worths [[initial_balance]], one account-history column
    [initial_balance, 0, 0, 0, 0], no trades, step [0]. *)
Theorem reset_twice_is_reset_once (self : Ledger F) :
  let first := reset lib cfg self in
  let second := reset lib cfg (snd first) in
  fst second = fst first /\
  snd second = snd first /\
  balance (snd first) = initial_balance cfg /\
  btc_held (snd first) = of_int 0 /\
  net_worths (snd first) = [initial_balance cfg] /\
  account_history (snd first) =
    [[initial_balance cfg]; [of_int 0]; [of_int 0]; [of_int 0]; [of_int 0]] /\
  trades (snd first) = [] /\
  current_step (snd first) = 0.
Proof.
  cbv zeta. rewrite (reset_unfold (snd (reset lib cfg self))).
  rewrite (reset_unfold self). cbn. repeat split.
Qed.

(** [reset] seeds the ledger, and no call unseeds it, raise or not. *)
Lemma reset_seeds (self : Ledger F) : seeded (snd (reset lib cfg self)).
Proof. rewrite reset_unfold. split; [discriminate | reflexivity]. Qed.

Lemma zip_rows_length {A} (a b : list (list A)) :
  length a = length b -> length (zip_rows a b) = length a.
Proof.
  revert b. induction a as [ | ra a IH]; intros [ | rb b]; cbn;
    try discriminate; auto.
Qed.

Lemma take_action_keeps_seeded (action : Z) (self : Ledger F) :
  seeded self -> seeded (snd (_take_action cfg action self)).
Proof.
  intros [Hnw Hrows]. unfold _take_action. unfold bind at 1.
  rewrite current_price_run.
  destruct (fst (_current_price cfg self)) as [price | e];
    [ | split; assumption].
  unfold bind, get, modify, ret, lift.
  destruct (int_quarter action) as [action_type | e]; [ | split; assumption].
  destruct (action_type =? 0)%Z; [ | destruct (action_type =? 1)%Z];
    cbn;
    match goal with
    | |- context [if ?b then _ else _] => destruct b
    end; cbn;
    unfold np_append_axis1; rewrite Hrows; cbn;
    (split; cbn; [intros Happ; apply app_eq_nil in Happ; destruct Happ; discriminate
                 | apply five_rows in Hrows;
                   destruct Hrows as (r0 & r1 & r2 & r3 & r4 & ->);
                   reflexivity]).
Qed.

Lemma step_keeps_seeded (action : Z) (self : Ledger F) :
  seeded self -> seeded (snd (step lib cfg action self)).
Proof.
  intros Hseed. apply (take_action_keeps_seeded action) in Hseed.
  rewrite step_unfold.
  destruct (_take_action cfg action self) as [[[] | e] s1]; [ | exact Hseed].
  cbv zeta.
  destruct (fst (_next_observation lib cfg _)); [ | exact Hseed].
  destruct (fst (_reward lib cfg _)); [ | exact Hseed].
  destruct (fst (_done cfg _)); exact Hseed.
Qed.


End Accounting.

(** ** The observation vector *)

Lemma traverse_length {A B} (f : A -> result B) (xs : list A) (ys : list B) :
  traverse f xs = Ok ys -> length ys = length xs.
Proof.
  revert ys. induction xs as [ | x xs IH]; cbn; intros ys Hys.
  - injection Hys as <-. reflexivity.
  - destruct (f x) as [y | e]; [ | discriminate]. cbn in Hys.
    destruct (traverse f xs) as [ys' | e]; [ | discriminate]. cbn in Hys.
    injection Hys as <-. cbn. rewrite (IH ys' eq_refl). reflexivity.
Qed.

Lemma select_columns {F} (d f : DataFrame F) (names : list string) :
  select d names = Ok f -> columns f = names.
Proof.
  unfold select.
  destruct (traverse _ names) as [js | e]; [ | discriminate]. cbn.
  destruct (traverse _ (values d)) as [rows | e]; [ | discriminate]. cbn.
  intros Hf. injection Hf as <-. reflexivity.
Qed.

Lemma data_frame_rows {F} (rows : list (list F)) (names : list string) d :
  data_frame rows names = Ok d ->
  values d = rows /\ Forall (fun row => length row = length names) rows.
Proof.
  unfold data_frame.
  destruct (forallb _ rows) eqn:Hall; [ | discriminate].
  intros Hd. injection Hd as <-. split; [reflexivity | ].
  apply Forall_forall. intros row Hin.
  rewrite forallb_forall in Hall. apply Nat.eqb_eq. auto.
Qed.

Lemma np_reshape_returns {A} (v obs : list A) (n : nat) :
  np_reshape v n = Ok obs -> obs = v /\ length v = n.
Proof.
  unfold np_reshape. destruct (length v =? n)%nat eqn:Hlen; [ | discriminate].
  intros Hobs. injection Hobs as <-. apply Nat.eqb_eq in Hlen. auto.
Qed.

Lemma concat_pairs_length {A} (rows : list (list A)) :
  Forall (fun row => length row = 2) rows ->
  length (concat rows) = 2 * length rows.
Proof.
  induction 1 as [ | row rows Hrow _ IH]; cbn; [reflexivity | ].
  rewrite length_app, Hrow, IH. lia.
Qed.

Lemma filter_out_one (a : string) (cols : list string) :
  NoDup cols -> In a cols ->
  length (filter (fun c => negb (String.eqb c a)) cols) = length cols - 1.
Proof.
  induction 1 as [ | c cols Hnotin Hnodup IH]; [contradiction | ].
  intros [-> | Hin]; cbn.
  - rewrite String.eqb_refl. cbn. rewrite Nat.sub_0_r.
    clear IH Hnodup. induction cols as [ | c cols IH]; [reflexivity | ].
    cbn. destruct (String.eqb_spec c a) as [-> | Hne].
    + exfalso. apply Hnotin. left. reflexivity.
    + cbn. f_equal. apply IH. intros Hin. apply Hnotin. right. exact Hin.
  - destruct (String.eqb_spec c a) as [-> | Hne]; [contradiction | ].
    cbn. rewrite (IH Hin). destruct cols; [contradiction | cbn; lia].
Qed.

Lemma difference_two (a b : string) (cols : list string) :
  NoDup cols -> In a cols -> In b cols -> a <> b ->
  length (difference cols [a; b]) = length cols - 2.
Proof.
  intros Hnodup Ha Hb Hab. unfold difference.
  rewrite <- (Permutation_length (StringSort.Permuted_sort _)).
  rewrite nodup_fixed_point by (apply NoDup_filter; exact Hnodup).
  assert (Hsplit : filter (fun c => negb (mentioned [a; b] c)) cols =
                   filter (fun c => negb (String.eqb c b))
                          (filter (fun c => negb (String.eqb c a)) cols)).
  { clear. induction cols as [ | c cols IH]; [reflexivity | ].
    cbn. destruct (String.eqb c a); cbn; [exact IH | ].
    rewrite orb_false_r. destruct (String.eqb c b); cbn; [exact IH | ].
    f_equal. exact IH. }
  rewrite Hsplit, filter_out_one.
  - rewrite filter_out_one by assumption. lia.
  - apply NoDup_filter. exact Hnodup.
  - apply filter_In. split; [exact Hb | ].
    destruct (String.eqb_spec b a) as [-> | _]; [contradiction | reflexivity].
Qed.

Section Shape.
Context {F : Type} {num : PyNumber F}.
Variable lib : Collaborators F.
Variable cfg : Config F.

(** The last call of [_next_observation] is the reshape: what it returns
    has the declared number of entries. *)
Lemma next_observation_length (self : Ledger F) (obs : list F) :
  fst (_next_observation lib cfg self) = Ok obs ->
  length obs = obs_shape cfg.
Proof.
  unfold _next_observation, bind, get, lift. cbn.
  repeat match goal with
         | |- context [match ?r with Ok _ => _ | Raise _ => _ end] =>
             destruct r; cbn; [ | discriminate]
         end.
  intros Hobs. apply np_reshape_returns in Hobs. destruct Hobs as [-> Hlen].
  exact Hlen.
Qed.

(** What [_next_observation] returns, call by call: the feature window
    it hands to the scaler, the last row of what the scaler returns, the
    forecast on the closes of the same rows, and the last column of the
    scaled account history. *)
Lemma next_observation_built (self : Ledger F) (obs : list F) :
  fst (_next_observation lib cfg self) = Ok obs ->
  exists features scaled row close forecast history last_column,
    select (stationary_df cfg)
           (difference (columns (stationary_df cfg)) ["index"; "Date"]%string)
      = Ok features /\
    fit_transform lib
      (map (map zero_if_inf)
           (firstn (current_step self + n_forecasts cfg + 1) (values features)))
      = Ok scaled /\
    item_from_end 1 scaled = Ok row /\
    column (stationary_df cfg) "Close" = Ok close /\
    sarimax_forecast lib
      (firstn (current_step self + n_forecasts cfg + 1) close)
      (n_forecasts cfg) (of_int 1 - confidence_interval cfg)%num
      = Ok forecast /\
    fit_transform lib (account_history self) = Ok history /\
    traverse (item_from_end 1) history = Ok last_column /\
    obs = map (astype_float16 lib)
              (row ++ predicted_mean forecast ++ concat (conf_int forecast)
                   ++ last_column) /\
    length row =
      length (difference (columns (stationary_df cfg)) ["index"; "Date"]%string).
Proof.
  unfold _next_observation, bind, get, lift. cbn.
  destruct (select _ _) as [features | e] eqn:Hselect; [ | discriminate].
  destruct (fit_transform lib _) as [scaled | e] eqn:Hscaled; [ | discriminate].
  destruct (data_frame _ _) as [frame | e] eqn:Hframe; [ | discriminate].
  destruct (item_from_end 1 _) as [row | e] eqn:Hrow; [ | discriminate].
  destruct (column _ _) as [close | e]; [ | discriminate].
  destruct (sarimax_forecast lib _ _ _) as [forecast | e] eqn:Hfc; [ | discriminate].
  destruct (fit_transform lib (account_history self)) as [history | e] eqn:Hhist;
    [ | discriminate].
  destruct (traverse _ history) as [last_column | e] eqn:Hlast; [ | discriminate].
  intros Hobs. apply np_reshape_returns in Hobs. destruct Hobs as [-> Hlen].
  pose proof (select_columns _ _ Hselect) as Hcolumns.
  apply data_frame_rows in Hframe. destruct Hframe as [Hvalues Hall].
  rewrite Hvalues in Hrow.
  exists features, scaled, row, close, forecast, history, last_column.
  repeat (split; [first [reflexivity | assumption] | ]).
  split; [rewrite <- !app_assoc; reflexivity | ].
  apply item_from_end_1_inv in Hrow. destruct Hrow as (older & Holder).
  rewrite Holder in Hall.
  apply Forall_app in Hall. destruct Hall as [_ Hall].
  inversion Hall as [ | ? ? Hlenrow _].
  rewrite Hlenrow, Hcolumns. reflexivity.
Qed.
End Shape.

Lemma two_members {A} (a b : A) (l : list A) :
  In a l -> In b l -> a <> b -> 2 <= length l.
Proof.
  destruct l as [ | x [ | y l]]; cbn; try lia.
  intros [-> | []] [-> | []] Hab. contradiction.
Qed.

Section ActionRows.
Context {F : Type} {num : PyNumber F}.
Variable cfg : Config F.

(** [_take_action] returns with five rows in the account history. *)
Lemma take_action_rows (action : Z) (self s1 : Ledger F) :
  _take_action cfg action self = (Ok tt, s1) ->
  length (account_history s1) = 5.
Proof.
  unfold _take_action. unfold bind at 1.
  rewrite current_price_run.
  destruct (fst (_current_price cfg self)) as [price | e]; [ | discriminate].
  unfold bind, get, modify, ret, lift.
  destruct (int_quarter action) as [action_type | e]; [ | discriminate].
  destruct (action_type =? 0)%Z; [ | destruct (action_type =? 1)%Z];
    cbn;
    match goal with
    | |- context [if ?b then _ else _] => destruct b
    end; cbn; unfold np_append_axis1; cbn;
    destruct (length (account_history self) =? 5)%nat eqn:Hrows;
    try discriminate;
    intros Hrun; injection Hrun as <-; cbn;
    apply Nat.eqb_eq in Hrows;
    rewrite zip_rows_length; auto.
Qed.
End ActionRows.

(** ** Building the observation *)

Lemma traverse_returns {A B} (f : A -> result B) (P : B -> Prop) (xs : list A) :
  (forall x, In x xs -> exists y, f x = Ok y /\ P y) ->
  exists ys, traverse f xs = Ok ys /\ Forall P ys /\ length ys = length xs.
Proof.
  induction xs as [ | x xs IH]; intros Hall.
  - exists []. cbn. auto.
  - destruct (Hall x (or_introl eq_refl)) as (y & Hy & HP).
    destruct IH as (ys & Hys & HPs & Hlen).
    { intros x' Hin. apply Hall. right. exact Hin. }
    exists (y :: ys). cbn. rewrite Hy. cbn. rewrite Hys. cbn.
    repeat split; auto.
Qed.

Lemma index_of_member (name : string) (cols : list string) :
  In name cols -> exists j, index_of name cols = Some j /\ j < length cols.
Proof.
  induction cols as [ | c cols IH]; [contradiction | ].
  intros Hin. cbn. destruct (String.eqb_spec c name) as [-> | Hne].
  - exists 0. split; [reflexivity | cbn; lia].
  - destruct Hin as [-> | Hin]; [contradiction | ].
    destruct (IH Hin) as (j & -> & Hj). exists (S j). cbn. split; [reflexivity | lia].
Qed.

Lemma difference_members (cols other : list string) (name : string) :
  In name (difference cols other) -> In name cols.
Proof.
  unfold difference. intros Hin.
  apply (Permutation_in _ (Permutation_sym (StringSort.Permuted_sort _))) in Hin.
  apply nodup_In in Hin. apply filter_In in Hin. tauto.
Qed.

Lemma cell_returns {F} (row : list F) (j : nat) :
  j < length row -> exists x, cell row j = Ok x /\ True.
Proof.
  intros Hj. unfold cell.
  destruct (nth_error row j) as [x | ] eqn:Hx;
    [exists x; split; [reflexivity | exact I] | ].
  apply nth_error_None in Hx. lia.
Qed.

Lemma select_returns {F} (d : DataFrame F) (names : list string) :
  rectangular d -> (forall n, In n names -> In n (columns d)) ->
  exists rows,
    select d names = Ok {| columns := names; values := rows |} /\
    Forall (fun row => length row = length names) rows /\
    length rows = length (values d).
Proof.
  intros Hrect Hnames. unfold select.
  destruct (traverse_returns
              (fun n => of_option KeyError (index_of n (columns d)))
              (fun j => j < length (columns d)) names)
    as (js & -> & Hjs & Hlen).
  { intros n Hn. destruct (index_of_member _ _ (Hnames n Hn)) as (j & -> & Hj).
    cbn. eauto. }
  cbn.
  destruct (traverse_returns
              (fun row => traverse (cell row) js)
              (fun row' : list F => length row' = length names) (values d))
    as (rows & -> & Hrows & Hlen').
  { intros row Hrow.
    destruct (traverse_returns (cell row) (fun _ => True) js)
      as (row' & Hrow' & _ & Hlenrow).
    - intros j Hj. apply cell_returns.
      unfold rectangular in Hrect. rewrite Forall_forall in Hrect, Hjs.
      rewrite (Hrect row Hrow). auto.
    - exists row'. split; [exact Hrow' | congruence]. }
  cbn. eauto.
Qed.

Lemma column_returns {F} (d : DataFrame F) (name : string) :
  rectangular d -> In name (columns d) ->
  exists xs, column d name = Ok xs /\ length xs = length (values d).
Proof.
  intros Hrect Hin. unfold column.
  destruct (index_of_member _ _ Hin) as (j & -> & Hj). cbn.
  destruct (traverse_returns (fun row => cell row j) (fun _ => True) (values d))
    as (xs & -> & _ & Hlen).
  { intros row Hrow. apply cell_returns.
    unfold rectangular in Hrect. rewrite Forall_forall in Hrect.
    rewrite (Hrect row Hrow). exact Hj. }
  eauto.
Qed.

Lemma data_frame_returns {F} (rows : list (list F)) (names : list string) :
  Forall (fun row => length row = length names) rows ->
  data_frame rows names = Ok {| columns := names; values := rows |}.
Proof.
  intros Hrows. unfold data_frame.
  replace (forallb _ rows) with true; [reflexivity | ].
  symmetry. apply forallb_forall. intros row Hrow.
  rewrite Forall_forall in Hrows. apply Nat.eqb_eq. auto.
Qed.

Lemma item_from_end_returns {A} (xs : list A) :
  xs <> [] -> exists x, item_from_end 1 xs = Ok x.
Proof.
  intros Hxs. destruct (exists_last Hxs) as (older & x & ->).
  exists x. apply item_from_end_1.
Qed.

Lemma Forall_firstn_kept {A} (P : A -> Prop) (n : nat) (xs : list A) :
  Forall P xs -> Forall P (firstn n xs).
Proof.
  intros Hall. rewrite <- (firstn_skipn n xs) in Hall.
  apply Forall_app in Hall. tauto.
Qed.

Lemma firstn_nonempty {A} (n : nat) (xs : list A) :
  xs <> [] -> firstn (n + 1) xs <> [].
Proof. destruct xs; [contradiction | ]. rewrite Nat.add_1_r. discriminate. Qed.

Section Runs.
Context {F : Type} {num : PyNumber F}.
Variable lib : Collaborators F.
Variable cfg : Config F.
Hypothesis Hlib : collaborators_return lib.
Hypothesis Hrect : rectangular (stationary_df cfg).
Hypothesis Hrows : values (stationary_df cfg) <> [].
Hypothesis Hcols : indexed_and_dated (columns (stationary_df cfg)).
Hypothesis Hclose : In "Close"%string (columns (stationary_df cfg)).
Hypothesis Hshape :
  obs_shape cfg =
    5 + length (columns (stationary_df cfg)) - 2 + n_forecasts cfg * 3.

(** With collaborators that return and keep their shapes, the observation
    is built at every step: the reshape finds the entries it declared. *)
Lemma next_observation_runs (self : Ledger F) :
  booked self ->
  exists obs, fst (_next_observation lib cfg self) = Ok obs.
Proof.
  intros (Hfive & width & Hwidth & Hbooked). destruct Hlib as [Hscaler Hforecast].
  destruct Hcols as (Hnodup & Hindex & Hdate).
  set (names := difference (columns (stationary_df cfg))
                           ["index"%string; "Date"%string]).
  assert (Hnames : length names = length (columns (stationary_df cfg)) - 2)
    by (apply difference_two; auto; discriminate).
  assert (Htwo : 2 <= length (columns (stationary_df cfg)))
    by (apply two_members with (a := "index"%string) (b := "Date"%string);
        auto; discriminate).
  unfold _next_observation, bind, get, lift. cbn. fold names.
  destruct (@select_returns _ (stationary_df cfg) names Hrect)
    as (rows & -> & Hwide & Hlong).
  { intros n Hn. eapply difference_members. exact Hn. }
  cbn [values columns].
  set (window := map (map zero_if_inf)
                     (firstn (current_step self + n_forecasts cfg + 1) rows)).
  assert (Hwindow : window <> []).
  { unfold window. intros Hnil. apply map_eq_nil in Hnil.
    revert Hnil. apply firstn_nonempty.
    intros ->. apply Hrows. apply length_zero_iff_nil. auto. }
  assert (Hwindow_wide : Forall (fun row => length row = length names) window).
  { unfold window. apply Forall_map.
    apply Forall_firstn_kept with (n := current_step self + n_forecasts cfg + 1)
      in Hwide.
    revert Hwide. apply Forall_impl. intros row Hrow.
    rewrite length_map. exact Hrow. }
  destruct (Hscaler window (length names) Hwindow Hwindow_wide)
    as (scaled & -> & Hscaled_long & Hscaled_wide).
  rewrite data_frame_returns by exact Hscaled_wide. cbn [values columns].
  destruct (@item_from_end_returns _ scaled) as (row & Hrow).
  { intros ->. destruct window; [contradiction | discriminate]. }
  rewrite Hrow.
  destruct (@column_returns _ (stationary_df cfg) "Close" Hrect Hclose)
    as (close & -> & Hclose_long).
  destruct (Hforecast
              (firstn (current_step self + n_forecasts cfg + 1) close)
              (n_forecasts cfg) (of_int 1 - confidence_interval cfg)%num)
    as (forecast & -> & Hmean & Hci & Hpairs).
  { apply firstn_nonempty. intros ->. apply Hrows.
    apply length_zero_iff_nil. auto. }
  destruct (Hscaler (account_history self) width)
    as (history & -> & Hhistory_long & Hhistory_wide); [ | exact Hbooked | ].
  { intros Hnil. rewrite Hnil in Hfive. discriminate. }
  destruct (traverse_returns (item_from_end 1) (fun _ : F => True) history)
    as (last_column & -> & _ & Hlast).
  { intros r Hr. rewrite Forall_forall in Hhistory_wide.
    destruct (@item_from_end_returns _ r) as (x & Hx).
    - intros ->. specialize (Hhistory_wide _ Hr). cbn in Hhistory_wide. lia.
    - exists x. auto. }
  unfold np_reshape.
  replace (length _ =? obs_shape cfg) with true; [eexists; reflexivity | ].
  symmetry. apply Nat.eqb_eq.
  rewrite length_map, !length_app, Hshape, Hmean.
  apply concat_pairs_length in Hpairs.
  rewrite Hpairs, Hci, Hlast, Hhistory_long, Hfive.
  apply item_from_end_1_inv in Hrow. destruct Hrow as (older & ->).
  apply Forall_app in Hscaled_wide. destruct Hscaled_wide as [_ Hlast_row].
  inversion Hlast_row as [ | ? ? Hrow_len _]; subst.
  rewrite Hrow_len, Hnames. lia.
Qed.
End Runs.


Section Booked.
Context {F : Type} {num : PyNumber F}.
Variable lib : Collaborators F.
Variable cfg : Config F.

Lemma zip_rows_singletons {A} (width : nat) (m : list (list A)) (c : list A) :
  length m = length c ->
  Forall (fun row => length row = width) m ->
  Forall (fun row => length row = width + 1)
         (zip_rows m (map (fun x => [x]) c)).
Proof.
  revert c. induction m as [ | r m IH]; intros [ | x c]; cbn;
    try discriminate; auto.
  intros Hlen Hall. inversion Hall as [ | ? ? Hr Hm]; subst.
  constructor; [rewrite length_app; reflexivity | ].
  apply IH; [lia | assumption].
Qed.

Lemma reset_books (self : Ledger F) : booked (snd (reset lib cfg self)).
Proof.
  rewrite reset_unfold. split; [reflexivity | ].
  exists 1. split; [lia | ]. repeat constructor.
Qed.

Lemma take_action_history (action : Z) (self s1 : Ledger F) r :
  length (account_history self) = 5 ->
  _take_action cfg action self = (r, s1) ->
  account_history s1 = account_history self \/
  exists c0 c1 c2 c3 c4,
    account_history s1 =
      zip_rows (account_history self) [[c0]; [c1]; [c2]; [c3]; [c4]].
Proof.
  intros Hfive. unfold _take_action. unfold bind at 1.
  rewrite current_price_run.
  destruct (fst (_current_price cfg self)) as [price | e];
    [ | intros Hrun; injection Hrun as _ <-; left; reflexivity].
  unfold bind, get, modify, ret, lift.
  destruct (int_quarter action) as [action_type | e];
    [ | intros Hrun; injection Hrun as _ <-; left; reflexivity].
  destruct (action_type =? 0)%Z; [ | destruct (action_type =? 1)%Z];
    cbn;
    match goal with
    | |- context [if ?b then _ else _] => destruct b
    end; cbn;
    unfold np_append_axis1; cbn; rewrite Hfive; cbn;
    intros Hrun; injection Hrun as _ <-; cbn;
    right; do 5 eexists; reflexivity.
Qed.

Lemma take_action_keeps_booked (action : Z) (self : Ledger F) :
  booked self -> booked (snd (_take_action cfg action self)).
Proof.
  intros (Hfive & width & Hwidth & Hwide). unfold booked.
  destruct (_take_action cfg action self) as [r s1] eqn:Hrun.
  pose proof Hrun as Hnext. apply take_action_history in Hnext; [ | exact Hfive].
  destruct Hnext as [Hsame | (c0 & c1 & c2 & c3 & c4 & Hnext)]; cbn.
  - rewrite Hsame. eauto.
  - rewrite Hnext. split; [rewrite zip_rows_length; auto | ].
    exists (width + 1). split; [lia | ].
    apply zip_rows_singletons with (c := [c0; c1; c2; c3; c4]); auto.
Qed.
End Booked.

Lemma zip_with_length {A B C} (f : A -> B -> C) (xs : list A) (ys : list B) :
  length (Standin.zip_with f xs ys) = Nat.min (length xs) (length ys).
Proof.
  revert ys. induction xs as [ | x xs IH]; intros [ | y ys]; cbn; auto.
Qed.

Lemma fold_zip_length {A} (f : A -> A -> A) (width : nat)
    (rows : list (list A)) (acc : list A) :
  Forall (fun row => length row = width) rows ->
  length acc = width ->
  length (fold_left (Standin.zip_with f) rows acc) = width.
Proof.
  revert acc. induction rows as [ | r rows IH]; intros acc Hall Hacc; cbn.
  - exact Hacc.
  - apply Forall_cons_iff in Hall. destruct Hall as [Hr Hrows].
    apply IH; [assumption | ]. rewrite zip_with_length, Hacc, Hr. lia.
Qed.

(** The stand-ins return, and keep the shapes. *)
Lemma standin_collaborators_return {F} `{PyNumber F} :
  collaborators_return (Standin.collaborators (F := F)).
Proof.
  split.
  - intros X width HX Hwide. cbn. unfold Standin.minmax.
    destruct X as [ | r rs]; [contradiction | ].
    eexists. split; [reflexivity | ]. split; [apply length_map | ].
    pose proof Hwide as Hrows.
    apply Forall_cons_iff in Hrows. destruct Hrows as [Hr Hrs].
    apply Forall_map. revert Hwide. apply Forall_impl. intros row Hrow.
    rewrite !zip_with_length.
    rewrite !fold_zip_length with (width := width); auto. lia.
  - intros endog steps alpha Hendog. cbn. unfold Standin.persistence.
    destruct (exists_last Hendog) as (older & x & ->).
    rewrite item_from_end_1. cbn. eexists. split; [reflexivity | ]. cbn.
    rewrite !repeat_length. repeat split.
    apply Forall_forall. intros row Hrow.
    apply repeat_spec in Hrow. subst row. reflexivity.
Qed.

Section Construction.
Context {F : Type} {num : PyNumber F}.
Variable lib : Collaborators F.
Variable env : Config F.

(** The ledger an observation is built on: the one [reset] or [step]
    leaves when it returns. *)
Lemma observation_ledger (self : Ledger F) (obs : list F) :
  (fst (reset lib env self) = Ok obs \/
   exists action reward done info self',
     step lib env action self = (Ok (obs, reward, done, info), self')) ->
  exists s,
    (s = snd (reset lib env self) \/
     exists action reward done info,
       step lib env action self = (Ok (obs, reward, done, info), s)) /\
    length (account_history s) = 5 /\
    fst (_next_observation lib env s) = Ok obs.
Proof.
  intros [Hreset | (action & reward & done & info & self' & Hstep)].
  - exists (snd (reset lib env self)). split; [left; reflexivity | ].
    rewrite reset_unfold in Hreset |- *.
    cbv zeta in Hreset |- *. cbn [fst snd] in Hreset |- *.
    split; [reflexivity | exact Hreset].
  - exists self'. split; [right; eauto | ].
    apply step_returns in Hstep.
    destruct Hstep as (s1 & Htake & -> & Hobs & _).
    split; [ | exact Hobs].
    cbn. eapply take_action_rows. exact Htake.
Qed.

(** C5. Every observation [reset] or [step] returns has
    [5 + (len(df.columns) - 2) + 3 * n_forecasts] entries, the shape
    declared at construction.  Its entries are, cast to half precision and
    in this order: the last row of the scaled feature window (the columns
    of the stationarized table but ['index'] and ['Date'], the rows up to
    [current_step + n_forecasts]); the forecast of [n_forecasts] points on
    the closes of those rows; the bounds of its confidence intervals, row
    by row; and the last column of the scaled account history of the
    ledger the call leaves.  With a scaler and a forecaster that keep
    their shapes, and a stationarized table with the columns of the price
    table, ['index'] and ['Date'] among them, these parts have
    [len(df.columns) - 2], [n_forecasts], [2 * n_forecasts] and 5
    entries. *)
Theorem observation_has_declared_shape (self : Ledger F) (obs : list F) :
  constructed lib env ->
  (fst (reset lib env self) = Ok obs \/
   exists action reward done info self',
     step lib env action self = (Ok (obs, reward, done, info), self')) ->
  length obs = obs_shape env /\
  Z.of_nat (length obs) =
    (5 + (Z.of_nat (length (columns (df env))) - 2)
     + 3 * Z.of_nat (n_forecasts env))%Z /\
  exists s features scaled row close forecast history last_column,
    (s = snd (reset lib env self) \/
     exists action reward done info,
       step lib env action self = (Ok (obs, reward, done, info), s)) /\
    select (stationary_df env)
           (difference (columns (stationary_df env)) ["index"; "Date"]%string)
      = Ok features /\
    fit_transform lib
      (map (map (zero_if_inf (F := F)))
           (firstn (current_step s + n_forecasts env + 1) (values features)))
      = Ok scaled /\
    item_from_end 1 scaled = Ok row /\
    column (stationary_df env) "Close" = Ok close /\
    sarimax_forecast lib
      (firstn (current_step s + n_forecasts env + 1) close)
      (n_forecasts env) (of_int 1 - confidence_interval env)%num
      = Ok forecast /\
    fit_transform lib (account_history s) = Ok history /\
    length (account_history s) = 5 /\
    traverse (item_from_end 1) history = Ok last_column /\
    obs = map (astype_float16 lib)
              (row ++ predicted_mean forecast ++ concat (conf_int forecast)
                   ++ last_column) /\
    (shapes_kept lib ->
     indexed_and_dated (columns (stationary_df env)) ->
     length (columns (stationary_df env)) = length (columns (df env)) ->
     length row = length (columns (df env)) - 2 /\
     length (predicted_mean forecast) = n_forecasts env /\
     length (concat (conf_int forecast)) = 2 * n_forecasts env /\
     length last_column = 5).
Proof.
  intros Hinit Hcall.
  destruct (observation_ledger _ Hcall) as (s & Hledger & Hrows & Hobs).
  pose proof (next_observation_length _ _ _ Hobs) as Hshape.
  assert (Hdeclared : obs_shape env =
            5 + length (columns (df env)) - 2 + n_forecasts env * 3).
  { destruct Hinit as (df0 & funds & fee & strategy & horizon & level & ->).
    reflexivity. }
  split; [exact Hshape | ]. split; [rewrite Hshape, Hdeclared; lia | ].
  destruct (next_observation_built _ _ _ Hobs)
    as (features & scaled & row & close & forecast & history & last_column &
        Hselect & Hscaled & Hrow & Hclose & Hfc & Hhist & Hlast & Hbuilt & Hwidth).
  exists s, features, scaled, row, close, forecast, history, last_column.
  repeat (split; [assumption | ]).
  intros [Hscaler Hforecast] (Hnodup & Hindex & Hdate) Hsame.
  apply Hforecast in Hfc. destruct Hfc as (Hmean & Hci & Hpairs).
  repeat split.
  - rewrite Hwidth, <- Hsame. apply difference_two; auto; discriminate.
  - exact Hmean.
  - apply concat_pairs_length in Hpairs. rewrite Hpairs, Hci. reflexivity.
  - apply traverse_length in Hlast. apply Hscaler in Hhist.
    rewrite Hlast, Hhist. exact Hrows.
Qed.
End Construction.

(** ** Codes outside the action space, and values that are not finite *)

Section Unchecked.
Context {F : Type} {num : PyNumber F} {laws : PyNumberLaws F}.
Variable lib : Collaborators F.
Variable cfg : Config F.




Lemma finite_by_test (x : F) :
  (num_abs x =? inf)%num = false -> x <> inf /\ x <> neg_inf.
Proof.
  intros Htest.
  split; intros Hx;
    assert (Hinf : (num_abs x =? inf)%num = true)
      by (apply abs_is_inf; auto);
    rewrite Hinf in Htest; discriminate.
Qed.

Lemma zero_if_inf_is_finite (x : F) :
  zero_if_inf x <> inf /\ zero_if_inf x <> neg_inf.
Proof.
  unfold zero_if_inf.
  destruct (num_abs x =? inf)%num eqn:Htest.
  - apply finite_by_test, zero_is_finite.
  - apply finite_by_test, Htest.
Qed.

(** C8, amended. The reward [step] returns is never [+inf] nor [-inf];
    and for every observation [reset] or [step] returns, the feature
    window that [_next_observation] handed to the scaler (the rows of the
    feature columns up to [current_step + n_forecasts]) held no [+inf] and
    no [-inf].  (Not-a-number is replaced nowhere, and what the scaler,
    the forecaster and the cast to half precision produce is returned as
    it is.) *)
Theorem reward_is_never_infinite (self : Ledger F) (obs : list F) :
  (fst (reset lib cfg self) = Ok obs \/
   exists action reward done info self',
     step lib cfg action self = (Ok (obs, reward, done, info), self')) ->
  (forall action reward done info self',
     step lib cfg action self = (Ok (obs, reward, done, info), self') ->
     reward <> inf /\ reward <> neg_inf) /\
  exists s features window scaled,
    (s = snd (reset lib cfg self) \/
     exists action reward done info,
       step lib cfg action self = (Ok (obs, reward, done, info), s)) /\
    select (stationary_df cfg)
           (difference (columns (stationary_df cfg)) ["index"; "Date"]%string)
      = Ok features /\
    window =
      map (map zero_if_inf)
          (firstn (current_step s + n_forecasts cfg + 1) (values features)) /\
    fit_transform lib window = Ok scaled /\
    Forall (Forall (fun x => x <> inf /\ x <> neg_inf)) window.
Proof.
  intros Hcall. split.
  - intros action reward done info self' Hstep.
    apply step_returns in Hstep.
    destruct Hstep as (s1 & _ & _ & _ & Hreward & _).
    apply reward_value in Hreward.
    destruct Hreward as (older & previous & last & _ & ->).
    destruct (num_abs (last - previous) =? inf)%num eqn:Htest; cbn.
    + apply finite_by_test, zero_is_finite.
    + apply finite_by_test, Htest.
  - destruct (observation_ledger _ _ _ Hcall) as (s & Hledger & _ & Hobs).
    destruct (next_observation_built _ _ _ Hobs)
      as (features & scaled & _ & _ & _ & _ & _ & Hselect & Hscaled & _).
    exists s, features,
      (map (map zero_if_inf)
           (firstn (current_step s + n_forecasts cfg + 1) (values features))),
      scaled.
    split; [exact Hledger | ]. split; [exact Hselect | ].
    split; [reflexivity | ]. split; [exact Hscaled | ].
    apply Forall_map. apply Forall_forall. intros row _.
    apply Forall_map. apply Forall_forall. intros x _.
    apply zero_if_inf_is_finite.
Qed.
End Unchecked.

(** ** The environment at work *)

Ltac run := vm_compute; reflexivity.

(** The stand-ins keep the shapes. *)
Lemma standin_shapes_kept {F} `{PyNumber F} :
  shapes_kept (Standin.collaborators (F := F)).
Proof.
  split.
  - intros X Y. cbn. unfold Standin.minmax.
    destruct X as [ | r rs]; [discriminate | ].
    intros HY. injection HY as <-. cbn. rewrite length_map. reflexivity.
  - intros endog steps alpha forecast. cbn. unfold Standin.persistence.
    destruct (item_from_end 1 endog) as [x | e]; [ | discriminate]. cbn.
    intros Hfc. injection Hfc as <-. cbn. rewrite !repeat_length.
    repeat split. apply Forall_forall. intros row Hrow.
    apply repeat_spec in Hrow. subst row. reflexivity.
Qed.

(** The columns of the example: the seven of the bars, and ['index']. *)
Lemma example_columns :
  indexed_and_dated (columns (stationary_df example_env)).
Proof.
  repeat split.
  - repeat constructor; cbn; intuition discriminate.
  - cbn. auto.
  - cbn. auto.
Qed.

(** A full buy of 10000 at 100 without commission: 100 bought for 10000,
    nothing left.  The full sale at 100 then: 100 sold for 10000, nothing
    held. *)
Lemma full_buy_then_full_sale_at_100 :
  exists bought sold,
    _current_price free_env (opened free_env)
      = (Ok 100%float, opened free_env) /\
    _take_action free_env 0 (opened free_env) = (Ok tt, bought) /\
    balance bought = 0%float /\
    btc_held bought = 100%float /\
    account_history bought =
      [[10000; 0]; [0; 100]; [0; 10000]; [0; 0]; [0; 0]]%float /\
    _take_action free_env 4 bought = (Ok tt, sold) /\
    balance sold = 10000%float /\
    btc_held sold = 0%float /\
    account_history sold =
      [[10000; 0; 10000]; [0; 100; 0]; [0; 10000; 0];
       [0; 0; 100]; [0; 0; 10000]]%float /\
    map (fun t => (trade_type t, trade_amount t, trade_total t)) (trades sold) =
      [("buy"%string, 100%float, 10000%float);
       ("sell"%string, 100%float, 10000%float)].
Proof.
  do 2 eexists. split; [run | ]. split; [run | ].
  split; [reflexivity | ]. split; [reflexivity | ]. split; [reflexivity | ].
  split; [run | ]. repeat split.
Qed.

(** C2.  The default environment, a full buy (code 0) as first action.
    Balance, holding and price start non-negative; the amount bought is
    the smaller of [balance * 1 / price] and [balance / price], and its
    cost, [btc_bought * price], rounds to the double above the balance:
    the balance ends at [-2^-39]. *)
Lemma trade_sizing_can_overdraw :
  exists current_price price btc_bought cost s1,
    balance (opened example_env) = 10000%float /\
    btc_held (opened example_env) = 0%float /\
    _current_price example_env (opened example_env)
      = (Ok current_price, opened example_env) /\
    (0 <? current_price)%float = true /\
    int_quarter 0 = Ok 0%Z /\
    price = (current_price * (1 + commission example_env))%float /\
    btc_bought = py_min (10000 * (1 / 1) / price)%float (10000 / price)%float /\
    cost = (btc_bought * price)%float /\
    cost = 0x1.3880000000001p+13%float /\
    (10000 <? cost)%float = true /\
    _take_action example_env 0 (opened example_env) = (Ok tt, s1) /\
    btc_held s1 = btc_bought /\
    balance s1 = (10000 - cost)%float /\
    balance s1 = (-0x1p-39)%float /\
    (balance s1 <? 0)%float = true.
Proof.
  do 5 eexists.
  split; [run | ]. split; [run | ]. split; [run | ]. split; [run | ].
  split; [run | ]. split; [reflexivity | ]. split; [reflexivity | ].
  split; [reflexivity | ]. split; [run | ]. split; [run | ].
  split; [run | ]. split; [run | ]. split; [run | ]. split; run.
Qed.

(** Once [step] has returned, the counter stands at the next bar, and the
    price there values the ledger differently: the price of C3 is the one
    the action traded at. *)
Lemma price_moves_with_the_step :
  exists obs reward done s1 next_price last,
    step Standin.collaborators example_env 0 (opened example_env)
      = (Ok (obs, reward, done, []), s1) /\
    _current_price example_env s1 = (Ok next_price, s1) /\
    item_from_end 1 (net_worths s1) = Ok last /\
    (last =? balance s1 + btc_held s1 * next_price)%float = false.
Proof.
  do 6 eexists. split; [run | ]. split; [run | ]. split; [run | ]. run.
Qed.


(** Against C8.  When a close is missing, the net worth is not a number,
    and neither is the reward [step] returns; and not-a-number in the
    feature window goes to the scaler as it is. *)
Lemma reward_can_be_nan :
  (exists s1 obs done s2,
     s1 = snd (step Standin.collaborators gapped_env 8 (opened gapped_env)) /\
     step Standin.collaborators gapped_env 8 s1 = (Ok (obs, nan, done, []), s2) /\
     net_worths s2 = [10000%float; 10000%float; nan]) /\
  zero_if_inf nan = nan.
Proof.
  split; [ | reflexivity].
  do 4 eexists. split; [reflexivity | ]. split; [run | ]. reflexivity.
Qed.

(** The first step of the example, a full buy, for C1. *)
Lemma first_step_reward :
  exists obs reward done info self',
    step Standin.collaborators example_env 0 (opened example_env)
      = (Ok (obs, reward, done, info), self') /\
    exists older previous last,
      net_worths self' = older ++ [previous; last] /\
      let delta := (last - previous)%num in
      (delta = inf \/ delta = neg_inf -> reward = of_int 0) /\
      (delta <> inf -> delta <> neg_inf -> reward = delta) /\
      (forall strategy,
         fst (_reward Standin.collaborators
                (set_reward_func strategy example_env) self') = Ok reward).
Proof.
  do 5 eexists. split; [run | ].
  eapply (step_reward_is_net_worth_delta Standin.collaborators example_env 0)
    with (self := opened example_env).
  run.
Defined.


(** The same step, for C4. *)
Lemma first_step_done :
  exists obs reward done info self',
    step Standin.collaborators example_env 0 (opened example_env)
      = (Ok (obs, reward, done, info), self') /\
    exists older last,
      net_worths self' = older ++ [last] /\
      current_step self' = current_step (opened example_env) + 1 /\
      (done = true <->
         (last <? initial_balance example_env / of_int 10)%num = true \/
         Z.of_nat (current_step self') =
           (Z.of_nat (len (df example_env))
            - Z.of_nat (n_forecasts example_env) - 1)%Z) /\
      (done = false <->
         (last <? initial_balance example_env / of_int 10)%num = false /\
         Z.of_nat (current_step self') <>
           (Z.of_nat (len (df example_env))
            - Z.of_nat (n_forecasts example_env) - 1)%Z).
Proof.
  do 5 eexists. split; [run | ].
  eapply (step_done_iff Standin.collaborators example_env 0).
  run.
Defined.

(** The same step, for the amended C8. *)
Lemma first_step_reward_is_finite :
  exists obs reward done info self',
    step Standin.collaborators example_env 0 (opened example_env)
      = (Ok (obs, reward, done, info), self') /\
    (reward <> inf /\ reward <> neg_inf) /\
    exists s features window scaled,
      (s = snd (reset Standin.collaborators example_env (opened example_env)) \/
       exists action reward done info,
         step Standin.collaborators example_env action (opened example_env)
           = (Ok (obs, reward, done, info), s)) /\
      select (stationary_df example_env)
             (difference (columns (stationary_df example_env))
                         ["index"; "Date"]%string)
        = Ok features /\
      window =
        map (map zero_if_inf)
            (firstn (current_step s + n_forecasts example_env + 1)
                    (values features)) /\
      fit_transform Standin.collaborators window = Ok scaled /\
      Forall (Forall (fun x : float => x <> inf /\ x <> neg_inf)) window.
Proof.
  do 5 eexists. split; [run | ].
  edestruct (@reward_is_never_infinite
               float binary64 binary64_laws Standin.collaborators example_env
               (opened example_env)) as [Hreward Hwindow].
  - right. exists 0%Z. do 4 eexists. run.
  - split; [eapply (Hreward 0%Z); run | exact Hwindow].
Defined.

(** Code 8 on the freshly reset ledger, for C6. *)
Lemma hold_on_opened_ledger :
  exists current_price s1 r0 r1 r2 r3 r4,
    _take_action example_env 8 (opened example_env) = (Ok tt, s1) /\
    balance s1 = balance (opened example_env) /\
    btc_held s1 = btc_held (opened example_env) /\
    trades s1 = trades (opened example_env) /\
    net_worths s1 =
      net_worths (opened example_env)
        ++ [(balance (opened example_env)
             + btc_held (opened example_env) * current_price)%num] /\
    account_history (opened example_env) = [r0; r1; r2; r3; r4] /\
    account_history s1 =
      [r0 ++ [balance (opened example_env)]; r1 ++ [of_int 0];
       r2 ++ [of_int 0]; r3 ++ [of_int 0]; r4 ++ [of_int 0]].
Proof.
  eexists.
  apply (@hold_appends_history_only _ _ _ example_env 8 2
           (opened example_env)).
  - reflexivity.
  - lia.
  - run.
  - reflexivity.
Defined.

(** The freshly reset ledger of the example. *)
Lemma opened_is_seeded : seeded (opened example_env).
Proof. split; [discriminate | reflexivity]. Qed.

(** The codes of the action space have the types 0, 1 and 2. *)
Lemma declared_codes_have_three_types :
  map int_quarter [0; 1; 2; 3; 4; 5; 6; 7; 8; 9; 10; 11]%Z =
  map (@Ok Z) [0; 0; 0; 0; 1; 1; 1; 1; 2; 2; 2; 2]%Z.
Proof. reflexivity. Qed.

(** The largest double is the quarter of [2^1026 - 2^973]; the quarter of
    every integer up to [overflow_bound - 1] rounds to it or below, and
    that of [overflow_bound] to [2^1024], which is no double. *)
Lemma quarter_at_the_bound :
  quarter (2 ^ 1026 - 2 ^ 973) =
    Ok (S754_finite false (2 ^ 53 - 1) 971) /\
  quarter (overflow_bound - 1) =
    Ok (S754_finite false (2 ^ 53 - 1) 971) /\
  quarter overflow_bound = Raise OverflowError /\
  quarter (- overflow_bound) = Raise OverflowError /\
  Prim2SF (SF2Prim (S754_finite false (2 ^ 53 - 1) 971)) =
    S754_finite false (2 ^ 53 - 1) 971 /\
  SF2Prim (S754_finite false (2 ^ 53 - 1) 971) = 0x1.fffffffffffffp+1023%float.
Proof. repeat split; vm_compute; reflexivity. Qed.

(** Against C10.  The code [2^1100], an integer from 8 up: [step] raises
    [OverflowError], and the ledger is as it was. *)
Lemma code_2_to_the_1100_raises :
  (8 <= 2 ^ 1100)%Z /\
  int_quarter (2 ^ 1100) = Raise OverflowError /\
  _current_price example_env (opened example_env)
    = (Ok 67.010000000000005%float, opened example_env) /\
  _take_action example_env (2 ^ 1100) (opened example_env)
    = (Raise OverflowError, opened example_env) /\
  step Standin.collaborators example_env (2 ^ 1100) (opened example_env)
    = (Raise OverflowError, opened example_env).
Proof.
  split; [vm_compute; discriminate | ].
  split; [run | ]. split; [run | ]. split; run.
Qed.

(** Code 12 on the freshly reset ledger, for the amended C10. *)
Lemma code_12_holds :
  exists current_price,
    let self := opened example_env in
    let s1 := held current_price self in
    let s2 := set_current_step (current_step self + 1) s1 in
    (exists action_type,
       int_quarter 12 = Ok action_type /\ (2 <= action_type)%Z) /\
    _take_action example_env 12 self = (Ok tt, s1) /\
    balance s1 = balance self /\
    btc_held s1 = btc_held self /\
    trades s1 = trades self /\
    length (net_worths s1) = length (net_worths self) + 1 /\
    map (@length float) (account_history s1) =
      map (fun row => length row + 1) (account_history self) /\
    (forall obs,
       fst (_next_observation Standin.collaborators example_env s2) = Ok obs ->
       exists reward done,
         step Standin.collaborators example_env 12 self
           = (Ok (obs, reward, done, []), s2)).
Proof.
  eexists.
  refine (proj1 (codes_from_8_are_holds Standin.collaborators example_env
                   (action := 12) (self := opened example_env) _ _ _) _).
  - lia.
  - run.
  - exact opened_is_seeded.
  - vm_compute. reflexivity.
Defined.


(** The first observation of the example, for C5: 41 entries, the last
    five of them the scaled column [10000, 0, 0, 0, 0] of the fresh
    account history. *)
Lemma first_observation_shape :
  exists obs,
    fst (reset Standin.collaborators example_env Standin.blank) = Ok obs /\
    length obs = 41 /\
    Z.of_nat (length obs) =
      (5 + (Z.of_nat (length (columns (df example_env))) - 2)
       + 3 * Z.of_nat (n_forecasts example_env))%Z /\
    exists s features scaled row close forecast history last_column,
      (s = snd (reset Standin.collaborators example_env Standin.blank) \/
       exists action reward done info,
         step Standin.collaborators example_env action Standin.blank
           = (Ok (obs, reward, done, info), s)) /\
      select (stationary_df example_env)
             (difference (columns (stationary_df example_env))
                         ["index"; "Date"]%string)
        = Ok features /\
      fit_transform Standin.collaborators
        (map (map (zero_if_inf (F := float)))
             (firstn (current_step s + n_forecasts example_env + 1)
                     (values features)))
        = Ok scaled /\
      item_from_end 1 scaled = Ok row /\
      column (stationary_df example_env) "Close" = Ok close /\
      sarimax_forecast Standin.collaborators
        (firstn (current_step s + n_forecasts example_env + 1) close)
        (n_forecasts example_env)
        (of_int 1 - confidence_interval example_env)%num
        = Ok forecast /\
      fit_transform Standin.collaborators (account_history s) = Ok history /\
      length (account_history s) = 5 /\
      traverse (item_from_end 1) history = Ok last_column /\
      obs = map (astype_float16 Standin.collaborators)
                (row ++ predicted_mean forecast ++ concat (conf_int forecast)
                     ++ last_column) /\
      length row = length (columns (df example_env)) - 2 /\
      length (predicted_mean forecast) = n_forecasts example_env /\
      length (concat (conf_int forecast)) = 2 * n_forecasts example_env /\
      length last_column = 5.
Proof.
  eexists. split; [run | ].
  edestruct (@observation_has_declared_shape
               float binary64 Standin.collaborators example_env Standin.blank)
    as (Hshape & Hcount & s & features & scaled & row & close & forecast &
        history & last_column & Hledger & Hselect & Hscaled & Hrow & Hclose &
        Hforecast & Hhistory & Hfive & Hlast & Hbuilt & Hparts).
  - do 6 eexists. reflexivity.
  - left. run.
  - split; [exact Hshape | ]. split; [exact Hcount | ].
    exists s, features, scaled, row, close, forecast, history, last_column.
    repeat (split; [assumption | ]).
    apply Hparts.
    + exact standin_shapes_kept.
    + exact example_columns.
    + reflexivity.
Defined.

(** The example environment builds an observation on every booked ledger. *)
Lemma example_observations_are_built (self : Ledger float) :
  booked self ->
  exists obs,
    fst (_next_observation Standin.collaborators example_env self) = Ok obs.
Proof.
  apply next_observation_runs.
  - exact standin_collaborators_return.
  - repeat constructor.
  - discriminate.
  - exact example_columns.
  - cbn. tauto.
  - reflexivity.
Qed.

(** * More of the environment *)

(** ** What an action does *)

Section Cases.
Context {F : Type} {num : PyNumber F}.
Variable lib : Collaborators F.
Variable cfg : Config F.

(** All that [_take_action] does, on a ledger with its five rows: it
    raises what the price or the division raised and assigns nothing, or it
    returns. *)
Lemma take_action_cases (action : Z) (self : Ledger F) :
  length (account_history self) = 5 ->
  (exists e,
     _take_action cfg action self = (Raise e, self) /\
     (_current_price cfg self = (Raise e, self) \/
      int_quarter action = Raise e)) \/
  (exists price bought cost sold sales s1,
     _current_price cfg self = (Ok price, self) /\
     _take_action cfg action self = (Ok tt, s1) /\
     current_step s1 = current_step self /\
     net_worths s1 =
       net_worths self ++ [(balance s1 + btc_held s1 * price)%num] /\
     account_history s1 =
       zip_rows (account_history self)
                [[balance s1]; [bought]; [cost]; [sold]; [sales]] /\
     trades s1 =
       (if (sold >? of_int 0)%num || (bought >? of_int 0)%num
        then trades self ++ [entry self bought cost sold sales]
        else trades self) /\
     exists action_type,
       int_quarter action = Ok action_type /\
       (let amount := (of_int 1 / of_int (action mod 4 + 1))%num in
        if (action_type =? 0)%Z then
          let buy_price := (price * (of_int 1 + commission cfg))%num in
          bought = py_min (balance self * amount / buy_price)%num
                          (balance self / buy_price)%num /\
          cost = (bought * buy_price)%num /\
          sold = of_int 0 /\ sales = of_int 0 /\
          btc_held s1 = (btc_held self + bought)%num /\
          balance s1 = (balance self - cost)%num
        else if (action_type =? 1)%Z then
          let sell_price := (price * (of_int 1 - commission cfg))%num in
          sold = (btc_held self * amount)%num /\
          sales = (sold * sell_price)%num /\
          bought = of_int 0 /\ cost = of_int 0 /\
          btc_held s1 = (btc_held self - sold)%num /\
          balance s1 = (balance self + sales)%num
        else
          bought = of_int 0 /\ cost = of_int 0 /\
          sold = of_int 0 /\ sales = of_int 0 /\
          btc_held s1 = btc_held self /\ balance s1 = balance self)).
Proof.
  intros Hrows.
  pose proof (current_price_run cfg self) as Hrun.
  destruct (fst (_current_price cfg self)) as [price | e].
  - destruct (int_quarter action) as [action_type | e] eqn:Htype.
    + right. exists price. unfold _take_action. unfold bind at 1. rewrite Hrun.
      unfold bind at 1. unfold lift at 1. rewrite Htype.
      unfold bind, get, modify, ret, lift.
      destruct (action_type =? 0)%Z eqn:Hbuy;
        [ | destruct (action_type =? 1)%Z eqn:Hsell];
        cbn;
        match goal with
        | |- context [if ?b then _ else _] => destruct b eqn:Htest
        end; cbn; unfold np_append_axis1; cbn; rewrite Hrows; cbn;
        do 5 eexists; (split; [reflexivity | ]); (split; [reflexivity | ]);
        cbn; rewrite ?Htest; cbn;
        (split; [reflexivity | ]); (split; [reflexivity | ]);
        (split; [reflexivity | ]); (split; [reflexivity | ]);
        exists action_type; (split; [reflexivity | ]);
        rewrite ?Hbuy, ?Hsell; cbn; auto 12.
    + left. exists e. split; [ | right; reflexivity].
      unfold _take_action. unfold bind at 1. rewrite Hrun.
      unfold bind at 1. unfold lift at 1. rewrite Htype. reflexivity.
  - left. exists e. split; [ | left; exact Hrun].
    unfold _take_action. unfold bind at 1. rewrite Hrun. reflexivity.
Qed.
End Cases.

(** ** Invariants of an episode *)

Lemma column_length {F} (d : DataFrame F) (name : string) (xs : list F) :
  column d name = Ok xs -> length xs = len d.
Proof.
  unfold column. destruct (index_of name (columns d)) as [j | ]; [ | discriminate].
  cbn. apply traverse_length.
Qed.

Lemma sorted_snoc (steps : list nat) (n : nat) :
  StronglySorted lt steps -> Forall (fun m => m < n) steps ->
  StronglySorted lt (steps ++ [n]).
Proof.
  induction 1 as [ | m steps Hsorted IH Hm]; intros Hall; cbn.
  - repeat constructor.
  - apply Forall_cons_iff in Hall. destruct Hall as [Hmn Hall].
    constructor; [apply IH; exact Hall | ].
    apply Forall_app. split; [exact Hm | repeat constructor; exact Hmn].
Qed.

Section Invariants.
Context {F : Type} {num : PyNumber F}.
Variable lib : Collaborators F.
Variable cfg : Config F.

(** The attributes after [step], whether it returned or raised. *)
Lemma step_leaves (action : Z) (self : Ledger F) :
  snd (step lib cfg action self) =
  match _take_action cfg action self with
  | (Ok _, s1) => set_current_step (current_step s1 + 1) s1
  | (Raise _, s1) => s1
  end.
Proof.
  rewrite step_unfold.
  destruct (_take_action cfg action self) as [[[] | e] s1]; [ | reflexivity].
  cbv zeta.
  destruct (fst (_next_observation lib cfg _)); [ | reflexivity].
  destruct (fst (_reward lib cfg _)); [ | reflexivity].
  destruct (fst (_done cfg _)); reflexivity.
Qed.

Lemma reset_leaves (self : Ledger F) :
  snd (reset lib cfg self) =
  {| balance := initial_balance cfg;
     net_worths := [initial_balance cfg];
     btc_held := of_int 0;
     current_step := 0;
     account_history :=
       [[initial_balance cfg]; [of_int 0]; [of_int 0]; [of_int 0]; [of_int 0]];
     trades := [] |}.
Proof. rewrite reset_unfold. reflexivity. Qed.

Lemma reset_tracks (self : Ledger F) : tracked (snd (reset lib cfg self)).
Proof. rewrite reset_leaves. repeat split. repeat constructor. Qed.

Lemma reset_logs (self : Ledger F) : logged (snd (reset lib cfg self)).
Proof. rewrite reset_leaves. repeat split; cbn; auto; constructor. Qed.

Lemma step_keeps_tracked (action : Z) (self : Ledger F) :
  tracked self -> tracked (snd (step lib cfg action self)).
Proof.
  intros (Hnw & Hrows & Hwide). rewrite step_leaves.
  destruct (take_action_cases cfg action self Hrows)
    as [(e & -> & _) | (price & bought & cost & sold & sales & s1 & _ & -> &
                        Hstep & Hworth & Hcolumn & _)].
  - repeat split; assumption.
  - repeat split; cbn.
    + rewrite Hworth, length_app, Hnw, Hstep. reflexivity.
    + rewrite Hcolumn, zip_rows_length; [exact Hrows | rewrite Hrows; reflexivity].
    + rewrite Hcolumn, Hstep.
      apply zip_rows_singletons
        with (c := [balance s1; bought; cost; sold; sales]);
        [rewrite Hrows; reflexivity | exact Hwide].
Qed.

Lemma step_keeps_logged (action : Z) (self : Ledger F) :
  length (account_history self) = 5 ->
  logged self -> logged (snd (step lib cfg action self)).
Proof.
  intros Hrows (Hcount & Hsorted & Hall). rewrite step_leaves.
  destruct (take_action_cases cfg action self Hrows)
    as [(e & -> & _) | (price & bought & cost & sold & sales & s1 & _ & -> &
                        Hstep & _ & _ & Htrades & _)].
  - repeat split; assumption.
  - assert (Hearlier :
      Forall (fun t => trade_step t < current_step self + 1 /\
                       (trade_amount t >? of_int 0)%num = true /\
                       (trade_type t = "buy"%string \/
                        trade_type t = "sell"%string)) (trades self)).
    { revert Hall. apply Forall_impl. intros t (Hlt & Hrest). split; [lia | exact Hrest]. }
    unfold logged. cbn. rewrite Hstep, Htrades.
    destruct ((sold >? of_int 0)%num || (bought >? of_int 0)%num) eqn:Htest.
    + repeat split.
      * rewrite length_app. cbn. lia.
      * rewrite map_app. cbn. apply sorted_snoc; [exact Hsorted | ].
        apply Forall_map. revert Hall. apply Forall_impl. tauto.
      * apply Forall_app. split; [exact Hearlier | ].
        constructor; [ | constructor]. cbn.
        split; [lia | ]. split.
        -- destruct (sold >? of_int 0)%num eqn:Hsold; [exact Hsold | exact Htest].
        -- destruct (sold >? of_int 0)%num; auto.
    + repeat split; [lia | exact Hsorted | exact Hearlier].
Qed.

(** What every call keeps, the calls of an episode keep. *)
Lemma episode_keeps (P : Ledger F -> Prop) :
  (forall action self, P self -> P (snd (step lib cfg action self))) ->
  forall actions self, P self -> P (snd (episode lib cfg actions self)).
Proof.
  intros Hstep. induction actions as [ | action rest IH]; intros self HP.
  - exact HP.
  - cbn. unfold bind.
    specialize (Hstep action self HP).
    destruct (step lib cfg action self) as [[returned | e] s1]; [ | exact Hstep].
    specialize (IH s1 Hstep).
    destruct (episode lib cfg rest s1) as [[later | e] s2]; exact IH.
Qed.

Lemma play_keeps (P : Ledger F -> Prop) :
  (forall self, P (snd (reset lib cfg self))) ->
  (forall action self, P self -> P (snd (step lib cfg action self))) ->
  forall actions self, P (snd (play lib cfg actions self)).
Proof.
  intros Hreset Hstep actions self. unfold play, bind.
  specialize (Hreset self).
  destruct (reset lib cfg self) as [[obs | e] s0]; [ | exact Hreset].
  apply episode_keeps; assumption.
Qed.

Lemma calls_keep (P : Ledger F -> Prop) :
  (forall self, P (snd (reset lib cfg self))) ->
  (forall action self, P self -> P (snd (step lib cfg action self))) ->
  forall cs self, P self -> P (calls lib cfg cs self).
Proof.
  intros Hreset Hstep. unfold calls.
  induction cs as [ | c cs IH]; intros self HP; [exact HP | ].
  cbn. apply IH.
  destruct c as [ | action]; [apply Hreset | apply Hstep; exact HP].
Qed.

(** X1. Once [reset] has been called, whatever calls of [reset] and [step]
    follow, with whatever codes, and whether they return or raise: the net
    worths, and every one of the five rows of the account history, hold
    one entry for the last [reset] and one for each step counted since. *)
Theorem histories_follow_the_step_counter (cs : list Call) (self : Ledger F) :
  tracked (calls lib cfg (ResetCall :: cs) self).
Proof.
  apply calls_keep with (P := tracked) (cs := cs).
  - apply reset_tracks.
  - apply step_keeps_tracked.
  - apply reset_tracks.
Qed.

(** X2. Once [reset] has been called, whatever calls follow: the trade log
    is in the order of the steps with at most one trade a step, and every
    trade in it was made at a step before the counter, is of an amount
    above 0, and is a buy or a sale. *)
Theorem trade_log_is_ordered (cs : list Call) (self : Ledger F) :
  logged (calls lib cfg (ResetCall :: cs) self).
Proof.
  enough (Hboth : tracked (calls lib cfg (ResetCall :: cs) self) /\
                  logged (calls lib cfg (ResetCall :: cs) self))
    by exact (proj2 Hboth).
  apply calls_keep with (P := fun s => tracked s /\ logged s) (cs := cs).
  - intros s. split; [apply reset_tracks | apply reset_logs].
  - intros action s [Htrack Hlog]. split.
    + apply step_keeps_tracked. exact Htrack.
    + apply step_keeps_logged; [apply Htrack | exact Hlog].
  - split; [apply reset_tracks | apply reset_logs].
Qed.
End Invariants.

(** ** Where [step] raises *)

Lemma index_of_bound (name : string) (cols : list string) (j : nat) :
  index_of name cols = Some j -> j < length cols.
Proof.
  revert j. induction cols as [ | c cols IH]; intros j; cbn; [discriminate | ].
  destruct (String.eqb c name).
  - intros Hj. injection Hj as <-. lia.
  - destruct (index_of name cols) as [j' | ]; [ | discriminate].
    cbn. intros Hj. injection Hj as <-. specialize (IH j' eq_refl). lia.
Qed.

(** A column of a rectangular frame, cell by cell. *)
Lemma column_cells {F} (d : DataFrame F) (name : string) (j : nat) :
  rectangular d -> index_of name (columns d) = Some j ->
  exists xs,
    column d name = Ok xs /\ length xs = len d /\
    forall i, nth_error xs i =
              match nth_error (values d) i with
              | Some row => nth_error row j
              | None => None
              end.
Proof.
  intros Hrect Hj. unfold column, len. rewrite Hj. cbn.
  apply index_of_bound in Hj. unfold rectangular in Hrect.
  induction (values d) as [ | row rows IH].
  - exists []. repeat split. intros [ | i]; reflexivity.
  - apply Forall_cons_iff in Hrect. destruct Hrect as [Hrow Hrows].
    destruct (IH Hrows) as (xs & Hxs & Hlen & Hnth).
    cbn. unfold cell at 1.
    destruct (nth_error row j) as [x | ] eqn:Hx.
    + cbn. rewrite Hxs. cbn. exists (x :: xs).
      repeat split; [cbn; lia | ].
      intros [ | i]; cbn; [symmetry; exact Hx | apply Hnth].
    + apply nth_error_None in Hx. lia.
Qed.

Section Bounds.
Context {F : Type} {num : PyNumber F}.
Variable lib : Collaborators F.
Variable cfg : Config F.

Lemma take_action_without_price (action : Z) (self : Ledger F) (e : exn) :
  _current_price cfg self = (Raise e, self) ->
  _take_action cfg action self = (Raise e, self).
Proof.
  intros Hprice. unfold _take_action. unfold bind at 1. rewrite Hprice.
  reflexivity.
Qed.

Lemma step_without_price (action : Z) (self : Ledger F) (e : exn) :
  _current_price cfg self = (Raise e, self) ->
  step lib cfg action self = (Raise e, self).
Proof.
  intros Hprice. rewrite step_unfold.
  rewrite (take_action_without_price action Hprice). reflexivity.
Qed.

(** X3. The price is the cell of the price table in row
    [current_step + n_forecasts], column ['Close'], plus [0.01].  Without
    such a column [step] raises [KeyError], and with the row beyond the
    table [IndexError]; either way it leaves every attribute as it was. *)
Theorem step_needs_the_priced_row (action : Z) (self : Ledger F) :
  rectangular (df cfg) ->
  match index_of "Close" (columns (df cfg)) with
  | None =>
      _current_price cfg self = (Raise KeyError, self) /\
      step lib cfg action self = (Raise KeyError, self)
  | Some j =>
      match nth_error (values (df cfg))
                      (current_step self + n_forecasts cfg) with
      | None =>
          len (df cfg) <= current_step self + n_forecasts cfg /\
          _current_price cfg self = (Raise IndexError, self) /\
          step lib cfg action self = (Raise IndexError, self)
      | Some row =>
          current_step self + n_forecasts cfg < len (df cfg) /\
          exists close,
            nth_error row j = Some close /\
            _current_price cfg self = (Ok (close + cent)%num, self)
      end
  end.
Proof.
  intros Hrect.
  destruct (index_of "Close" (columns (df cfg))) as [j | ] eqn:Hj.
  - destruct (column_cells "Close" Hrect Hj) as (xs & Hxs & Hlen & Hnth).
    assert (Hprice : _current_price cfg self =
              (match nth_error xs (current_step self + n_forecasts cfg) with
               | Some x => Ok (x + cent)%num
               | None => Raise IndexError
               end, self)).
    { unfold _current_price, bind, get, lift, ret. rewrite Hxs.
      destruct (nth_error xs _); reflexivity. }
    rewrite Hnth in Hprice.
    destruct (nth_error (values (df cfg)) _) as [row | ] eqn:Hrow.
    + split; [apply nth_error_Some; unfold len; congruence | ].
      destruct (nth_error row j) as [x | ] eqn:Hx.
      * exists x. auto.
      * apply nth_error_None in Hx. apply index_of_bound in Hj.
        apply nth_error_In in Hrow. unfold rectangular in Hrect.
        rewrite Forall_forall in Hrect. specialize (Hrect row Hrow). lia.
    + split; [apply nth_error_None; exact Hrow | ].
      split; [exact Hprice | apply step_without_price; exact Hprice].
  - assert (Hprice : _current_price cfg self = (Raise KeyError, self)).
    { unfold _current_price, bind, get, lift, column. rewrite Hj. reflexivity. }
    split; [exact Hprice | apply step_without_price; exact Hprice].
Qed.

(** X4. When the action was taken and the observation cannot be built,
    [step] raises what the observation raised, and the attributes stay as
    the action and the advance of the counter left them: the trade is made,
    its net worth and account-history column are recorded, and the counter
    stands one further. *)
Theorem failed_observation_keeps_the_action
    (action : Z) (self s1 : Ledger F) (e : exn) :
  _take_action cfg action self = (Ok tt, s1) ->
  fst (_next_observation lib cfg (set_current_step (current_step s1 + 1) s1))
    = Raise e ->
  exists price,
    _current_price cfg self = (Ok price, self) /\
    step lib cfg action self =
      (Raise e, set_current_step (current_step self + 1) s1) /\
    net_worths s1 =
      net_worths self ++ [(balance s1 + btc_held s1 * price)%num].
Proof.
  intros Htake Hobs.
  pose proof Htake as Hworth. apply take_action_net_worth in Hworth.
  destruct Hworth as (price & Hprice & Hstep & Hnw).
  exists price. split; [exact Hprice | ]. split; [ | exact Hnw].
  rewrite step_unfold, Htake. cbv zeta. rewrite Hobs, Hstep. reflexivity.
Qed.

Lemma step_in_range (action : Z) (self self' : Ledger F) returned :
  step lib cfg action self = (Ok returned, self') ->
  current_step self' = current_step self + 1 /\
  current_step self + n_forecasts cfg < len (df cfg).
Proof.
  destruct returned as [[[obs reward] done] info]. intros Hstep.
  apply step_returns in Hstep. destruct Hstep as (s1 & Htake & -> & _).
  apply take_action_net_worth in Htake.
  destruct Htake as (price & Hprice & Hstep & _).
  split; [cbn; rewrite Hstep; reflexivity | ].
  revert Hprice. unfold _current_price, bind, get, lift, ret.
  destruct (column (df cfg) "Close") as [close | e] eqn:Hclose; [ | discriminate].
  apply column_length in Hclose. cbn.
  destruct (nth_error close _) as [x | ] eqn:Hx; [ | discriminate].
  intros _. rewrite <- Hclose. apply nth_error_Some. congruence.
Qed.

Lemma episode_in_range (actions : list Z) (self self' : Ledger F) results :
  episode lib cfg actions self = (Ok results, self') ->
  length results = length actions /\
  current_step self' = current_step self + length actions /\
  (actions <> [] ->
   current_step self + length actions + n_forecasts cfg <= len (df cfg)).
Proof.
  revert self results. induction actions as [ | action rest IH];
    intros self results; cbn.
  - unfold ret. intros Hrun. injection Hrun as <- <-.
    repeat split; [lia | contradiction].
  - unfold bind.
    destruct (step lib cfg action self) as [[returned | e] s1] eqn:Hstep;
      [ | discriminate].
    destruct (episode lib cfg rest s1) as [[later | e] s2] eqn:Hrest;
      [ | discriminate].
    unfold ret. intros Hrun. injection Hrun as <- <-.
    apply step_in_range in Hstep. destruct Hstep as [Hnext Hrange].
    destruct (IH _ _ Hrest) as (Hlen & Hcount & Hbound).
    repeat split; cbn; [lia | lia | ].
    intros _. destruct rest as [ | action' rest].
    + cbn. lia.
    + assert (Hrest' : action' :: rest <> []) by discriminate.
      specialize (Hbound Hrest'). cbn in Hbound |- *. lia.
Qed.

(** X5. An episode whose calls all return has one result a code and leaves
    the counter at the number of steps; and it is no longer than
    [len(df) - n_forecasts] steps. *)
Theorem episode_is_bounded_by_the_table
    (actions : list Z) (self self' : Ledger F) results :
  play lib cfg actions self = (Ok results, self') ->
  length results = length actions /\
  current_step self' = length actions /\
  (actions <> [] -> length actions + n_forecasts cfg <= len (df cfg)).
Proof.
  unfold play, bind. rewrite reset_unfold. cbv zeta.
  destruct (fst (_next_observation lib cfg _)) as [obs | e]; [ | discriminate].
  intros Hrun. apply episode_in_range in Hrun. exact Hrun.
Qed.
End Bounds.

(** ** The results of an episode *)

Lemma nth_error_last {A} (xs : list A) (x : A) (more : list A) :
  nth_error ((xs ++ [x]) ++ more) (length xs) = Some x.
Proof.
  rewrite <- app_assoc. rewrite nth_error_app2 by lia.
  rewrite Nat.sub_diag. reflexivity.
Qed.

Section Results.
Context {F : Type} {num : PyNumber F}.
Variable lib : Collaborators F.
Variable cfg : Config F.

Lemma step_result (action : Z) (self self' : Ledger F) obs reward done info :
  step lib cfg action self = (Ok (obs, reward, done, info), self') ->
  exists older previous worth,
    net_worths self = older ++ [previous] /\
    net_worths self' = net_worths self ++ [worth] /\
    current_step self' = current_step self + 1 /\
    (reward, done) = outcome cfg previous worth (current_step self + 1).
Proof.
  intros Hstep. apply step_returns in Hstep.
  destruct Hstep as (s1 & Htake & -> & _ & Hreward & Hdone & _).
  apply take_action_net_worth in Htake.
  destruct Htake as (price & _ & Hstep & Hnw).
  apply reward_value in Hreward.
  destruct Hreward as (older & previous & last & Hnw' & ->).
  apply done_value in Hdone. destruct Hdone as (older' & last' & Hnw'' & ->).
  cbn in Hnw', Hnw''. rewrite Hnw in Hnw', Hnw''.
  change (older ++ [previous; last]) with (older ++ [previous] ++ [last]) in Hnw'.
  rewrite app_assoc in Hnw'.
  apply app_inj_tail in Hnw'. destruct Hnw' as [Hold <-].
  apply app_inj_tail in Hnw''. destruct Hnw'' as [_ <-].
  exists older, previous, (balance s1 + btc_held s1 * price)%num.
  repeat split; [exact Hold | exact Hnw | cbn; rewrite Hstep; reflexivity | ].
  unfold outcome. cbn. rewrite Hstep. reflexivity.
Qed.

Lemma episode_results (actions : list Z) (self self' : Ledger F) results :
  length (net_worths self) = current_step self + 1 ->
  episode lib cfg actions self = (Ok results, self') ->
  (exists more, net_worths self' = net_worths self ++ more) /\
  forall i obs reward done info,
    nth_error results i = Some (obs, reward, done, info) ->
    exists previous worth,
      nth_error (net_worths self') (current_step self + i) = Some previous /\
      nth_error (net_worths self') (current_step self + i + 1) = Some worth /\
      (reward, done) = outcome cfg previous worth (current_step self + i + 1).
Proof.
  revert self results. induction actions as [ | action rest IH];
    intros self results Hlen; cbn.
  - unfold ret. intros Hrun. injection Hrun as <- <-.
    split; [exists []; rewrite app_nil_r; reflexivity | ].
    intros [ | i]; discriminate.
  - unfold bind.
    destruct (step lib cfg action self) as [[returned | e] s1] eqn:Hstep;
      [ | discriminate].
    destruct (episode lib cfg rest s1) as [[later | e] s2] eqn:Hrest;
      [ | discriminate].
    unfold ret. intros Hrun. injection Hrun as <- <-.
    destruct returned as [[[obs0 reward0] done0] info0].
    apply step_result in Hstep.
    destruct Hstep as (older & previous & worth & Hold & Hnw & Hnext & Hout).
    assert (Hlen1 : length (net_worths s1) = current_step s1 + 1).
    { rewrite Hnw, length_app, Hlen, Hnext. reflexivity. }
    destruct (IH _ _ Hlen1 Hrest) as ((more & Hmore) & Hresults).
    split.
    + exists ([worth] ++ more). rewrite Hmore, Hnw, <- app_assoc. reflexivity.
    + assert (Holder : length older = current_step self).
      { rewrite Hold, length_app in Hlen. cbn in Hlen. lia. }
      intros [ | i] obs reward done info; cbn.
      * intros Hfirst. injection Hfirst as <- <- <- <-.
        exists previous, worth. rewrite Nat.add_0_r.
        repeat split; [ | | exact Hout].
        -- rewrite Hmore, Hnw, Hold, <- Holder, <- !app_assoc.
           rewrite nth_error_app2 by lia. rewrite Nat.sub_diag. reflexivity.
        -- rewrite Hmore, Hnw, <- Hlen. apply nth_error_last.
      * intros Hith. apply Hresults in Hith.
        destruct Hith as (p & w & Hp & Hw & Hpw).
        exists p, w. rewrite Hnext in Hp, Hw, Hpw.
        replace (current_step self + S i) with (current_step self + 1 + i) by lia.
        auto.
Qed.

(** X6. In an episode whose calls all return, the net worths are the
    initial balance and one value a step; the reward of step [i + 1] is the
    net worth it recorded minus the one before ([0] when that is [+inf] or
    [-inf]), and its [done] says that this net worth is below
    [initial_balance / 10] or that [i + 1] is [len(df) - n_forecasts - 1]. *)
Theorem episode_rewards_and_ends
    (actions : list Z) (self self' : Ledger F) results :
  play lib cfg actions self = (Ok results, self') ->
  nth_error (net_worths self') 0 = Some (initial_balance cfg) /\
  length (net_worths self') = length actions + 1 /\
  forall i obs reward done info,
    nth_error results i = Some (obs, reward, done, info) ->
    exists previous worth,
      nth_error (net_worths self') i = Some previous /\
      nth_error (net_worths self') (i + 1) = Some worth /\
      reward = (if negb (num_abs (worth - previous) =? inf)%num
                then (worth - previous)%num else of_int 0) /\
      done = ((worth <? initial_balance cfg / of_int 10)%num
              || (Z.of_nat (i + 1)
                  =? Z.of_nat (len (df cfg)) - Z.of_nat (n_forecasts cfg) - 1)%Z).
Proof.
  intros Hplay.
  assert (Htrack : tracked self').
  { pose proof (play_keeps lib cfg tracked (reset_tracks lib cfg)
                  (step_keeps_tracked lib cfg) actions self) as Htrack.
    rewrite Hplay in Htrack. exact Htrack. }
  destruct Htrack as (Htrack & _).
  revert Hplay. unfold play, bind. rewrite reset_unfold. cbv zeta.
  destruct (fst (_next_observation lib cfg _)) as [obs | e]; [ | discriminate].
  intros Hrun.
  pose proof Hrun as Hcount. apply episode_in_range in Hcount.
  destruct Hcount as (_ & Hcount & _). cbn in Hcount.
  apply episode_results in Hrun; [ | reflexivity].
  destruct Hrun as ((more & Hmore) & Hresults). cbn in Hmore, Hresults.
  split; [rewrite Hmore; reflexivity | ].
  split; [rewrite Htrack, Hcount; reflexivity | ].
  intros i obs' reward done info Hith.
  apply Hresults in Hith. destruct Hith as (p & w & Hp & Hw & Hpw).
  exists p, w. unfold outcome in Hpw. injection Hpw as -> ->. auto.
Qed.
End Results.

(** ** The rows an observation reads *)

Lemma traverse_firstn {A B} (f : A -> result B) (k : nat) (xs : list A) ys :
  traverse f xs = Ok ys -> traverse f (firstn k xs) = Ok (firstn k ys).
Proof.
  revert k ys. induction xs as [ | x xs IH]; intros k ys; cbn.
  - intros Hys. injection Hys as <-. destruct k; reflexivity.
  - destruct (f x) as [y | e] eqn:Hy; [ | discriminate]. cbn.
    destruct (traverse f xs) as [ys' | e]; [ | discriminate]. cbn.
    intros Hys. injection Hys as <-.
    destruct k as [ | k]; [reflexivity | ].
    cbn. rewrite Hy. cbn. rewrite (IH k ys' eq_refl). reflexivity.
Qed.

Lemma slice_bound_within (k n : nat) :
  slice_bound (Z.of_nat k) n = Nat.min n k.
Proof.
  unfold slice_bound.
  destruct (Z.of_nat k <? 0)%Z eqn:Hneg; [apply Z.ltb_lt in Hneg; lia | ].
  lia.
Qed.

Lemma firstn_min {A} (n k : nat) (xs : list A) :
  n <= k -> firstn n (firstn (Nat.min (length xs) k) xs) = firstn n xs.
Proof.
  intros Hnk. rewrite firstn_firstn.
  destruct (Nat.le_ge_cases (length xs) k) as [Hshort | Hlong].
  - rewrite (Nat.min_l _ _ Hshort).
    destruct (Nat.le_ge_cases n (length xs)) as [Hn | Hn].
    + rewrite Nat.min_l by exact Hn. reflexivity.
    + rewrite Nat.min_r by exact Hn.
      rewrite !firstn_all2 by lia. reflexivity.
  - rewrite (Nat.min_r _ _ Hlong). rewrite Nat.min_l by exact Hnk. reflexivity.
Qed.

Section Window.
Context {F : Type} {num : PyNumber F}.
Variable lib : Collaborators F.
Variable cfg : Config F.

Lemma select_rows_to (d : DataFrame F) (names : list string) (k : nat) :
  rectangular d ->
  select (rows_to (Z.of_nat k) d) names =
  rbind (select d names) (fun f => Ok (rows_to (Z.of_nat k) f)).
Proof.
  intros Hrect. unfold select. cbn [columns values rows_to].
  destruct (traverse (fun n => of_option KeyError (index_of n (columns d))) names)
    as [js | e] eqn:Hjs; [ | reflexivity].
  cbn.
  assert (Hbound : Forall (fun j => j < length (columns d)) js).
  { clear - Hjs. revert js Hjs. induction names as [ | n names IH]; intros js; cbn.
    - intros Hjs. injection Hjs as <-. constructor.
    - destruct (index_of n (columns d)) as [j | ] eqn:Hj; [ | discriminate].
      cbn. destruct (traverse _ names) as [js' | e]; [ | discriminate].
      cbn. intros Hjs. injection Hjs as <-.
      constructor; [eapply index_of_bound; exact Hj | apply IH; reflexivity]. }
  destruct (traverse_returns
              (fun row => traverse (cell row) js)
              (fun _ : list F => True) (values d))
    as (rows & Hrows & _ & Hlen).
  { intros row Hrow.
    destruct (traverse_returns (cell row) (fun _ => True) js)
      as (row' & Hrow' & _).
    - intros j Hj. apply cell_returns.
      unfold rectangular in Hrect. rewrite Forall_forall in Hrect, Hbound.
      rewrite (Hrect row Hrow). auto.
    - exists row'. auto. }
  rewrite Hrows. rewrite (traverse_firstn _ _ _ Hrows). cbn.
  unfold rows_to, len. cbn. rewrite Hlen. reflexivity.
Qed.

Lemma column_rows_to (d : DataFrame F) (name : string) (k : nat) :
  rectangular d ->
  column (rows_to (Z.of_nat k) d) name =
  rbind (column d name)
        (fun xs => Ok (firstn (slice_bound (Z.of_nat k) (len d)) xs)).
Proof.
  intros Hrect. unfold column. cbn [columns values rows_to].
  destruct (index_of name (columns d)) as [j | ] eqn:Hj; [ | reflexivity].
  cbn.
  destruct (column_cells name Hrect Hj) as (xs & Hxs & _).
  unfold column in Hxs. rewrite Hj in Hxs. cbn in Hxs.
  rewrite Hxs. rewrite (traverse_firstn _ _ _ Hxs). reflexivity.
Qed.

(** X10. The observation reads the stationarized table up to row
    [current_step + n_forecasts] and no further: on the table cut after
    that row, or after any later one, it is built from the same values and
    is the same, exception for exception. *)
Theorem observation_reads_no_later_row (self : Ledger F) (k : nat) :
  rectangular (stationary_df cfg) ->
  current_step self + n_forecasts cfg + 1 <= k ->
  _next_observation lib
     (set_stationary_df (rows_to (Z.of_nat k) (stationary_df cfg)) cfg) self
  = _next_observation lib cfg self.
Proof.
  intros Hrect Hk. unfold _next_observation, bind, get, lift.
  cbn [stationary_df set_stationary_df n_forecasts confidence_interval
       obs_shape columns rows_to].
  rewrite select_rows_to by exact Hrect.
  rewrite column_rows_to by exact Hrect.
  destruct (select (stationary_df cfg) _) as [features | e] eqn:Hselect;
    [ | reflexivity].
  cbn [rbind rows_to values columns].
  rewrite slice_bound_within. unfold len. rewrite firstn_min by exact Hk.
  destruct (fit_transform lib _) as [scaled | e]; [ | reflexivity].
  destruct (data_frame scaled _) as [frame | e]; [ | reflexivity].
  destruct (item_from_end 1 _) as [obs | e]; [ | reflexivity].
  destruct (column (stationary_df cfg) "Close") as [close | e] eqn:Hclose;
    [ | reflexivity].
  cbn [rbind]. rewrite slice_bound_within.
  apply column_length in Hclose. unfold len in Hclose |- *.
  rewrite <- Hclose, firstn_min by exact Hk.
  reflexivity.
Qed.
End Window.

(** ** What is booked *)

Section Booking.
Context {F : Type} {num : PyNumber F}.
Variable cfg : Config F.

(** X11. What [_take_action] books when it returns.  The column it
    appends to the account history is the balance it leaves, the amount
    bought, its cost, the amount sold and its proceeds; a buy (a code of
    type [int(action / 4)] 0) leaves sold and proceeds at 0 and takes the
    cost, amount times the price with the commission added, from the
    balance; a sale (type 1) leaves bought and cost at 0 and adds the
    proceeds, amount times the price with the commission taken off; a code
    of any other type books four zeros.  A trade enters the log exactly
    when the amount sold or bought is above 0, with the step, that amount
    and its total. *)
Theorem action_is_booked (action : Z) (self s1 : Ledger F) :
  length (account_history self) = 5 ->
  _take_action cfg action self = (Ok tt, s1) ->
  exists price action_type bought cost sold sales r0 r1 r2 r3 r4,
    _current_price cfg self = (Ok price, self) /\
    int_quarter action = Ok action_type /\
    account_history self = [r0; r1; r2; r3; r4] /\
    account_history s1 =
      [r0 ++ [balance s1]; r1 ++ [bought]; r2 ++ [cost];
       r3 ++ [sold]; r4 ++ [sales]] /\
    trades s1 =
      trades self ++
      (if (sold >? of_int 0)%num then
         [{| trade_step := current_step self; trade_amount := sold;
             trade_total := sales; trade_type := "sell" |}]
       else if (bought >? of_int 0)%num then
         [{| trade_step := current_step self; trade_amount := bought;
             trade_total := cost; trade_type := "buy" |}]
       else []) /\
    (action_type = 0%Z ->
     sold = of_int 0 /\ sales = of_int 0 /\
     cost = (bought * (price * (of_int 1 + commission cfg)))%num /\
     balance s1 = (balance self - cost)%num /\
     btc_held s1 = (btc_held self + bought)%num) /\
    (action_type = 1%Z ->
     bought = of_int 0 /\ cost = of_int 0 /\
     sales = (sold * (price * (of_int 1 - commission cfg)))%num /\
     balance s1 = (balance self + sales)%num /\
     btc_held s1 = (btc_held self - sold)%num) /\
    (action_type <> 0%Z -> action_type <> 1%Z ->
     bought = of_int 0 /\ cost = of_int 0 /\
     sold = of_int 0 /\ sales = of_int 0 /\
     balance s1 = balance self /\ btc_held s1 = btc_held self).
Proof.
  intros Hrows Hrun.
  destruct (take_action_cases cfg action self Hrows)
    as [(e & Hraise & _) | (price & bought & cost & sold & sales & s1' & Hprice &
                            Hrun' & _ & _ & Hcolumn & Htrades &
                            action_type & Htype & Hmoved)].
  { rewrite Hraise in Hrun. discriminate. }
  rewrite Hrun' in Hrun. injection Hrun as ->.
  destruct (five_rows _ Hrows) as (r0 & r1 & r2 & r3 & r4 & Hm).
  exists price, action_type, bought, cost, sold, sales, r0, r1, r2, r3, r4.
  split; [exact Hprice | ]. split; [exact Htype | ]. split; [exact Hm | ].
  split; [rewrite Hcolumn, Hm; reflexivity | ].
  split.
  { rewrite Htrades. unfold entry.
    destruct (sold >? of_int 0)%num; cbn; [reflexivity | ].
    destruct (bought >? of_int 0)%num; [reflexivity | ].
    rewrite app_nil_r. reflexivity. }
  cbv zeta in Hmoved.
  split; [ | split].
  - intros Hbuy. rewrite Hbuy in Hmoved. cbn in Hmoved.
    destruct Hmoved as (_ & Hcost & Hsold & Hsales & Hheld & Hbal). auto.
  - intros Hsell. rewrite Hsell in Hmoved. cbn in Hmoved.
    destruct Hmoved as (_ & Hsales & Hbought & Hcost & Hheld & Hbal). auto 6.
  - intros Hbuy Hsell.
    apply Z.eqb_neq in Hbuy, Hsell. rewrite Hbuy, Hsell in Hmoved.
    destruct Hmoved as (? & ? & ? & ? & ? & ?). auto 6.
Qed.
End Booking.

(** ** The columns the declared shape counts on *)

Lemma filter_split_length {A} (f : A -> bool) (l : list A) :
  length (filter f l) + length (filter (fun x => negb (f x)) l) = length l.
Proof.
  induction l as [ | x l IH]; [reflexivity | ].
  cbn. destruct (f x); cbn; lia.
Qed.

(** Two different labels, each one of [a] and [b]: both are there. *)
Lemma two_of_two (a b : string) (l : list string) :
  NoDup l -> (forall x, In x l -> x = a \/ x = b) -> 2 <= length l ->
  In a l /\ In b l.
Proof.
  intros Hnodup Hall Hlen.
  destruct l as [ | x [ | y l]]; cbn in Hlen; try lia.
  assert (Hxy : x <> y).
  { inversion Hnodup as [ | ? ? Hnotin _]; subst.
    intros ->. apply Hnotin. left. reflexivity. }
  destruct (Hall x (or_introl eq_refl)) as [-> | ->];
    destruct (Hall y (or_intror (or_introl eq_refl))) as [-> | ->];
    try contradiction; cbn; auto.
Qed.

Lemma difference_length (a b : string) (cols : list string) :
  NoDup cols ->
  length (difference cols [a; b]) + 2 <= length cols ->
  In a cols /\ In b cols.
Proof.
  intros Hnodup Hlen. unfold difference in Hlen.
  rewrite <- (Permutation_length (StringSort.Permuted_sort _)) in Hlen.
  rewrite nodup_fixed_point in Hlen by (apply NoDup_filter; exact Hnodup).
  pose proof (filter_split_length (fun c => negb (mentioned [a; b] c)) cols)
    as Hsplit.
  set (dropped := filter (fun c => negb (negb (mentioned [a; b] c))) cols) in *.
  assert (Hin : forall x, In x dropped -> In x cols /\ (x = a \/ x = b)).
  { intros x Hx. apply filter_In in Hx. destruct Hx as [Hx Htest].
    split; [exact Hx | ].
    rewrite negb_involutive in Htest. unfold mentioned in Htest. cbn in Htest.
    rewrite orb_false_r in Htest. apply orb_true_iff in Htest.
    destruct Htest as [Ha | Hb]; [left | right]; apply String.eqb_eq; assumption. }
  destruct (@two_of_two a b dropped) as [Ha Hb].
  - apply NoDup_filter. exact Hnodup.
  - intros x Hx. apply Hin. exact Hx.
  - lia.
  - split; apply Hin; assumption.
Qed.

Section Columns.
Context {F : Type} {num : PyNumber F}.
Variable lib : Collaborators F.
Variable cfg : Config F.
Hypothesis Hlib : shapes_kept lib.

(** The entries of an observation, counted. *)
Lemma next_observation_count (self : Ledger F) (obs : list F) :
  length (account_history self) = 5 ->
  fst (_next_observation lib cfg self) = Ok obs ->
  length obs =
    length (difference (columns (stationary_df cfg)) ["index"; "Date"]%string)
    + 3 * n_forecasts cfg + 5.
Proof.
  intros Hrows. destruct Hlib as [Hscaler Hforecast].
  unfold _next_observation, bind, get, lift. cbn.
  destruct (select _ _) as [features | e] eqn:Hselect; [ | discriminate].
  destruct (fit_transform lib _) as [scaled | e] eqn:Hscaled; [ | discriminate].
  destruct (data_frame _ _) as [frame | e] eqn:Hframe; [ | discriminate].
  destruct (item_from_end 1 _) as [row | e] eqn:Hrow; [ | discriminate].
  destruct (column _ _) as [close | e]; [ | discriminate].
  destruct (sarimax_forecast lib _ _ _) as [forecast | e] eqn:Hfc; [ | discriminate].
  destruct (fit_transform lib (account_history self)) as [history | e] eqn:Hhist;
    [ | discriminate].
  destruct (traverse _ history) as [last_column | e] eqn:Hlast; [ | discriminate].
  intros Hobs. apply np_reshape_returns in Hobs. destruct Hobs as [-> _].
  apply select_columns in Hselect.
  apply data_frame_rows in Hframe. destruct Hframe as [Hvalues Hall].
  apply item_from_end_1_inv in Hrow. destruct Hrow as (older & Holder).
  apply Hforecast in Hfc. destruct Hfc as (Hmean & Hci & Hpairs).
  rewrite Hvalues in Holder. rewrite Holder in Hall.
  apply Forall_app in Hall. destruct Hall as [_ Hall].
  inversion Hall as [ | ? ? Hlenrow _]; subst.
  apply concat_pairs_length in Hpairs.
  apply traverse_length in Hlast. apply Hscaler in Hhist.
  rewrite length_map, !length_app, Hlenrow, Hselect, Hmean, Hpairs, Hci, Hlast,
    Hhist, Hrows.
  lia.
Qed.

(** X12. The declared shape counts on the stationarized table having both
    an ['index'] and a ['Date'] column: with a scaler and a forecaster that
    keep their shapes and a table of as many columns as the price table,
    an observation is built only when both are among them.  (Without one
    of them the vector is longer than declared, and the reshape raises.) *)
Theorem observation_needs_index_and_date (self : Ledger F) (obs : list F) :
  constructed lib cfg ->
  NoDup (columns (stationary_df cfg)) ->
  length (columns (stationary_df cfg)) = length (columns (df cfg)) ->
  length (account_history self) = 5 ->
  fst (_next_observation lib cfg self) = Ok obs ->
  In "index"%string (columns (stationary_df cfg)) /\
  In "Date"%string (columns (stationary_df cfg)).
Proof.
  intros Hinit Hnodup Hsame Hrows Hobs.
  pose proof (next_observation_count _ Hrows Hobs) as Hcount.
  pose proof (next_observation_length _ _ _ Hobs) as Hshape.
  assert (Hdeclared : obs_shape cfg =
            5 + length (columns (df cfg)) - 2 + n_forecasts cfg * 3).
  { destruct Hinit as (df0 & funds & fee & strategy & horizon & level & ->).
    reflexivity. }
  apply difference_length; [exact Hnodup | ]. lia.
Qed.
End Columns.

(** ** Rendering *)

Lemma windows_app {F} (a b : list (Event F)) :
  windows (a ++ b) = (windows a + windows b)%Z.
Proof.
  induction a as [ | [line | table | n nw tr | ] a IH]; cbn; lia.
Qed.

Lemma last_by_position {A} (xs : list A) (n : nat) :
  length xs = n + 1 -> item n xs = item_from_end 1 xs.
Proof.
  intros Hlen. destruct (exists_last (l := xs)) as (older & x & ->).
  { intros ->. cbn in Hlen. lia. }
  rewrite item_from_end_1. unfold item.
  rewrite length_app in Hlen. cbn in Hlen.
  rewrite nth_error_app2 by lia.
  replace (n - length older) with 0 by lia. reflexivity.
Qed.

Section Screen.
Context {F : Type} {num : PyNumber F}.
Variable str : F -> string.
Variable cfg : Config F.

(** X13. Neither [render], in any mode and whether it returns or raises, nor
    [close] assigns an attribute of the ledger; and in a mode other than
    ['system'] and ['human'] [render] does nothing at all. *)
Theorem rendering_leaves_the_ledger (mode : string) (self : Display F) :
  ledger (snd (render str cfg mode self)) = ledger self /\
  ledger (snd (close self)) = ledger self /\
  (String.eqb mode "system" = false -> String.eqb mode "human" = false ->
   render str cfg mode self = (Ok tt, self)).
Proof.
  split; [ | split].
  - unfold render.
    destruct (String.eqb mode "system").
    + unfold bind, on_ledger, print, modify, get, lift.
      rewrite (current_price_run cfg (ledger self)).
      destruct (fst (_current_price cfg (ledger self))); [ | reflexivity].
      cbn.
      destruct (item 2 _) as [row | ]; [ | reflexivity].
      destruct (item _ row); [ | reflexivity]. cbn.
      destruct (item 4 _) as [row' | ]; [ | reflexivity].
      destruct (item _ row'); [ | reflexivity]. cbn.
      destruct (item_from_end 1 _); reflexivity.
    + destruct (String.eqb mode "human"); [ | reflexivity].
      unfold bind, modify, get, ret. destruct (viewer self); reflexivity.
  - unfold close, bind, modify, get, ret. destruct (viewer self); reflexivity.
  - intros Hsystem Hhuman. unfold render. rewrite Hsystem, Hhuman.
    reflexivity.
Qed.

(** X14. On a ledger whose histories follow the step counter and whose
    price is in range, [render('system')] returns after printing four
    lines: the current price, after ['Bought: '] the last entry of the cost
    row of the account history, after ['Sold: '] the last entry of the
    sales row, and the last net worth. *)
Theorem system_mode_prints_the_last_column
    (self : Display F) (price : F) :
  tracked (ledger self) ->
  _current_price cfg (ledger self) = (Ok price, ledger self) ->
  exists r0 r1 r2 r3 r4 cost sales worth,
    account_history (ledger self) = [r0; r1; r2; r3; r4] /\
    item_from_end 1 r2 = Ok cost /\
    item_from_end 1 r4 = Ok sales /\
    item_from_end 1 (net_worths (ledger self)) = Ok worth /\
    render str cfg "system" self =
      (Ok tt,
       {| ledger := ledger self; viewer := viewer self;
          shown := shown self ++
                   [Printed ("Price: " ++ str price);
                    Printed ("Bought: " ++ str cost);
                    Printed ("Sold: " ++ str sales);
                    Printed ("Net worth: " ++ str worth)] |}).
Proof.
  intros (Hnw & Hrows & Hwide) Hprice.
  destruct (five_rows _ Hrows) as (r0 & r1 & r2 & r3 & r4 & Hm).
  rewrite Hm in Hwide.
  repeat (apply Forall_cons_iff in Hwide;
          let Hrow := fresh "Hrow" in destruct Hwide as [Hrow Hwide]).
  destruct (item_from_end_returns (xs := r2)) as (cost & Hcost).
  { intros ->. cbn in Hrow1. lia. }
  destruct (item_from_end_returns (xs := r4)) as (sales & Hsales).
  { intros ->. cbn in Hrow3. lia. }
  destruct (item_from_end_returns (xs := net_worths (ledger self)))
    as (worth & Hworth).
  { intros Hnil. rewrite Hnil in Hnw. cbn in Hnw. lia. }
  exists r0, r1, r2, r3, r4, cost, sales, worth.
  repeat (split; [assumption | ]).
  unfold render. cbn [String.eqb Ascii.eqb Bool.eqb].
  unfold bind, on_ledger, print, modify, get, lift. rewrite Hprice. cbn.
  rewrite Hm. cbn.
  rewrite (last_by_position _ _ Hrow1), Hcost.
  cbn.
  rewrite (last_by_position _ _ Hrow3), Hsales.
  cbn.
  rewrite Hworth. cbn. unfold emit. cbn. rewrite <- !app_assoc. reflexivity.
Qed.

(** X15. At most one graph window is open, and [viewer] tells whether one
    is: [render('human')] opens a window only when [viewer] is [None],
    [close] closes the one there is and sets [viewer] to [None], and a
    second [close] does nothing. *)
Theorem one_window_at_most (mode : string) (self : Display F) :
  one_window self ->
  one_window (snd (render str cfg mode self)) /\
  one_window (snd (close self)) /\
  viewer (snd (close self)) = None /\
  close (snd (close self)) = (Ok tt, snd (close self)) /\
  (viewer self <> None ->
   windows (shown (snd (render str cfg mode self))) = windows (shown self)).
Proof.
  unfold one_window. intros Hone. split; [ | split; [ | split; [ | split]]].
  - unfold render.
    destruct (String.eqb mode "system").
    + unfold bind, on_ledger, print, modify, get, lift.
      destruct (_current_price cfg (ledger self)) as [[price | e] l];
        [ | exact Hone].
      cbn.
      destruct (item 2 _) as [row | ]; cbn;
        [ | rewrite windows_app; cbn; lia].
      destruct (item _ row); cbn; [ | rewrite windows_app; cbn; lia].
      destruct (item 4 _) as [row' | ]; cbn;
        [ | rewrite !windows_app; cbn; lia].
      destruct (item _ row'); cbn; [ | rewrite !windows_app; cbn; lia].
      destruct (item_from_end 1 _); cbn; rewrite !windows_app; cbn; lia.
    + destruct (String.eqb mode "human"); [ | exact Hone].
      unfold bind, modify, get, ret.
      destruct (viewer self) eqn:Hviewer; cbn; rewrite ?Hviewer;
        rewrite !windows_app; cbn; lia.
  - unfold close, bind, modify, get, ret.
    destruct (viewer self) eqn:Hviewer; cbn; rewrite ?Hviewer;
      rewrite ?windows_app; cbn; lia.
  - unfold close, bind, modify, get, ret.
    destruct (viewer self) eqn:Hviewer; cbn; auto.
  - unfold close, bind, modify, get, ret.
    destruct (viewer self) eqn:Hviewer; cbn; rewrite ?Hviewer; reflexivity.
  - intros Hopen. unfold render.
    destruct (String.eqb mode "system").
    + unfold bind, on_ledger, print, modify, get, lift.
      destruct (_current_price cfg (ledger self)) as [[price | e] l];
        [ | reflexivity].
      cbn.
      destruct (item 2 _) as [row | ]; cbn;
        [ | rewrite windows_app; cbn; lia].
      destruct (item _ row); cbn; [ | rewrite windows_app; cbn; lia].
      destruct (item 4 _) as [row' | ]; cbn;
        [ | rewrite !windows_app; cbn; lia].
      destruct (item _ row'); cbn; [ | rewrite !windows_app; cbn; lia].
      destruct (item_from_end 1 _); cbn; rewrite !windows_app; cbn; lia.
    + destruct (String.eqb mode "human"); [ | reflexivity].
      unfold bind, modify, get, ret.
      destruct (viewer self) eqn:Hviewer; [ | contradiction].
      cbn. rewrite ?Hviewer. rewrite windows_app. cbn. lia.
Qed.
End Screen.

(** ** Training *)

Lemma holds_from_spec (f : Z -> bool) (count : nat) :
  forall z, holds_from f z count = true ->
  forall x, (z <= x < z + Z.of_nat count)%Z -> f x = true.
Proof.
  induction count as [ | count IH]; intros z Hall x Hx; [lia | ].
  cbn [holds_from] in Hall. apply andb_true_iff in Hall.
  destruct Hall as [Hz Hrest].
  destruct (Z.eq_dec x z) as [-> | Hne]; [exact Hz | ].
  apply (IH (z + 1)%Z Hrest). lia.
Qed.

(** A fifth of the rows, rounded down: [int(n * 0.2)] in binary64, for
    every [n] below 65536. *)
Lemma fifth_of_the_rows :
  holds_from (fun n => match int_of_float (float_of_Z n * 0.2)%float with
                       | Some fifth => (fifth =? n / 5)%Z
                       | None => false
                       end)
             0 (2 ^ 16) = true.
Proof. vm_compute. reflexivity. Qed.

Lemma test_len_value {F} (d : DataFrame F) :
  len d < 2 ^ 16 -> test_len d = Some (Z.of_nat (len d / 5)).
Proof.
  intros Hlen. unfold test_len.
  pose proof (@holds_from_spec _ _ _ fifth_of_the_rows (Z.of_nat (len d)))
    as Hfifth.
  cbv beta in Hfifth.
  destruct (int_of_float _) as [fifth | ].
  - f_equal. rewrite Nat2Z.inj_div. apply Z.eqb_eq. apply Hfifth.
    apply Nat2Z.inj_lt in Hlen. rewrite Nat2Z.inj_pow in Hlen |- *. lia.
  - assert (Hfalse : false = true); [ | discriminate].
    apply Hfifth.
    apply Nat2Z.inj_lt in Hlen. rewrite Nat2Z.inj_pow in Hlen |- *. lia.
Qed.

(** X16. The split of the table into training and test rows, for a table of
    fewer than 65536 rows: the test table is the last fifth of the rows
    (rounded down), the training table the rows before them; together they
    are the table, row for row, and each has its columns. *)
Theorem split_keeps_every_row {F} (d : DataFrame F) :
  len d < 2 ^ 16 ->
  exists train test,
    train_df d = Some train /\ test_df d = Some test /\
    values train ++ values test = values d /\
    len test = len d / 5 /\
    len train = len d - len d / 5 /\
    columns train = columns d /\
    columns test = columns d.
Proof.
  intros Hlen.
  assert (Hfifth : len d / 5 <= len d)
    by (apply Nat.Div0.div_le_upper_bound; lia).
  unfold train_df, test_df, train_len. rewrite (test_len_value d Hlen).
  cbn [option_map]. do 2 eexists.
  split; [reflexivity | ]. split; [reflexivity | ].
  assert (Hbound : slice_bound (Z.of_nat (len d) - Z.of_nat (len d / 5)) (len d)
                   = len d - len d / 5).
  { unfold slice_bound.
    destruct (_ <? 0)%Z eqn:Hneg; [apply Z.ltb_lt in Hneg; lia | lia]. }
  unfold rows_to, rows_from, len in *.
  cbn [values columns]. rewrite Hbound.
  split; [apply firstn_skipn | ].
  split; [rewrite length_skipn; lia | ].
  split; [rewrite length_firstn; lia | ].
  split; reflexivity.
Qed.

Section Training.
Context {F : Type} {num : PyNumber F}.
Variables W Obs Act : Type.
Variable tester : Tester F W Obs Act.

Lemma on_outside_leaves {A} (c : M W A) (model : Model F W) :
  num_timesteps (snd (on_outside c model)) = num_timesteps model /\
  evaluations (snd (on_outside c model)) = evaluations model.
Proof.
  unfold on_outside. destruct (c (outside model)) as [r w]. auto.
Qed.

(** The loop, when it ends, has made steps of the test environment up to
    the one that completed the last of the [n_test_episodes] episodes, and
    has collected the reward sum of every episode. *)
Lemma test_episodes_collect (fuel : nat) :
  forall n_episodes reward_sum rewards obs w collected w',
    test_episodes tester fuel n_episodes reward_sum rewards obs w
      = (Ok (Some collected), w') ->
    (n_episodes <= n_test_episodes)%Z ->
    exists returned,
      steps_made tester obs w returned w' /\
      collected = rewards ++ episode_sums reward_sum returned /\
      Z.of_nat (length (filter snd returned))
        = (n_test_episodes - n_episodes)%Z /\
      (n_episodes = n_test_episodes -> returned = []) /\
      ((n_episodes < n_test_episodes)%Z ->
       exists earlier reward, returned = earlier ++ [(reward, true)]).
Proof.
  assert (Hended : forall n_episodes (rewards : list F) (w : W) (obs : Obs)
                          (reward_sum : F),
            (n_episodes <= n_test_episodes)%Z ->
            (n_episodes <? n_test_episodes)%Z = false ->
            exists returned,
              steps_made tester obs w returned w /\
              rewards = rewards ++ episode_sums reward_sum returned /\
              Z.of_nat (length (filter snd returned))
                = (n_test_episodes - n_episodes)%Z /\
              (n_episodes = n_test_episodes -> returned = []) /\
              ((n_episodes < n_test_episodes)%Z ->
               exists earlier reward, returned = earlier ++ [(reward, true)])).
  { intros n_episodes rewards w obs reward_sum Hle Hmore.
    apply Z.ltb_ge in Hmore. exists [].
    split; [constructor | ]. split; [rewrite app_nil_r; reflexivity | ].
    split; [cbn [filter length Z.of_nat]; unfold n_test_episodes in *; lia | ].
    split; [reflexivity | unfold n_test_episodes in *; lia]. }
  induction fuel as [ | fuel IH];
    intros n_episodes reward_sum rewards obs w collected w'; cbn [test_episodes].
  - destruct (n_episodes <? n_test_episodes)%Z eqn:Hmore; [discriminate | ].
    unfold ret. intros Hrun Hle. injection Hrun as <- <-.
    apply Hended; assumption.
  - destruct (n_episodes <? n_test_episodes)%Z eqn:Hmore.
    + apply Z.ltb_lt in Hmore. unfold bind.
      destruct (model_predict tester obs w) as [[action | e] w1] eqn:Hpredict;
        [ | discriminate].
      destruct (test_env_step tester action w1)
        as [[[[obs1 reward] done] | e] w2] eqn:Hstep; [ | discriminate].
      destruct done.
      * destruct (test_env_reset tester w2) as [[obs2 | e] w3] eqn:Hreset;
          [ | discriminate].
        intros Hrun Hle. apply IH in Hrun; [ | (unfold n_test_episodes in *; lia)].
        destruct Hrun as (later & Hlater & -> & Hcount & Hnone & Hlast).
        exists ((reward, true) :: later).
        split; [eapply steps_done; eassumption | ].
        split; [cbn; rewrite <- app_assoc; reflexivity | ].
        split; [cbn [filter snd length]; (unfold n_test_episodes in *; lia) | ].
        split; [(unfold n_test_episodes in *; lia) | ]. intros _.
        destruct (Z.eq_dec (n_episodes + 1) n_test_episodes) as [Hfull | Hless].
        -- rewrite (Hnone Hfull). exists [], reward. reflexivity.
        -- destruct Hlast as (earlier & last & ->); [(unfold n_test_episodes in *; lia) | ].
           exists ((reward, true) :: earlier), last. reflexivity.
      * intros Hrun Hle. apply IH in Hrun; [ | (unfold n_test_episodes in *; lia)].
        destruct Hrun as (later & Hlater & -> & Hcount & Hnone & Hlast).
        exists ((reward, false) :: later).
        split; [eapply steps_on; eassumption | ].
        split; [reflexivity | ].
        split; [cbn [filter snd length]; (unfold n_test_episodes in *; lia) | ].
        split; [(unfold n_test_episodes in *; lia) | ]. intros _.
        destruct (Hlast Hmore) as (earlier & last & ->).
        exists ((reward, false) :: earlier), last. reflexivity.
    + unfold ret. intros Hrun Hle. injection Hrun as <- <-.
      apply Hended; assumption.
Qed.

(** One reward sum a step that reports [done]. *)
Lemma episode_sums_length (returned : list (F * bool)) :
  forall reward_sum,
    length (episode_sums reward_sum returned) = length (filter snd returned).
Proof.
  induction returned as [ | [reward done] later IH]; intros reward_sum;
    [reflexivity | ].
  cbn. destruct done; cbn; rewrite IH; reflexivity.
Qed.

(** X17. What a call of [learn_callback] that returns has done.  Before
    [evaluation_interval], 250, time steps have passed since the last
    evaluation it returns [True] and changes nothing but to set the four
    attributes at the first call.  Otherwise it has reset the test
    environment and stepped it, under the policy of the model, up to the
    step that completed the fifth episode; [rewards] holds the sum of the
    rewards the environment returned in each of these [n_test_episodes]
    episodes; their mean is recorded, reported to the trial (negated, with
    the count of evaluations) and the trial asked whether to prune; and the
    call returned [False] exactly when the trial said so and [is_pruned]
    was set, which it never clears. *)
Theorem callback_evaluates_five_episodes
    (fuel : nat) (model model' : Model F W) (continue : bool) :
  learn_callback tester fuel model = (Ok (Some continue), model') ->
  let before := match evaluations model with
                | Some attributes => attributes
                | None => unevaluated
                end in
  num_timesteps model' = num_timesteps model /\
  ((num_timesteps model - last_time_evaluated before < 250)%Z ->
   continue = true /\ evaluations model' = Some before /\
   outside model' = outside model) /\
  ((250 <= num_timesteps model - last_time_evaluated before)%Z ->
   exists obs w returned w1 w2 rewards,
     test_env_reset tester (outside model) = (Ok obs, w) /\
     steps_made tester obs w returned w1 /\
     (exists earlier reward, returned = earlier ++ [(reward, true)]) /\
     length (filter snd returned) = 5 /\
     rewards = episode_sums (of_int 0) returned /\
     length rewards = 5 /\
     trial_report tester (of_int (-1) * np_mean tester rewards)%num
                  (eval_idx before + 1) w1 = (Ok tt, w2) /\
     trial_should_prune tester (eval_idx before + 1) w2
       = (Ok (negb continue), outside model') /\
     evaluations model' =
       Some {| is_pruned := is_pruned before || negb continue;
               last_mean_test_reward := np_mean tester rewards;
               last_time_evaluated := num_timesteps model;
               eval_idx := eval_idx before + 1 |}).
Proof.
  intros Hrun before. revert Hrun.
  unfold learn_callback. unfold bind at 1. unfold get at 1. fold before.
  unfold bind at 1. unfold modify at 1.
  change evaluation_interval with 250%Z.
  destruct (_ <? 250)%Z eqn:Hwait.
  - apply Z.ltb_lt in Hwait. unfold ret. intros Hrun.
    injection Hrun as <- <-.
    split; [reflexivity | ]. split; [auto | intros; lia].
  - apply Z.ltb_ge in Hwait.
    unfold bind at 1. unfold modify at 1.
    unfold bind at 1. unfold on_outside at 1.
    cbn [outside set_evaluations num_timesteps evaluations].
    destruct (test_env_reset tester (outside model)) as [[obs | e] w] eqn:Hreset;
      [ | discriminate].
    unfold bind at 1. unfold on_outside at 1.
    cbn [outside set_evaluations num_timesteps evaluations].
    destruct (test_episodes tester fuel 0 (of_int 0) [] obs w)
      as [[[rewards | ] | e] w1] eqn:Hloop; try discriminate.
    apply test_episodes_collect in Hloop; [ | unfold n_test_episodes; lia].
    destruct Hloop as (returned & Hsteps & Hrewards & Hcount & _ & Hlast).
    cbn [app] in Hrewards. unfold n_test_episodes in Hcount, Hlast.
    unfold bind at 1. unfold modify at 1.
    unfold bind at 1. unfold on_outside at 1.
    cbn [outside set_evaluations num_timesteps evaluations].
    destruct (trial_report tester _ _ w1) as [[[] | e] w2] eqn:Hreport;
      [ | discriminate].
    unfold bind at 1. unfold on_outside at 1.
    cbn [outside set_evaluations num_timesteps evaluations].
    destruct (trial_should_prune tester _ w2) as [[prune | e] w3] eqn:Hprune;
      [ | discriminate].
    assert (Hfive : length (filter snd returned) = 5) by lia.
    destruct prune.
    + unfold bind, modify, ret. intros Hrun. injection Hrun as <- <-.
      split; [reflexivity | ]. split; [intros; lia | intros _].
      exists obs, w, returned, w1, w2, rewards.
      split; [reflexivity | ]. split; [exact Hsteps | ].
      split; [apply Hlast; lia | ]. split; [exact Hfive | ].
      split; [exact Hrewards | ].
      split; [rewrite Hrewards, episode_sums_length; exact Hfive | ].
      split; [exact Hreport | ]. split; [exact Hprune | ].
      cbn. rewrite orb_true_r. reflexivity.
    + unfold ret. intros Hrun. injection Hrun as <- <-.
      split; [reflexivity | ]. split; [intros; lia | intros _].
      exists obs, w, returned, w1, w2, rewards.
      split; [reflexivity | ]. split; [exact Hsteps | ].
      split; [apply Hlast; lia | ]. split; [exact Hfive | ].
      split; [exact Hrewards | ].
      split; [rewrite Hrewards, episode_sums_length; exact Hfive | ].
      split; [exact Hreport | ]. split; [exact Hprune | ].
      cbn. rewrite orb_false_r. reflexivity.
Qed.

(** The attributes after a call, whatever came of it. *)
Lemma callback_attributes (fuel : nat) (model model' : Model F W) r :
  learn_callback tester fuel model = (r, model') ->
  let before := match evaluations model with
                | Some attributes => attributes
                | None => unevaluated
                end in
  exists after,
    evaluations model' = Some after /\
    ((is_pruned after = is_pruned before /\
      last_mean_test_reward after = last_mean_test_reward before /\
      eval_idx after = eval_idx before) \/
     ((is_pruned before = true -> is_pruned after = true) /\
      eval_idx after = (eval_idx before + 1)%Z)).
Proof.
  intros Hrun before. revert Hrun.
  unfold learn_callback. unfold bind at 1. unfold get at 1. fold before.
  unfold bind at 1. unfold modify at 1.
  destruct (_ <? evaluation_interval)%Z.
  { unfold ret. intros Hrun. injection Hrun as _ <-.
    exists before. split; [reflexivity | left; auto]. }
  unfold bind at 1. unfold modify at 1.
  unfold bind at 1.
  match goal with
  | |- context [on_outside (test_env_reset tester) ?m] =>
      pose proof (on_outside_leaves (test_env_reset tester) m) as Hreset;
      destruct (on_outside (test_env_reset tester) m) as [[obs | e] m1]
  end; cbn in Hreset; destruct Hreset as [_ Hattr1].
  2: { intros Hrun. injection Hrun as _ <-. eexists.
       split; [exact Hattr1 | left; auto]. }
  unfold bind at 1.
  match goal with
  | |- context [on_outside ?c m1] =>
      pose proof (on_outside_leaves c m1) as Hloop;
      destruct (on_outside c m1) as [[[rewards | ] | e] m2]
  end; cbn in Hloop; destruct Hloop as [_ Hattr2].
  2, 3: intros Hrun; injection Hrun as _ <-; eexists;
        (split; [rewrite Hattr2; exact Hattr1 | left; auto]).
  unfold bind at 1. unfold modify at 1.
  unfold bind at 1.
  match goal with
  | |- context [on_outside ?c ?m] =>
      pose proof (on_outside_leaves c m) as Hreport;
      destruct (on_outside c m) as [[[] | e] m3]
  end; cbn in Hreport; destruct Hreport as [_ Hattr3].
  2: { intros Hrun. injection Hrun as _ <-. eexists.
       split; [exact Hattr3 | right; auto]. }
  unfold bind at 1.
  match goal with
  | |- context [on_outside ?c m3] =>
      pose proof (on_outside_leaves c m3) as Hprune;
      destruct (on_outside c m3) as [[prune | e] m4]
  end; destruct Hprune as [_ Hattr4]; cbn in Hattr4.
  2: { intros Hrun. injection Hrun as _ <-. eexists.
       split; [rewrite Hattr4; exact Hattr3 | right; auto]. }
  destruct prune.
  - unfold bind, modify, ret. intros Hrun. injection Hrun as _ <-.
    eexists. split; [reflexivity | right; auto].
  - unfold ret. intros Hrun. injection Hrun as _ <-.
    eexists. split; [rewrite Hattr4; exact Hattr3 | right; auto].
Qed.

(** X18. Once [is_pruned] is set, no later call of the callback clears it,
    whether the call returns, raises or is cut short: the trial ends in
    [TrialPruned]. *)
Theorem pruning_is_final
    (fuel : nat) (model model' : Model F W) attributes r :
  evaluations model = Some attributes ->
  is_pruned attributes = true ->
  learn_callback tester fuel model = (r, model') ->
  trial_verdict model' = TrialPruned.
Proof.
  intros Hattr Hpruned Hrun. apply callback_attributes in Hrun.
  rewrite Hattr in Hrun. cbv zeta in Hrun.
  destruct Hrun as (after & Hafter & [(Hsame & _) | (Hkept & _)]);
    unfold trial_verdict; rewrite Hafter.
  - rewrite Hsame, Hpruned. reflexivity.
  - rewrite (Hkept Hpruned). reflexivity.
Qed.

(** A model reached by training whose evaluations number 0 is as the
    first call of the callback left it. *)
Lemma trained_attributes (model : Model F W) :
  trained tester model ->
  match evaluations model with
  | None => True
  | Some attributes =>
      (0 <= eval_idx attributes)%Z /\
      (eval_idx attributes = 0%Z ->
       is_pruned attributes = false /\
       last_mean_test_reward attributes = neg_inf)
  end.
Proof.
  induction 1 as [steps w | model steps w _ IH | model model' fuel r _ IH Hrun].
  - exact I.
  - exact IH.
  - apply callback_attributes in Hrun. cbv zeta in Hrun.
    destruct Hrun as (after & -> & Hafter).
    assert (Hbefore :
      let before := match evaluations model with
                    | Some attributes => attributes
                    | None => unevaluated
                    end in
      (0 <= eval_idx before)%Z /\
      (eval_idx before = 0%Z ->
       is_pruned before = false /\ last_mean_test_reward before = neg_inf)).
    { destruct (evaluations model); [exact IH | ].
      cbn. split; [lia | auto]. }
    cbv zeta in Hbefore. destruct Hbefore as [Hcount Hfresh].
    destruct Hafter as [(Hpruned & Hmean & Hidx) | (_ & Hidx)];
      rewrite Hidx.
    + split; [exact Hcount | ]. rewrite Hpruned, Hmean. exact Hfresh.
    + split; [lia | intros; lia].
Qed.

(** X19. The cost of a trial in which no evaluation was completed: [inf]
    when the callback was never called, and [-1 * -inf], which is [inf]
    again, when it was; such a trial is never pruned. *)
Theorem unevaluated_trial_costs_infinity (model : Model F W) :
  trained tester model ->
  match evaluations model with
  | None => trial_verdict model = Cost inf
  | Some attributes =>
      (0 <= eval_idx attributes)%Z /\
      (eval_idx attributes = 0%Z ->
       trial_verdict model = Cost (of_int (-1) * neg_inf)%num)
  end.
Proof.
  intros Htrained. apply trained_attributes in Htrained.
  unfold trial_verdict.
  destruct (evaluations model) as [attributes | ]; [ | reflexivity].
  destruct Htrained as [Hcount Hfresh].
  split; [exact Hcount | ].
  intros Hzero. destruct (Hfresh Hzero) as [-> ->]. reflexivity.
Qed.
End Training.

(** ** The examples, once more *)

Lemma example_rectangular : rectangular (df example_env).
Proof. repeat constructor. Qed.

(** With the counter at 4 the example has no row to price, for X3. *)
Lemma step_past_the_last_bar :
  len (df example_env) <= current_step ended + n_forecasts example_env /\
  _current_price example_env ended = (Raise IndexError, ended) /\
  step Standin.collaborators example_env 0 ended = (Raise IndexError, ended).
Proof.
  exact (@step_needs_the_priced_row float binary64 Standin.collaborators
           example_env 0 ended example_rectangular).
Defined.

(** A full buy and a forecaster that fails, for X4. *)
Lemma failed_forecast_after_a_buy :
  exists s1,
    _take_action example_env 0 (opened example_env) = (Ok tt, s1) /\
    exists price,
      _current_price example_env (opened example_env)
        = (Ok price, opened example_env) /\
      step no_forecast example_env 0 (opened example_env) =
        (Raise CollaboratorError,
         set_current_step (current_step (opened example_env) + 1) s1) /\
      net_worths s1 =
        net_worths (opened example_env)
          ++ [(balance s1 + btc_held s1 * price)%num].
Proof.
  eexists. split; [run | ].
  apply (@failed_observation_keeps_the_action float binary64 no_forecast
           example_env 0 (opened example_env)); run.
Defined.

(** The longest episode of the example: four steps, for X5. *)
Lemma longest_example_episode :
  exists results self',
    play Standin.collaborators example_env [0; 8; 4; 8]%Z Standin.blank
      = (Ok results, self') /\
    length results = 4 /\
    current_step self' = 4 /\
    ([0; 8; 4; 8]%Z <> [] ->
     4 + n_forecasts example_env <= len (df example_env)).
Proof.
  do 2 eexists. split; [run | ].
  apply (@episode_is_bounded_by_the_table float binary64 Standin.collaborators
           example_env [0; 8; 4; 8]%Z Standin.blank).
  run.
Defined.

(** The same episode, for X6: five net worths, the first the initial
    balance, and the third step, the one numbered
    [len(df) - n_forecasts - 1], reports [done]. *)
Lemma example_episode_ends :
  exists results self',
    play Standin.collaborators example_env [0; 8; 4; 8]%Z Standin.blank
      = (Ok results, self') /\
    nth_error (net_worths self') 0 = Some (initial_balance example_env) /\
    length (net_worths self') = 5 /\
    map (fun returned => snd (fst returned)) results
      = [false; false; true; false].
Proof.
  do 2 eexists. split; [run | ].
  edestruct (@episode_rewards_and_ends float binary64 Standin.collaborators
               example_env [0; 8; 4; 8]%Z Standin.blank)
    as (Hfirst & Hcount & _).
  - run.
  - split; [exact Hfirst | ]. split; [exact Hcount | reflexivity].
Defined.

(** The first observation of the example reads eleven rows, for X10. *)
Lemma first_observation_reads_eleven_rows :
  _next_observation Standin.collaborators
    (set_stationary_df (rows_to 11 (stationary_df example_env)) example_env)
    (opened example_env)
  = _next_observation Standin.collaborators example_env (opened example_env).
Proof.
  apply (@observation_reads_no_later_row float binary64 Standin.collaborators
           example_env (opened example_env) 11).
  - repeat constructor.
  - cbn. lia.
Defined.

(** The full buy of the example, for X11. *)
Lemma full_buy_is_booked :
  exists s1,
    _take_action example_env 0 (opened example_env) = (Ok tt, s1) /\
    exists price bought cost,
      _current_price example_env (opened example_env)
        = (Ok price, opened example_env) /\
      account_history s1 =
        [[10000; balance s1]; [0; bought]; [0; cost]; [0; 0]; [0; 0]]%float /\
      cost = (bought * (price * (1 + 0.0003)))%float /\
      balance s1 = (10000 - cost)%float.
Proof.
  eexists. split; [run | ].
  match goal with
  | |- context [account_history ?s] =>
      assert (Hrun : _take_action example_env 0 (opened example_env)
                     = (Ok tt, s)) by run
  end.
  destruct (@action_is_booked float binary64 example_env 0
              (opened example_env) _ eq_refl Hrun)
    as (price & action_type & bought & cost & sold & sales &
        r0 & r1 & r2 & r3 & r4 &
        Hprice & Htype & Hbefore & Hafter & _ & Hbuy & _).
  vm_compute in Htype. injection Htype as <-.
  destruct (Hbuy eq_refl) as (-> & -> & Hcost & Hbalance & _).
  vm_compute in Hbefore. injection Hbefore as <- <- <- <- <-.
  exists price, bought, cost.
  split; [exact Hprice | ]. split; [exact Hafter | ].
  split; [exact Hcost | exact Hbalance].
Defined.

(** The example has both columns, for X12. *)
Lemma example_is_indexed_and_dated :
  In "index"%string (columns (stationary_df example_env)) /\
  In "Date"%string (columns (stationary_df example_env)).
Proof.
  eapply (@observation_needs_index_and_date float binary64
            Standin.collaborators example_env standin_shapes_kept
            (opened example_env)).
  - do 6 eexists. reflexivity.
  - apply example_columns.
  - reflexivity.
  - reflexivity.
  - run.
Defined.

(** The example after [reset], in mode ['system'], for X14: four lines. *)
Lemma system_mode_after_reset :
  exists seen,
    render sign_of example_env "system" unseen = (Ok tt, seen) /\
    length (shown seen) = 4 /\
    ledger seen = ledger unseen.
Proof.
  edestruct (@system_mode_prints_the_last_column float binary64 sign_of
               example_env unseen)
    as (r0 & r1 & r2 & r3 & r4 & cost & sales & worth & _ & _ & _ & _ & Hshown).
  - repeat split. repeat constructor.
  - run.
  - eexists. split; [exact Hshown | ]. split; reflexivity.
Defined.

(** A window opened and closed, for X15. *)
Lemma window_opened_and_closed :
  one_window (snd (render sign_of example_env "human" unseen)) /\
  viewer (snd (render sign_of example_env "human" unseen))
    = Some (df example_env) /\
  one_window (snd (close (snd (render sign_of example_env "human" unseen)))) /\
  viewer (snd (close (snd (render sign_of example_env "human" unseen))))
    = None.
Proof.
  assert (Hnone : one_window unseen) by reflexivity.
  pose proof (@one_window_at_most float binary64 sign_of example_env
                "human" unseen Hnone) as (Hopened & _).
  pose proof (@one_window_at_most float binary64 sign_of example_env
                "human" _ Hopened) as (_ & Hclosed & Hviewer & _).
  split; [exact Hopened | ]. split; [reflexivity | ].
  split; [exact Hclosed | exact Hviewer].
Defined.

(** The fourteen bars of the example, split, for X16: twelve rows to
    train on and two to test on. *)
Lemma example_split :
  exists train test,
    train_df (Standin.bars
                [60; 61; 62; 63; 64; 65; 66; 67; 68; 69; 67; 70; 71; 72]%float)
      = Some train /\
    test_df (Standin.bars
               [60; 61; 62; 63; 64; 65; 66; 67; 68; 69; 67; 70; 71; 72]%float)
      = Some test /\
    len train = 12 /\ len test = 2.
Proof.
  edestruct (@split_keeps_every_row float
               (Standin.bars
                  [60; 61; 62; 63; 64; 65; 66; 67; 68; 69; 67; 70; 71; 72]%float))
    as (train & test & Htrain & Htest & _ & Hfifth & Hrest & _).
  - apply Nat.ltb_lt. vm_compute. reflexivity.
  - exists train, test. split; [exact Htrain | ]. split; [exact Htest | ].
    split; [exact Hrest | exact Hfifth].
Defined.

(** The first evaluation, after 250 time steps, for X17: the steps made
    complete five episodes, and the mean of their reward sums is 3. *)
Lemma first_evaluation :
  exists model',
    learn_callback every_third 15 (new_model 250) = (Ok (Some true), model') /\
    num_timesteps model' = 250%Z /\
    evaluations model' =
      Some {| is_pruned := false; last_mean_test_reward := 3%float;
              last_time_evaluated := 250; eval_idx := 1 |} /\
    outside model' = 15%Z /\
    exists returned rewards,
      steps_made every_third tt 0%Z returned 15%Z /\
      length (filter snd returned) = 5 /\
      rewards = episode_sums 0%float returned /\
      length rewards = 5 /\
      np_mean every_third rewards = 3%float.
Proof.
  eexists. split; [run | ].
  edestruct (@callback_evaluates_five_episodes float binary64 Z unit unit
               every_third 15 (new_model 250))
    as (Hsteps & _ & Hevaluated).
  - run.
  - split; [exact Hsteps | ].
    split; [reflexivity | ]. split; [reflexivity | ].
    destruct Hevaluated
      as (obs & w & returned & w1 & w2 & rewards & Hreset & Hmade & _ & Hdone &
          Hrewards & Hfive & Hreport & Hprune & Hattributes); [cbn; lia | ].
    injection Hreset as <- <-. injection Hreport as <-.
    injection Hprune as Hw1. cbn in Hw1. subst w1.
    vm_compute in Hattributes. injection Hattributes as Hmean.
    exists returned, rewards.
    split; [exact Hmade | ]. split; [exact Hdone | ].
    split; [exact Hrewards | ]. split; [exact Hfive | ].
    symmetry. exact Hmean.
Defined.

(** A later call on the pruned model, for X18. *)
Lemma pruned_model_stays_pruned :
  trial_verdict (snd (learn_callback every_third 15 pruned_model))
    = TrialPruned.
Proof.
  eapply (@pruning_is_final float binary64 Z unit unit every_third 15
            pruned_model).
  - reflexivity.
  - reflexivity.
  - apply surjective_pairing.
Defined.

(** A model called back once, before the first interval has passed, for
    X19: it costs [inf]. *)
Lemma early_trial_costs_infinity :
  trial_verdict (snd (learn_callback every_third 15 (new_model 100)))
    = Cost infinity.
Proof.
  pose proof (@unevaluated_trial_costs_infinity float binary64 Z unit unit
                every_third
                (snd (learn_callback every_third 15 (new_model 100)))) as Hcost.
  destruct Hcost as [_ Hcost].
  - eapply trained_called; [apply (trained_new every_third 100 0%Z) | ].
    apply surjective_pairing.
  - apply Hcost. reflexivity.
Defined.
